(** * Mimicus [featureedit_p3.py]: the feature validator and the byte patcher

    A shallow embedding of [FeatureEdit.check_feature_change_valid],
    [FeatureEdit.modify_file] and [FeatureEdit._insert_into_mmap], together
    with the feature catalog they consult.  Python objects are embedded as
    the inductive [value]; a raised exception is the [Raise] branch of the
    result type [res]; the memory-mapped working copy is a byte list with a
    file position. *)

From Stdlib Require Import ZArith List String Ascii Bool Lia Sorted OrderedTypeEx.
From Stdlib Require Import Strings.Byte DecimalString.
From Stdlib Require Import Floats.PrimFloat Floats.SpecFloat Floats.FloatOps.
Import ListNotations.

Set Warnings "-inexact-float".

Open Scope string_scope.
Open Scope list_scope.
Open Scope Z_scope.

(** ** Raised exceptions and the result type *)

(** The classes of the exceptions the modelled code can raise. *)
Inductive exn : Type :=
| KeyError
| TypeError
| ValueError
| IndexError
| OverflowError
| OSError
| ReaderError.

Inductive res (A : Type) : Type :=
| Ok (a : A)
| Raise (e : exn).

Arguments Ok {A} a.
Arguments Raise {A} e.

Definition bind {A B : Type} (c : res A) (k : A -> res B) : res B :=
  match c with
  | Ok a => k a
  | Raise e => Raise e
  end.

Declare Scope res_scope.
Delimit Scope res_scope with res.
Notation "x <- c ;; k" := (bind c (fun x => k))
  (at level 61, c at next level, right associativity) : res_scope.
Notation "' p <- c ;; k" := (bind c (fun p => k))
  (at level 61, p pattern, c at next level, right associativity) : res_scope.
Open Scope res_scope.

(** ** The memory-mapped file

    [mmap.mmap] over the staged copy: the mapped bytes and the file
    position used by [seek] and [write]. *)

Record mmap : Type := MMap {
  mm_buf : list byte;
  mm_pos : Z
}.

Definition len {A : Type} (l : list A) : Z := Z.of_nat (List.length l).

(** [mmap.size()] *)
Definition mm_size (mm : mmap) : Z := len (mm_buf mm).

(** Python slice [l[i:j]] for [0 <= i]. *)
Definition slice {A : Type} (l : list A) (i j : Z) : list A :=
  firstn (Z.to_nat (j - i)) (skipn (Z.to_nat i) l).

(** [mmap.resize(newsize)]: the file is truncated or extended with zero
    bytes; a size that is not positive is refused. *)
Definition mm_resize (mm : mmap) (newsize : Z) : res mmap :=
  if newsize <? 0 then Raise ValueError
  else if newsize =? 0 then Raise OSError
  else
    let n := Z.to_nat newsize in
    let old := mm_buf mm in
    Ok (MMap (firstn n old ++ repeat x00 (n - List.length old)) (mm_pos mm)).

(** [mmap.move(dest, src, count)]: copies [count] bytes from [src] to
    [dest] (as memmove does); out-of-range arguments raise [ValueError]. *)
Definition mm_move (mm : mmap) (dest src count : Z) : res mmap :=
  let size := mm_size mm in
  if (dest <? 0) || (src <? 0) || (count <? 0)
     || (size - dest <? count) || (size - src <? count)
  then Raise ValueError
  else
    let buf := mm_buf mm in
    Ok (MMap (firstn (Z.to_nat dest) buf
              ++ slice buf src (src + count)
              ++ skipn (Z.to_nat (dest + count)) buf) (mm_pos mm)).

(** [mmap.seek(pos)] with the default [whence]. *)
Definition mm_seek (mm : mmap) (pos : Z) : res mmap :=
  if (pos <? 0) || (mm_size mm <? pos) then Raise ValueError
  else Ok (MMap (mm_buf mm) pos).

(** What a caller can hand to [mmap.write]: a [str] or a [bytes] object. *)
Inductive strlike : Type :=
| PyStr (s : string)
| PyBytes (b : list byte).

(** [mmap.write(data)]: only a bytes-like object is accepted; it is written
    at the file position, which advances past it. *)
Definition mm_write (mm : mmap) (data : strlike) : res mmap :=
  match data with
  | PyStr _ => Raise TypeError
  | PyBytes b =>
      let pos := mm_pos mm in
      if mm_size mm - pos <? len b then Raise ValueError
      else
        let buf := mm_buf mm in
        Ok (MMap (firstn (Z.to_nat pos) buf ++ b
                  ++ skipn (Z.to_nat (pos + len b)) buf) (pos + len b))
  end.

(** [mm[i] = v] for an integer [v]: a single byte is replaced. *)
Definition mm_setitem (mm : mmap) (i : Z) (v : Z) : res mmap :=
  let size := mm_size mm in
  let i' := if i <? 0 then i + size else i in
  if (i' <? 0) || (size <=? i') then Raise IndexError
  else
    match (if v <? 0 then None else Byte.of_N (Z.to_N v)) with
    | None => Raise ValueError
    | Some b =>
        let buf := mm_buf mm in
        Ok (MMap (firstn (Z.to_nat i') buf ++ b :: skipn (Z.to_nat (i' + 1)) buf)
                 (mm_pos mm))
    end.

(** [str.encode()]: UTF-8.  A [string] holds code points below 256: one
    below 128 is one byte, any other is two. *)
Definition encode_char (c : ascii) : list byte :=
  let n := N_of_ascii c in
  if (n <? 128)%N then [byte_of_ascii c]
  else
    match Byte.of_N (192 + N.shiftr n 6), Byte.of_N (128 + N.land n 63) with
    | Some b1, Some b2 => [b1; b2]
    | _, _ => []
    end.

Fixpoint encode (s : string) : list byte :=
  match s with
  | EmptyString => []
  | String c s' => encode_char c ++ encode s'
  end.

(** ** The byte patcher: [FeatureEdit._insert_into_mmap]

    The patcher state is the map together with [self.insert_offset]. *)
Record patcher : Type := Patcher {
  p_mm : mmap;
  insert_offset : Z
}.

Definition _insert_into_mmap (st : patcher) (data : string) : res patcher :=
  let mm := p_mm st in
  let off := insert_offset st in
  let file_trailer := mm_size mm - off in
  let data := encode data in
  mm1 <- mm_resize mm (mm_size mm + len data) ;;
  mm2 <- mm_move mm1 (off + len data) off file_trailer ;;
  mm3 <- mm_seek mm2 off ;;
  mm4 <- mm_write mm3 (PyBytes data) ;;
  Ok (Patcher mm4 (off + len data)).

(** Sequential insertions, each starting from the cursor the previous one
    left. *)
Fixpoint insert_all (st : patcher) (ds : list string) : res patcher :=
  match ds with
  | [] => Ok st
  | d :: ds' => st' <- _insert_into_mmap st d ;; insert_all st' ds'
  end.

(** The sum of the lengths [L1..LN] of the inserted data. *)
Definition total_length (ds : list string) : Z :=
  fold_right (fun d acc => len (encode d) + acc) 0 ds.

(** The byte at index [i], when there is one. *)
Definition byte_at (l : list byte) (i : Z) : option byte :=
  if i <? 0 then None else nth_error l (Z.to_nat i).

(** The invariant of the patcher state: a mapped file is never empty
    ([mmap.mmap] refuses an empty file) and the cursor lies inside it. *)
Definition cursor_ok (st : patcher) : Prop :=
  0 < mm_size (p_mm st) /\ 0 <= insert_offset st <= mm_size (p_mm st).

(** ** Python objects

    The values a feature can take, and the exception objects the validator
    returns (it returns them, it does not raise them). *)

Inductive pytype : Type := t_int | t_float | t_bool | t_exception.

Inductive value : Type :=
| VInt (z : Z)
| VFloat (f : float)
| VBool (b : bool)
| VTypeError (got expected : pytype)
| VReadOnlyFeatureError (feat : string)
| VMinimumExceededError (feat : string) (min got : value)
| VMaximumExceededError (feat : string) (max got : value)
| VException (e : exn).

(** [type(v)]; every exception class is told apart from the three feature
    types, which is all the validator looks at. *)
Definition type (v : value) : pytype :=
  match v with
  | VInt _ => t_int
  | VFloat _ => t_float
  | VBool _ => t_bool
  | _ => t_exception
  end.

Definition pytype_eqb (a b : pytype) : bool :=
  match a, b with
  | t_int, t_int | t_float, t_float | t_bool, t_bool
  | t_exception, t_exception => true
  | _, _ => false
  end.

(** [isinstance(v, Exception)] *)
Definition isinstance_Exception (v : value) : bool :=
  match v with
  | VInt _ | VFloat _ | VBool _ => false
  | _ => true
  end.

(** The numeric view of a value: [bool] is a subclass of [int]. *)
Inductive num : Type := NZ (z : Z) | NF (f : float).

Definition as_num (v : value) : option num :=
  match v with
  | VInt z => Some (NZ z)
  | VBool b => Some (NZ (Z.b2z b))
  | VFloat f => Some (NF f)
  | _ => None
  end.

(** [float(z)]: the nearest double, [OverflowError] when there is none. *)
Definition float_of_Z (z : Z) : res float :=
  let f := SF2Prim (binary_normalize prec emax z 0 false) in
  if PrimFloat.is_infinity f then Raise OverflowError else Ok f.

(** The exact comparison of an integer with a double, [None] for a NaN. *)
Definition compare_Z_float (z : Z) (f : float) : option comparison :=
  match Prim2SF f with
  | S754_zero _ => Some (z ?= 0)
  | S754_infinity s => Some (if s then Gt else Lt)
  | S754_nan => None
  | S754_finite s m e =>
      let mz := if s then Z.neg m else Z.pos m in
      Some (if 0 <=? e then z ?= mz * 2 ^ e else z * 2 ^ (- e) ?= mz)
  end.

Definition is_Eq (c : option comparison) : bool :=
  match c with Some Eq => true | _ => false end.
Definition is_Lt (c : option comparison) : bool :=
  match c with Some Lt => true | _ => false end.
Definition is_Gt (c : option comparison) : bool :=
  match c with Some Gt => true | _ => false end.

(** [a == b].  Exception objects compare by identity, and the objects
    compared here are never the same object. *)
Definition py_eq (a b : value) : bool :=
  match as_num a, as_num b with
  | Some (NZ x), Some (NZ y) => x =? y
  | Some (NF x), Some (NF y) => PrimFloat.eqb x y
  | Some (NZ x), Some (NF y) => is_Eq (compare_Z_float x y)
  | Some (NF x), Some (NZ y) => is_Eq (compare_Z_float y x)
  | _, _ => false
  end.

(** [a != b] *)
Definition py_ne (a b : value) : bool := negb (py_eq a b).

(** [a < b]; ordering an exception object raises [TypeError]. *)
Definition py_lt (a b : value) : res bool :=
  match as_num a, as_num b with
  | Some (NZ x), Some (NZ y) => Ok (x <? y)
  | Some (NF x), Some (NF y) => Ok (PrimFloat.ltb x y)
  | Some (NZ x), Some (NF y) => Ok (is_Lt (compare_Z_float x y))
  | Some (NF x), Some (NZ y) => Ok (is_Gt (compare_Z_float y x))
  | _, _ => Raise TypeError
  end.

(** [a > b] *)
Definition py_gt (a b : value) : res bool := py_lt b a.

(** [a - b] *)
Definition py_sub (a b : value) : res value :=
  match as_num a, as_num b with
  | Some (NZ x), Some (NZ y) => Ok (VInt (x - y))
  | Some (NF x), Some (NF y) => Ok (VFloat (PrimFloat.sub x y))
  | Some (NZ x), Some (NF y) =>
      fx <- float_of_Z x ;; Ok (VFloat (PrimFloat.sub fx y))
  | Some (NF x), Some (NZ y) =>
      fy <- float_of_Z y ;; Ok (VFloat (PrimFloat.sub x fy))
  | _, _ => Raise TypeError
  end.

(** [abs(a)] *)
Definition py_abs (a : value) : res value :=
  match as_num a with
  | Some (NZ x) => Ok (VInt (Z.abs x))
  | Some (NF x) => Ok (VFloat (PrimFloat.abs x))
  | None => Raise TypeError
  end.

(** [int(a)]: a double is truncated towards zero. *)
Definition py_int (a : value) : res Z :=
  match as_num a with
  | Some (NZ x) => Ok x
  | Some (NF f) =>
      match Prim2SF f with
      | S754_zero _ => Ok 0
      | S754_infinity _ => Raise OverflowError
      | S754_nan => Raise ValueError
      | S754_finite s m e =>
          let t := if 0 <=? e then Z.pos m * 2 ^ e else Z.pos m / 2 ^ (- e) in
          Ok (if s then - t else t)
      end
  | None => Raise TypeError
  end.

Fixpoint repeat_string (s : string) (n : nat) : string :=
  match n with
  | O => ""
  | S n' => (s ++ repeat_string s n')%string
  end.

(** [s * a]: a count that is not positive gives the empty string, a count
    that is not an integer raises [TypeError]. *)
Definition py_repeat (s : string) (a : value) : res string :=
  match a with
  | VInt z => Ok (repeat_string s (Z.to_nat z))
  | VBool b => Ok (repeat_string s (Z.to_nat (Z.b2z b)))
  | _ => Raise TypeError
  end.

(** [1e-6], the nearest double. *)
Definition near_equal_threshold : float := 0x1.0c6f7a0b5ed8dp-20%float.

(** ** Dictionaries

    A [dict] keeps its keys in insertion order; the loops below depend on
    that order. *)

Definition dict (V : Type) : Type := list (string * V).

Fixpoint dict_get {V : Type} (d : dict V) (k : string) : option V :=
  match d with
  | [] => None
  | (k', v) :: d' => if String.eqb k' k then Some v else dict_get d' k
  end.

Definition dict_mem {V : Type} (d : dict V) (k : string) : bool :=
  match dict_get d k with Some _ => true | None => false end.

(** [d[k] = v]: an existing key keeps its place, a new one goes last. *)
Fixpoint dict_set {V : Type} (d : dict V) (k : string) (v : V) : dict V :=
  match d with
  | [] => [(k, v)]
  | (k', v') :: d' =>
      if String.eqb k' k then (k', v) :: d' else (k', v') :: dict_set d' k v
  end.

(** [del d[k]] *)
Fixpoint dict_del {V : Type} (d : dict V) (k : string) : dict V :=
  match d with
  | [] => []
  | (k', v') :: d' =>
      if String.eqb k' k then d' else (k', v') :: dict_del d' k
  end.

Definition keys {V : Type} (d : dict V) : list string := map fst d.

(** [d[k]], raising [KeyError] for a missing key. *)
Definition dict_item {V : Type} (d : dict V) (k : string) : res V :=
  match dict_get d k with Some v => Ok v | None => Raise KeyError end.

(** [sorted(d.items())]: keys are distinct, so only they are compared. *)
Fixpoint insert_sorted {V : Type} (x : string * V) (l : list (string * V))
  : list (string * V) :=
  match l with
  | [] => [x]
  | y :: l' =>
      if String.leb (fst x) (fst y) then x :: l else y :: insert_sorted x l'
  end.

Definition sorted {V : Type} (l : list (string * V)) : list (string * V) :=
  fold_right insert_sorted [] l.

(** ** The feature catalog *)

(** A bound of a range: the marker class [FileDefined] or a literal. *)
Inductive bound : Type :=
| FileDefined
| Lit (v : value).

Inductive edit : Type := edit_y | edit_n | edit_m.

Record feat_desc : Type := Desc {
  desc_type : pytype;
  desc_range : bound * bound;
  desc_edit : edit
}.

Definition edit_eqb (a b : edit) : bool :=
  match a, b with
  | edit_y, edit_y | edit_n, edit_n | edit_m, edit_m => true
  | _, _ => false
  end.

Definition LF : string := String (ascii_of_nat 10) "".

(** Features which are simple to increment, each with the marker that is
    inserted. *)
Definition _incrementable_feats : dict string := [
  ("count_acroform", "/AcroForm");
  ("count_acroform_obs", "/Acro#46orm");
  ("count_action", "/AA");
  ("count_action_obs", "/Open#41ction");
  ("count_box_a4", "[0 0 597 842]");
  ("count_box_legal", "[0 0 611 1007]");
  ("count_box_letter", "[0 0 611 791]");
  ("count_box_other", "[33 34 35 36]");
  ("count_box_overlap", "[0 0 597 791]");
  ("count_endobj", "endobj");
  ("count_endstream", "endstream");
  ("count_eof", "%EOF");
  ("count_font", "/Font");
  ("count_font_obs", "/F#6fnt");
  ("count_image_large", "<< /Height 888/Width 888>>");
  ("count_image_med", "<< /Height 255/Width 255>>");
  ("count_image_small", "<< /Height 65/Width 65>>");
  ("count_image_xlarge", "<< /Height 8888/Width 8888>>");
  ("count_image_xsmall", "<< /Height 1/Width 1>>");
  ("count_javascript", "/JavaScript");
  ("count_javascript_obs", "/Jav#61Script");
  ("count_js", "/JS");
  ("count_js_obs", "/#4AS");
  ("count_obj", "22 0 obj");
  ("count_objstm", "/ObjStm");
  ("count_objstm_obs", "/Ob#6aStm");
  ("count_page", "/Page");
  ("count_page_obs", "/#50age");
  ("count_startxref", "startxref");
  ("count_stream", "stream");
  ("count_trailer", "trailer");
  ("count_xref", "xref")
].

(** Metadata features: the text before and after the [{}] of each format
    string. *)
Definition _metadata_feats : dict (string * string) := [
  ("author", (" /Author(", ")" ++ LF));
  ("creator", (" /Creator(", ")" ++ LF));
  ("keywords", (" /Keywords(", ")" ++ LF));
  ("producer", (" /Producer(", ")" ++ LF));
  ("subject", (" /Subject(", ")" ++ LF));
  ("title", (" /Title(", ")" ++ LF))
]%string.

Definition _pdfrate_feature_descriptions : dict feat_desc := [
  ("author_dot", Desc t_int (Lit (VInt 0), Lit (VInt 24)) edit_y);
  ("author_lc", Desc t_int (Lit (VInt 0), Lit (VInt 158)) edit_y);
  ("author_len", Desc t_int (Lit (VInt 0), Lit (VInt 288)) edit_m);
  ("author_mismatch", Desc t_int (FileDefined, Lit (VInt 45)) edit_m);
  ("author_num", Desc t_int (Lit (VInt 0), Lit (VInt 63)) edit_y);
  ("author_oth", Desc t_int (Lit (VInt 0), Lit (VInt 79)) edit_y);
  ("author_uc", Desc t_int (Lit (VInt 0), Lit (VInt 108)) edit_y);
  ("box_nonother_types", Desc t_int (FileDefined, Lit (VInt 2684)) edit_y);
  ("box_other_only", Desc t_bool (Lit (VBool false), Lit (VBool true)) edit_m);
  ("company_mismatch", Desc t_int (FileDefined, Lit (VInt 2)) edit_m);
  ("count_acroform", Desc t_int (FileDefined, Lit (VInt 7)) edit_y);
  ("count_acroform_obs", Desc t_int (FileDefined, Lit (VInt 1)) edit_y);
  ("count_action", Desc t_int (FileDefined, Lit (VInt 815)) edit_y);
  ("count_action_obs", Desc t_int (FileDefined, Lit (VInt 1)) edit_y);
  ("count_box_a4", Desc t_int (FileDefined, Lit (VInt 34)) edit_y);
  ("count_box_legal", Desc t_int (FileDefined, Lit (VInt 268)) edit_y);
  ("count_box_letter", Desc t_int (FileDefined, Lit (VInt 2684)) edit_y);
  ("count_box_other", Desc t_int (FileDefined, Lit (VInt 12916)) edit_y);
  ("count_box_overlap", Desc t_int (FileDefined, Lit (VInt 10)) edit_y);
  ("count_endobj", Desc t_int (FileDefined, Lit (VInt 19632)) edit_y);
  ("count_endstream", Desc t_int (FileDefined, Lit (VInt 6668)) edit_y);
  ("count_eof", Desc t_int (FileDefined, Lit (VInt 24)) edit_y);
  ("count_font", Desc t_int (FileDefined, Lit (VInt 7333)) edit_y);
  ("count_font_obs", Desc t_int (FileDefined, Lit (VInt 5)) edit_y);
  ("count_image_large", Desc t_int (FileDefined, Lit (VInt 35)) edit_y);
  ("count_image_med", Desc t_int (FileDefined, Lit (VInt 278)) edit_y);
  ("count_image_small", Desc t_int (FileDefined, Lit (VInt 311)) edit_y);
  ("count_image_total", Desc t_int (FileDefined, Lit (VInt 4542)) edit_n);
  ("count_image_xlarge", Desc t_int (FileDefined, Lit (VInt 3)) edit_y);
  ("count_image_xsmall", Desc t_int (FileDefined, Lit (VInt 4525)) edit_y);
  ("count_javascript", Desc t_int (FileDefined, Lit (VInt 404)) edit_y);
  ("count_javascript_obs", Desc t_int (FileDefined, Lit (VInt 2)) edit_y);
  ("count_js", Desc t_int (FileDefined, Lit (VInt 404)) edit_y);
  ("count_js_obs", Desc t_int (FileDefined, Lit (VInt 2)) edit_y);
  ("count_obj", Desc t_int (FileDefined, Lit (VInt 19632)) edit_y);
  ("count_objstm", Desc t_int (FileDefined, Lit (VInt 1036)) edit_y);
  ("count_objstm_obs", Desc t_int (FileDefined, Lit (VInt 1)) edit_y);
  ("count_page", Desc t_int (FileDefined, Lit (VInt 1341)) edit_y);
  ("count_page_obs", Desc t_int (FileDefined, Lit (VInt 6)) edit_y);
  ("count_startxref", Desc t_int (FileDefined, Lit (VInt 24)) edit_y);
  ("count_stream", Desc t_int (FileDefined, Lit (VInt 6668)) edit_y);
  ("count_stream_diff", Desc t_int (Lit (VInt (-2)), Lit (VInt 69)) edit_m);
  ("count_trailer", Desc t_int (FileDefined, Lit (VInt 46)) edit_y);
  ("count_xref", Desc t_int (FileDefined, Lit (VInt 46)) edit_y);
  ("createdate_dot", Desc t_int (Lit (VInt 0), Lit (VInt 1)) edit_n);
  ("createdate_mismatch", Desc t_int (FileDefined, Lit (VInt 92)) edit_m);
  ("createdate_ts", Desc t_int (Lit (VInt 0), Lit (VInt 2058951292)) edit_y);
  ("createdate_tz", Desc t_int (Lit (VInt (-36000)), Lit (VInt 46800)) edit_y);
  ("createdate_version_ratio", Desc t_float (Lit (VFloat (-1.0)), Lit (VFloat 7326.0)) edit_m);
  ("creator_dot", Desc t_int (Lit (VInt 0), Lit (VInt 5)) edit_y);
  ("creator_lc", Desc t_int (Lit (VInt 0), Lit (VInt 46)) edit_y);
  ("creator_len", Desc t_int (Lit (VInt 0), Lit (VInt 166)) edit_m);
  ("creator_mismatch", Desc t_int (FileDefined, Lit (VInt 45)) edit_m);
  ("creator_num", Desc t_int (Lit (VInt 0), Lit (VInt 105)) edit_y);
  ("creator_oth", Desc t_int (Lit (VInt 0), Lit (VInt 64)) edit_y);
  ("creator_uc", Desc t_int (Lit (VInt 0), Lit (VInt 31)) edit_y);
  ("delta_ts", Desc t_int (Lit (VInt (-1279940312)), Lit (VInt 1294753248)) edit_n);
  ("delta_tz", Desc t_int (Lit (VInt (-57600)), Lit (VInt 46800)) edit_n);
  ("image_mismatch", Desc t_int (FileDefined, Lit (VInt 207)) edit_m);
  ("image_totalpx", Desc t_int (FileDefined, Lit (VInt 119549960)) edit_m);
  ("keywords_dot", Desc t_int (Lit (VInt 0), Lit (VInt 5)) edit_y);
  ("keywords_lc", Desc t_int (Lit (VInt 0), Lit (VInt 291)) edit_y);
  ("keywords_len", Desc t_int (Lit (VInt 0), Lit (VInt 446)) edit_m);
  ("keywords_mismatch", Desc t_int (FileDefined, Lit (VInt 19)) edit_m);
  ("keywords_num", Desc t_int (Lit (VInt 0), Lit (VInt 102)) edit_y);
  ("keywords_oth", Desc t_int (Lit (VInt 0), Lit (VInt 185)) edit_y);
  ("keywords_uc", Desc t_int (Lit (VInt 0), Lit (VInt 164)) edit_y);
  ("len_obj_avg", Desc t_float (Lit (VFloat 0.1), Lit (VFloat 382922.0)) edit_m);
  ("len_obj_max", Desc t_int (FileDefined, Lit (VInt 4161352)) edit_m);
  ("len_obj_min", Desc t_int (Lit (VInt 6), FileDefined) edit_m);
  ("len_stream_avg", Desc t_float (Lit (VFloat 0.0), Lit (VFloat 1531433.0)) edit_m);
  ("len_stream_max", Desc t_int (FileDefined, Lit (VInt 4610074)) edit_m);
  ("len_stream_min", Desc t_int (Lit (VInt 0), FileDefined) edit_m);
  ("moddate_dot", Desc t_int (Lit (VInt 0), Lit (VInt 1)) edit_n);
  ("moddate_mismatch", Desc t_int (FileDefined, Lit (VInt 23)) edit_m);
  ("moddate_ts", Desc t_int (Lit (VInt 0), Lit (VInt 2058951292)) edit_y);
  ("moddate_tz", Desc t_int (Lit (VInt (-36000)), Lit (VInt 46800)) edit_y);
  ("moddate_version_ratio", Desc t_float (Lit (VFloat 0.1), Lit (VFloat 7390.0)) edit_m);
  ("pdfid0_dot", Desc t_int (Lit (VInt 0), Lit (VInt 1)) edit_m);
  ("pdfid0_lc", Desc t_int (Lit (VInt 0), Lit (VInt 21)) edit_m);
  ("pdfid0_len", Desc t_int (Lit (VInt 0), Lit (VInt 46)) edit_m);
  ("pdfid0_mismatch", Desc t_int (FileDefined, Lit (VInt 3)) edit_m);
  ("pdfid0_num", Desc t_int (Lit (VInt 0), Lit (VInt 44)) edit_m);
  ("pdfid0_oth", Desc t_int (Lit (VInt 0), Lit (VInt 1)) edit_m);
  ("pdfid0_uc", Desc t_int (Lit (VInt 0), Lit (VInt 21)) edit_m);
  ("pdfid1_dot", Desc t_int (Lit (VInt 0), Lit (VInt 1)) edit_m);
  ("pdfid1_lc", Desc t_int (Lit (VInt 0), Lit (VInt 21)) edit_m);
  ("pdfid1_len", Desc t_int (Lit (VInt 0), Lit (VInt 32)) edit_m);
  ("pdfid1_mismatch", Desc t_int (FileDefined, Lit (VInt 23)) edit_m);
  ("pdfid1_num", Desc t_int (Lit (VInt 0), Lit (VInt 32)) edit_m);
  ("pdfid1_oth", Desc t_int (Lit (VInt 0), Lit (VInt 1)) edit_m);
  ("pdfid1_uc", Desc t_int (Lit (VInt 0), Lit (VInt 22)) edit_m);
  ("pdfid_mismatch", Desc t_bool (Lit (VBool false), Lit (VBool true)) edit_m);
  ("pos_acroform_avg", Desc t_float (FileDefined, Lit (VFloat 1.0)) edit_m);
  ("pos_acroform_max", Desc t_float (FileDefined, Lit (VFloat 1.0)) edit_m);
  ("pos_acroform_min", Desc t_float (Lit (VFloat 0.0), Lit (VInt 1)) edit_m);  (* the source writes the range as (0.0, 1,0) *)
  ("pos_box_avg", Desc t_float (FileDefined, Lit (VFloat 1.0)) edit_m);
  ("pos_box_max", Desc t_float (FileDefined, Lit (VFloat 1.0)) edit_m);
  ("pos_box_min", Desc t_float (Lit (VFloat 0.0), Lit (VFloat 1.0)) edit_n);
  ("pos_eof_avg", Desc t_float (FileDefined, Lit (VFloat 1.0)) edit_m);
  ("pos_eof_max", Desc t_float (FileDefined, Lit (VFloat 1.0)) edit_n);
  ("pos_eof_min", Desc t_float (Lit (VFloat 0.0), FileDefined) edit_m);
  ("pos_image_avg", Desc t_float (FileDefined, Lit (VFloat 1.0)) edit_m);
  ("pos_image_max", Desc t_float (FileDefined, Lit (VFloat 1.0)) edit_m);
  ("pos_image_min", Desc t_float (Lit (VFloat 0.0), Lit (VFloat 1.0)) edit_m);
  ("pos_page_avg", Desc t_float (FileDefined, Lit (VFloat 1.0)) edit_m);
  ("pos_page_max", Desc t_float (FileDefined, Lit (VFloat 1.0)) edit_m);
  ("pos_page_min", Desc t_float (Lit (VFloat 0.0), Lit (VFloat 1.0)) edit_m);
  ("producer_dot", Desc t_int (Lit (VInt 0), Lit (VInt 1962)) edit_y);
  ("producer_lc", Desc t_int (Lit (VInt 0), Lit (VInt 7343)) edit_y);
  ("producer_len", Desc t_int (Lit (VInt 0), Lit (VInt 32566)) edit_m);
  ("producer_mismatch", Desc t_int (FileDefined, Lit (VInt 9)) edit_m);
  ("producer_num", Desc t_int (Lit (VInt 0), Lit (VInt 25302)) edit_y);
  ("producer_oth", Desc t_int (Lit (VInt 0), Lit (VInt 9233)) edit_y);
  ("producer_uc", Desc t_int (Lit (VInt 0), Lit (VInt 13)) edit_y);
  ("ratio_imagepx_size", Desc t_float (Lit (VFloat 0.0), Lit (VFloat 559.0)) edit_m);
  ("ratio_size_obj", Desc t_float (Lit (VFloat 24.0), Lit (VFloat 382971.0)) edit_m);
  ("ratio_size_page", Desc t_float (Lit (VFloat 266.0), Lit (VFloat 1.15e+13)) edit_m);
  ("ratio_size_stream", Desc t_float (Lit (VFloat 316.0), Lit (VFloat 39680000000.0)) edit_m);
  ("size", Desc t_int (FileDefined, Lit (VInt 10000000)) edit_y);
  ("subject_dot", Desc t_int (Lit (VInt 0), Lit (VInt 5)) edit_y);
  ("subject_lc", Desc t_int (Lit (VInt 0), Lit (VInt 256)) edit_y);
  ("subject_len", Desc t_int (Lit (VInt 0), Lit (VInt 413)) edit_m);
  ("subject_mismatch", Desc t_int (FileDefined, Lit (VInt 15)) edit_m);
  ("subject_num", Desc t_int (Lit (VInt 0), Lit (VInt 113)) edit_y);
  ("subject_oth", Desc t_int (Lit (VInt 0), Lit (VInt 82)) edit_y);
  ("subject_uc", Desc t_int (Lit (VInt 0), Lit (VInt 94)) edit_y);
  ("title_dot", Desc t_int (Lit (VInt 0), Lit (VInt 11)) edit_y);
  ("title_lc", Desc t_int (Lit (VInt 0), Lit (VInt 183)) edit_y);
  ("title_len", Desc t_int (Lit (VInt 0), Lit (VInt 698)) edit_m);
  ("title_mismatch", Desc t_int (FileDefined, Lit (VInt 517)) edit_m);
  ("title_num", Desc t_int (Lit (VInt 0), Lit (VInt 420)) edit_y);
  ("title_oth", Desc t_int (Lit (VInt 0), Lit (VInt 160)) edit_y);
  ("title_uc", Desc t_int (Lit (VInt 0), Lit (VInt 74)) edit_y);
  ("version", Desc t_int (Lit (VInt 1), Lit (VInt 8)) edit_y)
]%float.

(** A sorted list of feature names. *)
Definition _pdfrate_feature_names : list string :=
  keys (sorted _pdfrate_feature_descriptions).

(** ** What the edited code takes from outside

    The Python runtime functions whose results are only formatted into the
    date strings are kept abstract. *)

Record struct_time : Type := StructTime {
  tm_year : Z; tm_mon : Z; tm_mday : Z;
  tm_hour : Z; tm_min : Z; tm_sec : Z
}.

Record Runtime : Type := {
  (** [time.gmtime(secs)] *)
  gmtime : value -> res struct_time;
  (** ["{h:0>2}".format(h = abs(tz) / 3600)]: a true division, so the
      text of a float *)
  format_tz_hours : value -> res string;
  (** ["{m:0>2}".format(m = (abs(tz) % 3600) / 60)] *)
  format_tz_minutes : value -> res string
}.

(** A [FeatureEdit] object: the bytes of the file at [self.pdf] and what the
    structural property reader (the perl regular expressions run on that
    file) answers.  The [get_] methods are cached, so each has one answer.
    The reader is not embedded: a theorem holds for every reader. *)
Record FeatureEdit : Type := {
  (** the content of the file [self.pdf] *)
  pdf : list byte;
  (** [getattr(self, 'get_' + name)()] *)
  get_ : string -> res value;
  (** [self._get_startxref_position()] *)
  _get_startxref_position : Z;
  (** the last [/ModDate(...)] of the file, when there is one: its offset
      and its text up to the first space *)
  moddate_anchor : option (Z * list byte);
  (** the same for the last [<xap:CreateDate>] element *)
  createdate_anchor : option (Z * list byte);
  (** [FeatureEdit(path).retrieve_feature_vector_numpy()] on a produced
      file with the given content *)
  reread : list byte -> res (list value)
}.

(** [self.retrieve_feature_dictionary()]: every catalog name with what its
    getter returns, or with the exception it raises. *)
Definition retrieve_feature_dictionary (self : FeatureEdit) : dict value :=
  map (fun method =>
         (method, match get_ self method with
                  | Ok r => r
                  | Raise ex => VException ex
                  end))
      _pdfrate_feature_names.

(** ** The validator: [FeatureEdit.check_feature_change_valid]

    The result is [True] or the exception object describing the refusal. *)
Definition check_feature_change_valid
    (self : FeatureEdit) (feat_name : string) (feat_val : value) : res value :=
  feat_desc <- dict_item _pdfrate_feature_descriptions feat_name ;;
  if negb (pytype_eqb (desc_type feat_desc) (type feat_val)) then
    Ok (VTypeError (type feat_val) (desc_type feat_desc))
  else if negb (edit_eqb (desc_edit feat_desc) edit_y) then
    Ok (VReadOnlyFeatureError feat_name)
  else if pytype_eqb (type feat_val) t_bool then
    Ok (VBool true)
  else
    current_value <- get_ self feat_name ;;
    below <-
      match fst (desc_range feat_desc) with
      | FileDefined =>
          gt <- py_gt current_value feat_val ;;
          Ok (if gt
              then Some (VMinimumExceededError feat_name current_value feat_val)
              else None)
      | Lit lo =>
          gt <- py_gt lo feat_val ;;
          Ok (if gt
              then Some (VMinimumExceededError feat_name lo feat_val)
              else None)
      end ;;
    match below with
    | Some err => Ok err
    | None =>
        above <-
          match snd (desc_range feat_desc) with
          | FileDefined =>
              lt <- py_lt current_value feat_val ;;
              Ok (if lt
                  then Some (VMaximumExceededError feat_name current_value feat_val)
                  else None)
          | Lit hi =>
              lt <- py_lt hi feat_val ;;
              Ok (if lt
                  then Some (VMaximumExceededError feat_name hi feat_val)
                  else None)
          end ;;
        match above with
        | Some err => Ok err
        | None => Ok (VBool true)
        end
    end.

(** ** The orchestrator: [FeatureEdit.modify_file]

    The state the steps share: the map with the insertion cursor, the
    report and the changes still to apply.  [validator_calls] is a ghost
    field: the arguments of the validator calls made so far. *)
Record state : Type := State {
  st_patcher : patcher;
  report : dict value;
  to_change : dict value;
  validator_calls : list (string * value)
}.

Definition set_patcher (st : state) (p : patcher) : state :=
  State p (report st) (to_change st) (validator_calls st).

(** [report[feat] = to_change[feat]; del to_change[feat]] *)
Definition report_and_del (st : state) (feat : string) : res state :=
  v <- dict_item (to_change st) feat ;;
  Ok (State (st_patcher st) (dict_set (report st) feat v)
            (dict_del (to_change st) feat) (validator_calls st)).

(** [self._insert_into_mmap(mm, data)] on the state. *)
Definition insert (st : state) (data : string) : res state :=
  p <- _insert_into_mmap (st_patcher st) data ;;
  Ok (set_patcher st p).

(** *** Step 1: which of the requested features can be modified *)

(** [abs(cur - feat_val) < 1e-6] *)
Definition near_equal (cur feat_val : value) : res bool :=
  d <- py_sub cur feat_val ;;
  a <- py_abs d ;;
  py_lt a (VFloat near_equal_threshold).

Definition diff_item (self : FeatureEdit) (features_current : dict value)
    (st : state) (item : string * value) : res state :=
  let (feat, feat_val) := item in
  cur <- dict_item features_current feat ;;
  if py_ne cur feat_val && negb (isinstance_Exception feat_val) then
    near <-
      (if pytype_eqb (type feat_val) t_float then near_equal cur feat_val
       else Ok false) ;;
    if near then Ok st
    else
      valid <- check_feature_change_valid self feat feat_val ;;
      let calls := validator_calls st ++ [(feat, feat_val)] in
      if py_eq valid (VBool true) then
        Ok (State (st_patcher st) (report st)
                  (dict_set (to_change st) feat feat_val) calls)
      else
        Ok (State (st_patcher st) (dict_set (report st) feat valid)
                  (to_change st) calls)
  else Ok st.

Fixpoint diff_items (self : FeatureEdit) (features_current : dict value)
    (st : state) (items : list (string * value)) : res state :=
  match items with
  | [] => Ok st
  | item :: items' =>
      st' <- diff_item self features_current st item ;;
      diff_items self features_current st' items'
  end.

(** *** Step 2: the version digit *)

Definition is_digit (b : byte) : bool :=
  let n := Byte.to_N b in ((48 <=? n) && (n <=? 57))%N.

Fixpoint starts_with (p l : list byte) : bool :=
  match p, l with
  | [], _ => true
  | _ :: _, [] => false
  | a :: p', b :: l' => Byte.eqb a b && starts_with p' l'
  end.

(** Does [%PDF-1\.(\d)] match at the head of [l]? *)
Definition version_match_here (l : list byte) : bool :=
  starts_with (encode "%PDF-1.") l
  && match skipn 7 l with
     | d :: _ => is_digit d
     | [] => false
     end.

(** [_regex_pdf_version.search(mm)], as [match.start(1)] of the first
    match, scanning from offset [i]. *)
Fixpoint search_version (l : list byte) (i : Z) : option Z :=
  match l with
  | [] => None
  | _ :: l' =>
      if version_match_here l then Some (i + 7) else search_version l' (i + 1)
  end.

Definition _regex_pdf_version_search (mm : mmap) : option Z :=
  search_version (mm_buf mm) 0.

Definition modify_version (st : state) : res state :=
  match dict_get (to_change st) "version" with
  | Some version =>
      match _regex_pdf_version_search (p_mm (st_patcher st)) with
      | Some start1 =>
          v <- py_int version ;;
          mm' <- mm_setitem (p_mm (st_patcher st)) start1 v ;;
          report_and_del
            (set_patcher st (Patcher mm' (insert_offset (st_patcher st))))
            "version"
      | None => Ok st
      end
  | None => Ok st
  end.

(** *** Step 3: incrementable features *)

Definition modify_incrementable_feat (features_current : dict value)
    (st : state) (entry : string * string) : res state :=
  let (feat, marker) := entry in
  match dict_get (to_change st) feat with
  | Some new_val =>
      cur <- dict_item features_current feat ;;
      increase <- py_sub new_val cur ;;
      data <- py_repeat (" " ++ marker ++ LF)%string increase ;;
      st' <- insert st data ;;
      report_and_del st' feat
  | None => Ok st
  end.

Fixpoint modify_incrementable (features_current : dict value)
    (st : state) (feats : dict string) : res state :=
  match feats with
  | [] => Ok st
  | entry :: feats' =>
      st' <- modify_incrementable_feat features_current st entry ;;
      modify_incrementable features_current st' feats'
  end.

(** *** Step 4: metadata features *)

(** [s.endswith(suffix)] *)
Definition endswith (s suffix : string) : bool :=
  let n := String.length s in
  let k := String.length suffix in
  (k <=? n)%nat && String.eqb (substring (n - k) k s) suffix.

(** [s[i:]] *)
Definition drop (i : nat) (s : string) : string :=
  substring i (String.length s - i) s.

(** [f.startswith(feat_prefix) and not f.endswith(('mismatch', 'len'))] *)
Definition is_metadata_feat (feat_prefix f : string) : bool :=
  String.prefix feat_prefix f
  && negb (endswith f "mismatch" || endswith f "len").

(** The suffixes of the features of [to_change] with the given prefix. *)
Definition metadata_suffixes (feat_prefix : string) (to_change : dict value)
  : list string :=
  map (fun f => drop (String.length feat_prefix + 1) f)
      (filter (is_metadata_feat feat_prefix) (keys to_change)).

(** One round of the inner loop: the characters of a suffix are added to
    the addendum, and the feature is reported and dropped. *)
Definition metadata_suffix_step (feat_prefix : string)
    (acc : string * state) (feat_suffix : string) : res (string * state) :=
  let (addendum, st) := acc in
  let feat := (feat_prefix ++ "_" ++ feat_suffix)%string in
  v <- dict_item (to_change st) feat ;;
  addendum' <-
    (if String.eqb feat_suffix "lc" then
       s <- py_repeat "a" v ;; Ok (addendum ++ s)%string
     else if String.eqb feat_suffix "uc" then
       s <- py_repeat "Z" v ;; Ok (addendum ++ s)%string
     else if String.eqb feat_suffix "num" then
       s <- py_repeat "3" v ;; Ok (addendum ++ s)%string
     else if String.eqb feat_suffix "oth" then
       s <- py_repeat "-" v ;; Ok (addendum ++ s)%string
     else if String.eqb feat_suffix "dot" then
       s <- py_repeat "." v ;; Ok (addendum ++ s)%string
     else Ok addendum) ;;
  st' <- report_and_del st feat ;;
  Ok (addendum', st').

Fixpoint metadata_suffix_loop (feat_prefix : string)
    (acc : string * state) (suffixes : list string) : res (string * state) :=
  match suffixes with
  | [] => Ok acc
  | s :: suffixes' =>
      acc' <- metadata_suffix_step feat_prefix acc s ;;
      metadata_suffix_loop feat_prefix acc' suffixes'
  end.

Definition modify_metadata_field (st : state)
    (entry : string * (string * string)) : res state :=
  let '(feat_prefix, (before, after)) := entry in
  let metadata_feats := metadata_suffixes feat_prefix (to_change st) in
  '(addendum, st') <- metadata_suffix_loop feat_prefix ("", st) metadata_feats ;;
  if String.eqb addendum "" then Ok st'
  else insert st' (before ++ addendum ++ after)%string.

Fixpoint modify_metadata (st : state) (fields : dict (string * string))
  : res state :=
  match fields with
  | [] => Ok st
  | entry :: fields' =>
      st' <- modify_metadata_field st entry ;;
      modify_metadata st' fields'
  end.

(** *** Step 5: the two dates *)

(** [str(z)] *)
Definition str_of_Z (z : Z) : string := NilZero.string_of_int (Z.to_int z).

(** ["{x:0>w}".format(x = z)]: zeros are put in front up to width [w]. *)
Definition pad0 (w : nat) (s : string) : string :=
  (repeat_string "0" (w - String.length s) ++ s)%string.

(** ['{a.tm_year:0>4}{a.tm_mon:0>2}{a.tm_mday:0>2}{a.tm_hour:0>2}{a.tm_min:0>2}{a.tm_sec:0>2}'] *)
Definition format_moddate_ts (a : struct_time) : string :=
  (pad0 4 (str_of_Z (tm_year a)) ++ pad0 2 (str_of_Z (tm_mon a))
   ++ pad0 2 (str_of_Z (tm_mday a)) ++ pad0 2 (str_of_Z (tm_hour a))
   ++ pad0 2 (str_of_Z (tm_min a)) ++ pad0 2 (str_of_Z (tm_sec a)))%string.

(** ['{a.tm_year:0>4}-{a.tm_mon:0>2}-{a.tm_mday:0>2}T{a.tm_hour:0>2}:{a.tm_min:0>2}:{a.tm_sec:0>2}'] *)
Definition format_createdate_ts (a : struct_time) : string :=
  (pad0 4 (str_of_Z (tm_year a)) ++ "-" ++ pad0 2 (str_of_Z (tm_mon a))
   ++ "-" ++ pad0 2 (str_of_Z (tm_mday a)) ++ "T"
   ++ pad0 2 (str_of_Z (tm_hour a)) ++ ":" ++ pad0 2 (str_of_Z (tm_min a))
   ++ ":" ++ pad0 2 (str_of_Z (tm_sec a)))%string.

(** ["{sign}{h:0>2}<sep>{m:0>2}".format(sign = '+' if tz > 0 else '-', ...)] *)
Definition format_tz (py : Runtime) (sep : string) (tz : value) : res string :=
  positive <- py_gt tz (VInt 0) ;;
  h <- format_tz_hours py tz ;;
  m <- format_tz_minutes py tz ;;
  Ok ((if positive then "+" else "-") ++ h ++ sep ++ m)%string.

(** The end of both date steps: an existing date of the same length is
    overwritten in place with [mm.seek] and [mm.write]; otherwise the new
    field is inserted. *)
Definition write_date (st : state) (anchor : option (Z * list byte))
    (new_date : string) (new_field : string) : res state :=
  let insert_new := insert st new_field in
  match anchor with
  | Some (mod_location, old_date) =>
      if Z.of_nat (String.length new_date) =? len old_date then
        let p := st_patcher st in
        mm1 <- mm_seek (p_mm p) mod_location ;;
        mm2 <- mm_write mm1 (PyStr new_date) ;;
        Ok (set_patcher st (Patcher mm2 (insert_offset p)))
      else insert_new
  | None => insert_new
  end.

Definition modify_moddate (py : Runtime) (self : FeatureEdit) (st : state)
  : res state :=
  if dict_mem (to_change st) "moddate_ts" || dict_mem (to_change st) "moddate_tz"
  then
    '(ts_str, st) <-
      match dict_get (to_change st) "moddate_ts" with
      | Some ts =>
          a <- gmtime py ts ;;
          st' <- report_and_del st "moddate_ts" ;;
          Ok (format_moddate_ts a, st')
      | None =>
          ts <- get_ self "moddate_ts" ;;
          a <- gmtime py ts ;;
          Ok (format_moddate_ts a, st)
      end ;;
    '(tz_str, st) <-
      match dict_get (to_change st) "moddate_tz" with
      | Some new_tz =>
          tz_str <- (if py_eq new_tz (VInt 0) then Ok "Z"
                     else format_tz py "'" new_tz) ;;
          st' <- report_and_del st "moddate_tz" ;;
          Ok (tz_str, st')
      | None =>
          old_tz <- get_ self "moddate_tz" ;;
          tz_str <- (if py_ne old_tz (VInt 0) then format_tz py "'" old_tz
                     else Ok "Z") ;;
          Ok (tz_str, st)
      end ;;
    write_date st (moddate_anchor self)
               ("D:" ++ ts_str ++ tz_str)%string
               ("/ModDate(D:" ++ ts_str ++ tz_str ++ ")")%string
  else Ok st.

Definition modify_createdate (py : Runtime) (self : FeatureEdit) (st : state)
  : res state :=
  if dict_mem (to_change st) "createdate_ts"
     || dict_mem (to_change st) "createdate_tz"
  then
    '(ts_str, st) <-
      match dict_get (to_change st) "createdate_ts" with
      | Some ts =>
          a <- gmtime py ts ;;
          st' <- report_and_del st "createdate_ts" ;;
          Ok (format_createdate_ts a, st')
      | None =>
          ts <- get_ self "moddate_ts" ;;
          a <- gmtime py ts ;;
          Ok (format_createdate_ts a, st)
      end ;;
    '(tz_str, st) <-
      match dict_get (to_change st) "createdate_tz" with
      | Some new_tz =>
          tz_str <- (if py_eq new_tz (VInt 0) then Ok "Z"
                     else format_tz py ":" new_tz) ;;
          st' <- report_and_del st "createdate_tz" ;;
          Ok (tz_str, st')
      | None =>
          old_tz <- get_ self "createdate_tz" ;;
          tz_str <- (if py_ne old_tz (VInt 0) then format_tz py "'" old_tz
                     else Ok "Z") ;;
          Ok (tz_str, st)
      end ;;
    write_date st (createdate_anchor self)
               (ts_str ++ tz_str)%string
               ("<xap:CreateDate>" ++ ts_str ++ tz_str ++ "</xap:CreateDate>")%string
  else Ok st.

(** *** Step 6: the size, by inserting spaces *)

Definition modify_size (st : state) : res state :=
  match dict_get (to_change st) "size" with
  | Some size =>
      insert_count <- py_sub size (VInt (mm_size (p_mm (st_patcher st)))) ;;
      positive <- py_gt insert_count (VInt 0) ;;
      if positive then
        data <- py_repeat " " insert_count ;;
        st' <- insert st data ;;
        report_and_del st' "size"
      else Ok st
  | None => Ok st
  end.

(** *** Step 7: the report and the result *)

(** An entry of the returned report: [{'success': ..., 'val': ...}]. *)
Record outcome : Type := Outcome {
  success : bool;
  val : value
}.

Definition final_report (report to_change : dict value) : dict outcome :=
  let reported :=
    map (fun kv : string * value =>
           (fst kv, Outcome (negb (isinstance_Exception (snd kv))) (snd kv)))
        report in
  fold_left (fun r (kv : string * value) =>
               dict_set r (fst kv) (Outcome false (snd kv)))
            to_change reported.

(** What [modify_file] returns: the content of the file at ['path'], the
    report, and the feature vector read back from that file. *)
Record result : Type := Result {
  path_content : list byte;
  res_report : dict outcome;
  feats : list value
}.

(** The state after step 1: the staged copy is mapped, the cursor is reset,
    and the requested features are told apart. *)
Definition stage_and_validate (self : FeatureEdit) (features : dict value)
  : res state :=
  mm <- (if len (pdf self) =? 0 then Raise ValueError
         else Ok (MMap (pdf self) 0)) ;;
  let st := State (Patcher mm (_get_startxref_position self)) [] [] [] in
  diff_items self (retrieve_feature_dictionary self) st (sorted features).

(** Steps 2 to 5, in the order of the source. *)
Definition apply_edits (py : Runtime) (self : FeatureEdit) (st : state)
  : res state :=
  st <- modify_version st ;;
  st <- modify_incrementable (retrieve_feature_dictionary self) st
                             _incrementable_feats ;;
  st <- modify_metadata st _metadata_feats ;;
  st <- modify_moddate py self st ;;
  modify_createdate py self st.

Definition finish (self : FeatureEdit) (st : state) : res result :=
  let content := mm_buf (p_mm (st_patcher st)) in
  new_feats <- reread self content ;;
  Ok (Result content (final_report (report st) (to_change st)) new_feats).

(** [modify_file(features)] for a dictionary [features] (and the default
    [verbose = False]). *)
Definition modify_file (py : Runtime) (self : FeatureEdit)
    (features : dict value) : res result :=
  st <- stage_and_validate self features ;;
  st <- apply_edits py self st ;;
  st <- modify_size st ;;
  finish self st.

(** ** The vocabulary of the statements *)

(** The request without the entry of one feature. *)
Definition without (feat : string) (features : dict value) : dict value :=
  filter (fun kv => negb (String.eqb (fst kv) feat)) features.

(** The bound a range check uses: the current value where the bound is
    file-defined. *)
Definition effective_bound (b : bound) (current_value : value) : value :=
  match b with
  | FileDefined => current_value
  | Lit v => v
  end.

(** The order [sorted] puts the items in. *)
Definition key_le {V : Type} (x y : string * V) : Prop :=
  String.leb (fst x) (fst y) = true.

(** The working buffer and the insertion cursor of a state. *)
Definition buffer (st : state) : list byte := mm_buf (p_mm (st_patcher st)).
Definition cursor (st : state) : Z := insert_offset (st_patcher st).

(** The cursor invariant, and [to_change] is a dictionary. *)
Definition wf (st : state) : Prop :=
  cursor_ok (st_patcher st) /\ NoDup (keys (to_change st)).

(** What a step may do to a feature [k]: leave both of its entries alone,
    or, for a feature the step handles ([P k]), move its pending value to
    the report. *)
Definition moved (P : string -> bool) (st st' : state) : Prop :=
  forall k,
    (dict_get (to_change st') k = dict_get (to_change st) k
     /\ dict_get (report st') k = dict_get (report st) k)
    \/ (P k = true
        /\ exists v, dict_get (to_change st) k = Some v
                     /\ dict_get (to_change st') k = None
                     /\ dict_get (report st') k = Some v).

(** What a step guarantees: the invariant, the movement of entries, the
    validator log, and a buffer that does not shrink. *)
Definition advanced (P : string -> bool) (st st' : state) : Prop :=
  NoDup (keys (to_change st')) /\ moved P st st'
  /\ validator_calls st' = validator_calls st
  /\ (cursor_ok (st_patcher st) ->
      cursor_ok (st_patcher st') /\ len (buffer st) <= len (buffer st')).

Definition step_spec (P : string -> bool) (f : state -> res state) : Prop :=
  forall st st',
    NoDup (keys (to_change st)) -> f st = Ok st' -> advanced P st st'.

(** The features steps 2 to 5 handle. *)
Definition handled_before_size (k : string) : bool :=
  String.eqb k "version"
  || dict_mem _incrementable_feats k
  || existsb (fun e => String.prefix (fst e ++ "_") k) _metadata_feats
  || String.eqb k "moddate_ts" || String.eqb k "moddate_tz"
  || String.eqb k "createdate_ts" || String.eqb k "createdate_tz".

Definition moddate_handled (k : string) : bool :=
  String.eqb "moddate_ts" k || String.eqb "moddate_tz" k.

Definition createdate_handled (k : string) : bool :=
  String.eqb "createdate_ts" k || String.eqb "createdate_tz" k.

(** A pending change is an accepted one: it differs from the current value
    and the validator answered [True]. *)
Definition accepted (self : FeatureEdit) (k : string) (v : value) : Prop :=
  exists cur,
    dict_get (retrieve_feature_dictionary self) k = Some cur
    /\ py_ne cur v = true
    /\ check_feature_change_valid self k v = Ok (VBool true).

Definition all_accepted (self : FeatureEdit) (st : state) : Prop :=
  forall k v, dict_get (to_change st) k = Some v -> accepted self k v.

(** What step 1 records in the report are refusals, for features that are
    not pending. *)
Definition rejections_only (st : state) : Prop :=
  forall k e,
    dict_get (report st) k = Some e ->
    isinstance_Exception e = true /\ dict_get (to_change st) k = None.

(** *** Metadata fields: what the composed text is made of *)


(** The representative character of a class. *)
Definition class_char (feat_suffix : string) : option string :=
  if String.eqb feat_suffix "lc" then Some "a"
  else if String.eqb feat_suffix "uc" then Some "Z"
  else if String.eqb feat_suffix "num" then Some "3"
  else if String.eqb feat_suffix "oth" then Some "-"
  else if String.eqb feat_suffix "dot" then Some "."
  else None.

(** The classes with their representative characters, as a table. *)
Definition class_table : list (string * ascii) :=
  [("lc", "a"%char); ("uc", "Z"%char); ("num", "3"%char); ("oth", "-"%char);
   ("dot", "."%char)].





(** ** Checks of the catalog, decided by evaluation *)

(** An editable feature is an integer feature whose literal bounds are
    integers; a boolean feature is one of the two named ones and is only
    indirectly editable. *)
Definition int_bound (b : bound) : bool :=
  match b with
  | FileDefined => true
  | Lit (VInt _) => true
  | Lit _ => false
  end.

Definition editable_is_int (entry : string * feat_desc) : bool :=
  let d := snd entry in
  if edit_eqb (desc_edit d) edit_y
  then pytype_eqb (desc_type d) t_int
       && int_bound (fst (desc_range d)) && int_bound (snd (desc_range d))
  else true.

Definition boolean_is_indirect (entry : string * feat_desc) : bool :=
  let d := snd entry in
  if pytype_eqb (desc_type d) t_bool
  then (String.eqb (fst entry) "box_other_only"
        || String.eqb (fst entry) "pdfid_mismatch")
       && edit_eqb (desc_edit d) edit_m
  else true.





(** ** A sample document *)

(** [gmtime] for a number of seconds, over the proleptic Gregorian
    calendar (days are counted from 1970-01-01). *)
Definition civil_from_days (days : Z) : Z * Z * Z :=
  let z := days + 719468 in
  let era := z / 146097 in
  let doe := z - era * 146097 in
  let yoe := (doe - doe / 1460 + doe / 36524 - doe / 146096) / 365 in
  let doy := doe - (365 * yoe + yoe / 4 - yoe / 100) in
  let mp := (5 * doy + 2) / 153 in
  let d := doy - (153 * mp + 2) / 5 + 1 in
  let m := if mp <? 10 then mp + 3 else mp - 9 in
  let y := yoe + era * 400 in
  ((if m <=? 2 then y + 1 else y), m, d).

Definition gmtime_utc (secs : value) : res struct_time :=
  match secs with
  | VInt s =>
      let '(y, m, d) := civil_from_days (s / 86400) in
      let r := s mod 86400 in
      Ok (StructTime y m d (r / 3600) (r mod 3600 / 60) (r mod 60))
  | _ => Raise TypeError
  end.

(** A runtime for integer timestamps whose float formatting answers with
    the given texts. *)
Definition runtime_answering (h m : string) : Runtime :=
  {| gmtime := gmtime_utc;
     format_tz_hours := fun _ => Ok h;
     format_tz_minutes := fun _ => Ok m |}.

(** A small document, in pieces, and the reader's answers for it. *)
Definition sample_head : string :=
  ("%PDF-1.3" ++ LF ++ "1 0 obj" ++ LF ++ "<< /Author(abcde) /ModDate(")%string.
Definition sample_moddate : string := "D:20120101000000Z".
Definition sample_middle : string :=
  (") >>" ++ LF ++ "endobj" ++ LF ++ "<xap:CreateDate>")%string.
Definition sample_createdate : string := "2010-01-01T00:00:00+01:00".
Definition sample_tail : string := ("</xap:CreateDate>" ++ LF)%string.
Definition sample_trailer : string :=
  ("startxref" ++ LF ++ "0" ++ LF ++ "%%EOF" ++ LF)%string.

Definition sample_body : string :=
  (sample_head ++ sample_moddate ++ sample_middle ++ sample_createdate
   ++ sample_tail)%string.

Definition sample_pdf : list byte := encode (sample_body ++ sample_trailer).

(** What the getters answer on the sample: the features the text fixes,
    and for the others a value of the declared type. *)
Definition sample_get (name : string) : res value :=
  if String.eqb name "version" then Ok (VInt 3)
  else if String.eqb name "size" then Ok (VInt (len sample_pdf))
  else if String.eqb name "author_lc" then Ok (VInt 5)
  else if String.eqb name "author_len" then Ok (VInt 5)
  else if String.eqb name "count_obj" then Ok (VInt 1)
  else if String.eqb name "count_endobj" then Ok (VInt 1)
  else if String.eqb name "count_startxref" then Ok (VInt 1)
  else if String.eqb name "count_eof" then Ok (VInt 1)
  else if String.eqb name "moddate_ts" then Ok (VInt 1325376000)
  else if String.eqb name "moddate_tz" then Ok (VInt 0)
  else if String.eqb name "createdate_ts" then Ok (VInt 1262300400)
  else if String.eqb name "createdate_tz" then Ok (VInt 3600)
  else
    match dict_get _pdfrate_feature_descriptions name with
    | Some d =>
        match desc_type d with
        | t_int => Ok (VInt 0)
        | t_float => Ok (VFloat (-1))
        | _ => Ok (VBool false)
        end
    | None => Raise ReaderError
    end.

(** The sample as a [FeatureEdit].  Reading a produced file back is the
    reader's work and is left out of the sample: it answers with an empty
    vector. *)
Definition sample : FeatureEdit :=
  {| pdf := sample_pdf;
     get_ := sample_get;
     _get_startxref_position := len (encode sample_body);
     moddate_anchor :=
       Some (len (encode sample_head), encode sample_moddate);
     createdate_anchor :=
       Some (len (encode (sample_head ++ sample_moddate ++ sample_middle)),
             encode sample_createdate);
     reread := fun _ => Ok [] |}.

(** The runtime used to run the sample: the requests below never reach the
    float formatting. *)
Definition sample_runtime : Runtime := runtime_answering "0.0" "0.0".

(** ** The helpers of the module *)

(** *** [_sanitize_PDF_literal_string] *)

(** The scan of [bytes.replace] for a pattern [old] that is not empty:
    occurrences are taken from the left and do not overlap.  [skip] counts
    the bytes of the occurrence just replaced that are still to pass. *)
Fixpoint replace_from (old new : list byte) (skip : nat) (s : list byte)
  : list byte :=
  match s with
  | [] => []
  | b :: s' =>
      match skip with
      | S k => replace_from old new k s'
      | O =>
          if starts_with old s
          then new ++ replace_from old new (pred (List.length old)) s'
          else b :: replace_from old new O s'
      end
  end.

(** [s.replace(old, new)] on [bytes]; an empty [old] matches before every
    byte and at the end. *)
Definition bytes_replace (old new s : list byte) : list byte :=
  match old with
  | [] => new ++ flat_map (fun b => b :: new) s
  | _ :: _ => replace_from old new 0 s
  end.

(** The bytes the literals of the function denote: ['\\'] is one
    backslash, and the escapes of [b'\('] and [b'\)'] are unknown to Python,
    which keeps their backslash. *)
Definition BS : byte := x5c.
Definition NL : byte := x0a.
Definition CR : byte := x0d.
Definition TAB : byte := x09.
Definition BEL : byte := x08.
Definition FF : byte := x0c.
Definition LPAR : byte := x28.
Definition RPAR : byte := x29.

Definition _sanitize_PDF_literal_string (pdfstr : list byte) : list byte :=
  let pdfstr := bytes_replace [NL] [NL] pdfstr in
  let pdfstr := bytes_replace [CR] [CR] pdfstr in
  let pdfstr := bytes_replace [TAB] [TAB] pdfstr in
  let pdfstr := bytes_replace [BEL] [BEL] pdfstr in
  let pdfstr := bytes_replace [FF] [FF] pdfstr in
  let pdfstr := bytes_replace [BS; LPAR] [LPAR] pdfstr in
  let pdfstr := bytes_replace [BS; RPAR] [RPAR] pdfstr in
  let pdfstr := bytes_replace [BS] [BS] pdfstr in
  let pdfstr := bytes_replace [BS; NL] [] pdfstr in
  let pdfstr := bytes_replace [CR; NL] [NL] pdfstr in
  let pdfstr := bytes_replace [CR] [NL] pdfstr in
  pdfstr.

(** The line endings of a string made line feeds, as a reader of the
    function would put it: a carriage return, together with the line feed
    that follows it if there is one, becomes one line feed, and every other
    byte is kept. *)
Fixpoint line_feeds (s : list byte) : list byte :=
  match s with
  | [] => []
  | b :: s' =>
      if Byte.eqb CR b
      then match s' with
           | c :: s'' =>
               if Byte.eqb NL c then NL :: line_feeds s''
               else NL :: line_feeds s'
           | [] => [NL]
           end
      else b :: line_feeds s'
  end.

(** *** [CachedMethod]

    The decorated method reads and writes the attributes of its object.
    [computed] is a ghost field: the names of the decorated functions that
    have been run, in the order of their runs. *)
Record object : Type := Obj {
  attrs : dict value;
  computed : list string
}.

(** ['_{}_attr'.format(self._calculate.__name__)] *)
Definition attr_name (name : string) : string := "_" ++ name ++ "_attr".

(** [obj.method()] for a method decorated with [CachedMethod]:
    [__get__] followed by the call of the function it returns. *)
Definition CachedMethod_get (name : string)
    (_calculate : dict value -> res (value * dict value)) (obj : object)
  : res (value * object) :=
  match dict_get (attrs obj) (attr_name name) with
  | Some v => Ok (v, obj)
  | None =>
      '(v, attrs') <- _calculate (attrs obj) ;;
      Ok (v, Obj (dict_set attrs' (attr_name name) v)
                 (computed obj ++ [name]))
  end.

(** [n] calls of the method in a row, with what each one returned. *)
Fixpoint call_times (n : nat) (name : string)
    (_calculate : dict value -> res (value * dict value)) (obj : object)
  : res (list value * object) :=
  match n with
  | O => Ok ([], obj)
  | S n' =>
      '(v, obj1) <- CachedMethod_get name _calculate obj ;;
      '(vs, obj2) <- call_times n' name _calculate obj1 ;;
      Ok (v :: vs, obj2)
  end.

(** *** The counts of images by size

    The argument stands for what [__get_images_raw] returns: the pixel
    counts of the images the reader found. *)
Definition get_count_image_total (images_raw : list Z) : Z := len images_raw.

Definition get_count_image_xsmall (images_raw : list Z) : Z :=
  len (filter (fun image_size => image_size <=? 4096) images_raw).

Definition get_count_image_small (images_raw : list Z) : Z :=
  len (filter (fun image_size =>
                 (4096 <? image_size) && (image_size <=? 64000)) images_raw).

Definition get_count_image_med (images_raw : list Z) : Z :=
  len (filter (fun image_size =>
                 (64000 <? image_size) && (image_size <=? 786432)) images_raw).

Definition get_count_image_large (images_raw : list Z) : Z :=
  len (filter (fun image_size =>
                 (786432 <? image_size) && (image_size <=? 12582912)) images_raw).

Definition get_count_image_xlarge (images_raw : list Z) : Z :=
  len (filter (fun image_size => 12582912 <? image_size) images_raw).

(** ** [FeatureDescriptor] *)

(** [l[i]] for a Python list: a negative index counts from the end. *)
Definition list_getitem {A : Type} (l : list A) (i : Z) : res A :=
  let i' := if i <? 0 then i + len l else i in
  if i' <? 0 then Raise IndexError
  else match nth_error l (Z.to_nat i') with
       | Some a => Ok a
       | None => Raise IndexError
       end.

(** [l[i] = v] *)
Definition list_setitem {A : Type} (l : list A) (i : Z) (v : A)
  : res (list A) :=
  let i' := if i <? 0 then i + len l else i in
  if (i' <? 0) || (len l <=? i') then Raise IndexError
  else Ok (firstn (Z.to_nat i') l ++ v :: skipn (S (Z.to_nat i')) l).

Definition get_feature_count : Z := 135.

Definition get_feature_name (i : Z) : res string :=
  list_getitem _pdfrate_feature_names i.

Definition get_feature_names : list string := _pdfrate_feature_names.

(** The argument of [get_feature_description]: an [int] is an index, any
    other object is used as a name. *)
Inductive feat_ref : Type :=
| ByIndex (i : Z)
| ByName (name : string).

Definition get_feature_description (feat : feat_ref) : res feat_desc :=
  feat_name <- match feat with
               | ByIndex i => list_getitem get_feature_names i
               | ByName name => Ok name
               end ;;
  dict_item _pdfrate_feature_descriptions feat_name.

Definition get_feature_descriptions : dict feat_desc :=
  _pdfrate_feature_descriptions.

(** The list comprehension of [get_feature_mask_numpy], from the left. *)
Fixpoint feature_mask (names : list string) : res (list Z) :=
  match names with
  | [] => Ok []
  | name :: names' =>
      d <- dict_item _pdfrate_feature_descriptions name ;;
      rest <- feature_mask names' ;;
      Ok ((if edit_eqb (desc_edit d) edit_y then 1 else 0) :: rest)
  end.

Definition get_feature_mask_numpy : res (list Z) :=
  feature_mask _pdfrate_feature_names.

(** ** The counts of boxes by paper format

    The argument [boxes] stands for what [__get_boxes_raw] returns: for
    every box the list of its numbers, as doubles. *)

(** [f == z], [f >= z] and [f <= z] for a double and an integer; a NaN
    compares false. *)
Definition float_eq_Z (f : float) (z : Z) : bool :=
  is_Eq (compare_Z_float z f).

Definition float_ge_Z (f : float) (z : Z) : bool :=
  match compare_Z_float z f with
  | Some Lt | Some Eq => true
  | _ => false
  end.

Definition float_le_Z (f : float) (z : Z) : bool :=
  match compare_Z_float z f with
  | Some Gt | Some Eq => true
  | _ => false
  end.

(** The chain of [and] that the four tests share:
    [box[0] == 0 and box[1] == 0 and box[2] >= w_lo and box[2] <= w_hi
     and box[3] >= h_lo and box[3] <= h_hi]; an operand is evaluated only
    when those before it are true. *)
Definition is_box (w_lo w_hi h_lo h_hi : Z) (box : list float) : res bool :=
  b0 <- list_getitem box 0 ;;
  if negb (float_eq_Z b0 0) then Ok false
  else
    b1 <- list_getitem box 1 ;;
    if negb (float_eq_Z b1 0) then Ok false
    else
      b2 <- list_getitem box 2 ;;
      if negb (float_ge_Z b2 w_lo) then Ok false
      else
        b2 <- list_getitem box 2 ;;
        if negb (float_le_Z b2 w_hi) then Ok false
        else
          b3 <- list_getitem box 3 ;;
          if negb (float_ge_Z b3 h_lo) then Ok false
          else
            b3 <- list_getitem box 3 ;;
            Ok (float_le_Z b3 h_hi).

Definition __is_box_a4 : list float -> res bool := is_box 596 599 841 844.
Definition __is_box_letter : list float -> res bool := is_box 610 613 790 793.
Definition __is_box_overlap : list float -> res bool := is_box 596 599 790 793.
Definition __is_box_legal : list float -> res bool := is_box 610 613 1006 1009.

(** [not (a4 or letter or overlap or legal)] *)
Definition __is_box_other (box : list float) : res bool :=
  a4 <- __is_box_a4 box ;;
  if a4 then Ok false
  else
    letter <- __is_box_letter box ;;
    if letter then Ok false
    else
      overlap <- __is_box_overlap box ;;
      if overlap then Ok false
      else
        legal <- __is_box_legal box ;;
        Ok (negb legal).

(** The counting loop of the five [get_count_box_] methods and of
    [get_box_nonother_types]. *)
Fixpoint count_boxes (test : list float -> res bool)
    (boxes : list (list float)) (count : Z) : res Z :=
  match boxes with
  | [] => Ok count
  | box :: boxes' =>
      t <- test box ;;
      count_boxes test boxes' (if t then count + 1 else count)
  end.

Definition get_count_box_a4 (boxes : list (list float)) : res Z :=
  count_boxes __is_box_a4 boxes 0.
Definition get_count_box_letter (boxes : list (list float)) : res Z :=
  count_boxes __is_box_letter boxes 0.
Definition get_count_box_overlap (boxes : list (list float)) : res Z :=
  count_boxes __is_box_overlap boxes 0.
Definition get_count_box_legal (boxes : list (list float)) : res Z :=
  count_boxes __is_box_legal boxes 0.
Definition get_count_box_other (boxes : list (list float)) : res Z :=
  count_boxes __is_box_other boxes 0.

Definition get_box_nonother_types (boxes : list (list float)) : res Z :=
  count_boxes (fun box => other <- __is_box_other box ;; Ok (negb other))
              boxes 0.

Fixpoint get_box_other_only (boxes : list (list float)) : res bool :=
  match boxes with
  | [] => Ok true
  | box :: boxes' =>
      other <- __is_box_other box ;;
      if negb other then Ok false else get_box_other_only boxes'
  end.

(** ** Feature vectors *)

(** [0.01], the nearest double. *)
Definition mask_threshold : float := 0x1.47ae147ae147bp-7%float.

(** [round(f)] for a double: the nearest integer, the even one of two
    that are equally near. *)
Definition py_round (f : float) : res Z :=
  match Prim2SF f with
  | S754_zero _ => Ok 0
  | S754_infinity _ => Raise OverflowError
  | S754_nan => Raise ValueError
  | S754_finite s m e =>
      let r :=
        if 0 <=? e then Z.pos m * 2 ^ e
        else
          let d := 2 ^ (- e) in
          let q := Z.pos m / d in
          match 2 * (Z.pos m mod d) ?= d with
          | Lt => q
          | Gt => q + 1
          | Eq => if Z.even q then q else q + 1
          end in
      Ok (if s then - r else r)
  end.

(** [int(round(x))] *)
Definition int_round (x : value) : res Z :=
  match x with
  | VFloat f => py_round f
  | _ => py_int x
  end.

(** [float(x)] *)
Definition py_float (x : value) : res float :=
  match as_num x with
  | Some (NZ z) => float_of_Z z
  | Some (NF f) => Ok f
  | None => Raise TypeError
  end.

(** The three branches on the declared type [t], shared by
    [features_inverse_standardize] and [modify_file]; [read] is the
    reading of the [i]-th element, which each branch does for itself, and
    no branch is taken for any other type. *)
Definition typed_value (t : pytype) (read : res value) : res (option value) :=
  match t with
  | t_int => x <- read ;; n <- int_round x ;; Ok (Some (VInt n))
  | t_bool =>
      x <- read ;;
      a <- py_abs x ;;
      small <- py_lt a (VFloat mask_threshold) ;;
      Ok (Some (VBool (if small then false else true)))
  | t_float => x <- read ;; f <- py_float x ;; Ok (Some (VFloat f))
  | t_exception => Ok None
  end.

(** [range(0, n)] *)
Definition range0 (n : Z) : list Z := map Z.of_nat (seq 0 (Z.to_nat n)).

(** The loop of [features_inverse_standardize] over the list [new_feats],
    which is updated in place. *)
Fixpoint inverse_standardize_loop (new_feats : list value) (indices : list Z)
  : res (list value) :=
  match indices with
  | [] => Ok new_feats
  | i :: indices' =>
      d <- get_feature_description (ByIndex i) ;;
      v <- typed_value (desc_type d) (list_getitem new_feats i) ;;
      new_feats' <- match v with
                    | Some v => list_setitem new_feats i v
                    | None => Ok new_feats
                    end ;;
      inverse_standardize_loop new_feats' indices'
  end.

(** [features_inverse_standardize(feats, standardizer)]; the argument
    stands for [standardizer.inverse_transform(feats, copy=True)], an array
    of doubles. *)
Definition features_inverse_standardize (inverse_transformed : list float)
  : res (list value) :=
  inverse_standardize_loop (map VFloat inverse_transformed)
                           (range0 get_feature_count).

(** [features[i]] for an array of doubles. *)
Definition ndarray_getitem (features : list float) (i : Z) : res value :=
  x <- list_getitem features i ;; Ok (VFloat x).

(** The loop of [modify_file] over an array [features], appending to
    [new_feats]. *)
Fixpoint ndarray_loop (features : list float) (new_feats : list value)
    (indices : list Z) : res (list value) :=
  match indices with
  | [] => Ok new_feats
  | i :: indices' =>
      d <- get_feature_description (ByIndex i) ;;
      v <- typed_value (desc_type d) (ndarray_getitem features i) ;;
      ndarray_loop features
                   (match v with
                    | Some v => new_feats ++ [v]
                    | None => new_feats
                    end) indices'
  end.

(** [dict(pairs)]: a later pair replaces an earlier one of the same key. *)
Definition py_dict {V : Type} (pairs : list (string * V)) : dict V :=
  fold_left (fun d kv => dict_set d (fst kv) (snd kv)) pairs [].

(** The three forms in which [modify_file] takes the desired features. *)
Inductive features_arg : Type :=
| ArgNdarray (a : list float)
| ArgList (l : list value)
| ArgDict (d : dict value).

(** The head of [modify_file]: an array becomes a list, a list becomes a
    dictionary. *)
Definition features_dict (features : features_arg) : res (dict value) :=
  features <-
    match features with
    | ArgNdarray a =>
        new_feats <- ndarray_loop a [] (range0 get_feature_count) ;;
        Ok (inl new_feats)
    | ArgList l => Ok (inl l)
    | ArgDict d => Ok (inr d)
    end ;;
  match features with
  | inl l => Ok (py_dict (combine get_feature_names l))
  | inr d => Ok d
  end.

(** [modify_file(features)] for any of the three forms. *)
Definition modify_file_of (py : Runtime) (self : FeatureEdit)
    (features : features_arg) : res result :=
  features <- features_dict features ;;
  modify_file py self features.

(** [self.retrieve_feature_vector()] *)
Definition retrieve_feature_vector (self : FeatureEdit) : list value :=
  map snd (sorted (retrieve_feature_dictionary self)).

(** [check_current_value], the local function of
    [retrieve_feature_bounds]. *)
Definition check_current_value (self : FeatureEdit) (name : string)
    (b : bound) : res value :=
  match b with
  | FileDefined => get_ self name
  | Lit v => Ok v
  end.

Fixpoint feature_bounds_loop (self : FeatureEdit) (names : list string)
    (lb ub : list value) : res (list value * list value) :=
  match names with
  | [] => Ok (lb, ub)
  | key :: names' =>
      d <- dict_item get_feature_descriptions key ;;
      l <- check_current_value self key (fst (desc_range d)) ;;
      u <- check_current_value self key (snd (desc_range d)) ;;
      feature_bounds_loop self names' (lb ++ [l]) (ub ++ [u])
  end.

(** The lists [lb] and [ub] that [retrieve_feature_bounds] builds and
    hands to [numpy.array]. *)
Definition feature_bounds (self : FeatureEdit)
  : res (list value * list value) :=
  feature_bounds_loop self (keys (sorted get_feature_descriptions)) [] [].

(** ** More vocabulary *)

(** A step that touches the map by insertions only: the patcher it
    leaves is the one some sequence of insertions gives. *)
Definition inserted (p p' : patcher) : Prop :=
  exists ds, insert_all p ds = Ok p'.

Definition inserts_only (f : state -> res state) : Prop :=
  forall st st', f st = Ok st' -> inserted (st_patcher st) (st_patcher st').

(** Two states with the same map, cursor and pending changes, whose
    reports agree on the features of [K]. *)
Definition agree (K : string -> Prop) (st st' : state) : Prop :=
  st_patcher st = st_patcher st' /\ to_change st = to_change st'
  /\ forall k, K k -> dict_get (report st) k = dict_get (report st') k.

(** Two runs end alike: both return, with related results, or both raise
    the same exception. *)
Definition same_outcome {A B : Type} (R : A -> B -> Prop)
    (x : res A) (y : res B) : Prop :=
  match x, y with
  | Ok a, Ok b => R a b
  | Raise e, Raise e' => e = e'
  | _, _ => False
  end.

(** A step whose work on the map and on the pending changes does not
    depend on the report. *)
Definition independent (K : string -> Prop) (f : state -> res state) : Prop :=
  forall st st', agree K st st' -> same_outcome (agree K) (f st) (f st').

(** A request that asks for nothing new in one item: the value is the
    current one, or an exception object, or a float within [1e-6] of the
    current value. *)
Definition asks_nothing (self : FeatureEdit) (item : string * value) : Prop :=
  exists cur,
    dict_get (retrieve_feature_dictionary self) (fst item) = Some cur
    /\ (py_ne cur (snd item) = false
        \/ isinstance_Exception (snd item) = true
        \/ (type (snd item) = t_float /\ near_equal cur (snd item) = Ok true)).

(** The features of the catalog that some step of [modify_file] looks
    for. *)
Definition handled (k : string) : bool :=
  handled_before_size k || String.eqb "size" k.


(** Is the type of a catalog entry one of the three feature types? *)
Definition typed_entry (entry : string * feat_desc) : bool :=
  negb (pytype_eqb (desc_type (snd entry)) t_exception).

(** Strictly increasing names. *)
Fixpoint strictly_increasing (l : list string) : bool :=
  match l with
  | [] => true
  | a :: l' =>
      match l' with
      | [] => true
      | b :: _ => String.ltb a b && strictly_increasing l'
      end
  end.

(** A document without a [%PDF-1.x] header, read like the sample. *)
Definition headerless : FeatureEdit :=
  {| pdf := encode ("1 0 obj" ++ LF ++ "endobj" ++ LF);
     get_ := sample_get;
     _get_startxref_position := 0;
     moddate_anchor := None;
     createdate_anchor := None;
     reread := fun _ => Ok [] |}.



(** Two results with the same document and the same vector read back,
    whose reports agree on every feature but [feat]. *)
Definition same_but (feat : string) (r r' : result) : Prop :=
  path_content r = path_content r' /\ feats r = feats r'
  /\ forall k, k <> feat -> dict_get (res_report r) k = dict_get (res_report r') k.

(** The relation of the accumulators of the metadata and date steps: the
    same text, and states that agree. *)
Definition agree_acc (K : string -> Prop) (a b : string * state) : Prop :=
  fst a = fst b /\ agree K (snd a) (snd b).

(** A state of the orchestrator at the start of step 5, on the sample, in
    which a new time zone of the modification date is pending. *)
Definition moddate_state : state :=
  State (Patcher (MMap sample_pdf 0) (len (encode sample_body)))
        [] [("moddate_tz", VInt 3600)] [].
(** ** Facts about the patcher *)

Lemma len_app {A} (l1 l2 : list A) : len (l1 ++ l2) = len l1 + len l2.
Proof. unfold len. rewrite length_app. lia. Qed.

Lemma len_nonneg {A} (l : list A) : 0 <= len l.
Proof. unfold len. lia. Qed.

Lemma len_repeat {A} (x : A) (n : nat) : len (repeat x n) = Z.of_nat n.
Proof. unfold len. now rewrite repeat_length. Qed.

Lemma firstn_len_app {A} (l1 l2 : list A) :
  firstn (Z.to_nat (len l1)) (l1 ++ l2) = l1.
Proof.
  unfold len. rewrite Nat2Z.id.
  rewrite <- (Nat.add_0_r (List.length l1)), firstn_app_2. cbn. apply app_nil_r.
Qed.

Lemma skipn_len_app {A} (l1 l2 : list A) :
  skipn (Z.to_nat (len l1)) (l1 ++ l2) = l2.
Proof.
  unfold len. rewrite Nat2Z.id, skipn_app, skipn_all, Nat.sub_diag. reflexivity.
Qed.

Lemma split_at {A} (l : list A) (n : Z) :
  0 <= n <= len l ->
  exists l1 l2, l = l1 ++ l2 /\ len l1 = n
                /\ firstn (Z.to_nat n) l = l1 /\ skipn (Z.to_nat n) l = l2.
Proof.
  intros H. exists (firstn (Z.to_nat n) l), (skipn (Z.to_nat n) l).
  repeat split; [now rewrite firstn_skipn|].
  unfold len in *. rewrite length_firstn. lia.
Qed.

(** The buffer an insertion leaves: the old prefix, the data, the old
    suffix. *)
Lemma insert_into_mmap_app (pre suf : list byte) (pos : Z) (data : string) :
  0 < len (pre ++ suf) ->
  exists pos',
    _insert_into_mmap (Patcher (MMap (pre ++ suf) pos) (len pre)) data =
    Ok (Patcher (MMap (pre ++ encode data ++ suf) pos')
                (len pre + len (encode data))).
Proof.
  intros Hne.
  set (d := encode data).
  pose proof (len_nonneg d) as Hd. pose proof (len_nonneg pre) as Hp.
  pose proof (len_nonneg suf) as Hs. rewrite len_app in Hne.
  unfold _insert_into_mmap. cbn [p_mm insert_offset]. fold d.
  unfold mm_resize, mm_size. cbn [mm_buf mm_pos]. rewrite len_app.
  destruct (len pre + len suf + len d <? 0) eqn:E1; [apply Z.ltb_lt in E1; lia|].
  destruct (len pre + len suf + len d =? 0) eqn:E2; [apply Z.eqb_eq in E2; lia|].
  cbn [bind].
  assert (Hres : firstn (Z.to_nat (len pre + len suf + len d)) (pre ++ suf)
                 ++ repeat x00 (Z.to_nat (len pre + len suf + len d)
                                - List.length (pre ++ suf))
                 = pre ++ suf ++ repeat x00 (Z.to_nat (len d))).
  { rewrite firstn_all2 by (rewrite length_app; unfold len in *; lia).
    rewrite <- app_assoc. do 3 f_equal.
    rewrite length_app. unfold len in *. lia. }
  rewrite Hres. clear Hres.
  set (zs := repeat x00 (Z.to_nat (len d))).
  assert (Hz : len zs = len d) by (unfold zs; rewrite len_repeat; lia).
  unfold mm_move, mm_size. cbn [mm_buf mm_pos]. rewrite !len_app, Hz.
  replace ((len pre + len d <? 0) || (len pre <? 0)
           || (len pre + len suf - len pre <? 0)
           || (len pre + (len suf + len d) - (len pre + len d)
               <? len pre + len suf - len pre)
           || (len pre + (len suf + len d) - len pre
               <? len pre + len suf - len pre)) with false
    by (symmetry; repeat (apply orb_false_iff; split); apply Z.ltb_ge; lia).
  cbn [bind].
  unfold mm_seek, mm_size. cbn [mm_buf mm_pos].
  (* the moved buffer *)
  assert (Hmv : firstn (Z.to_nat (len pre + len d)) (pre ++ suf ++ zs)
                ++ slice (pre ++ suf ++ zs) (len pre)
                         (len pre + (len pre + len suf - len pre))
                ++ skipn (Z.to_nat (len pre + len d + (len pre + len suf - len pre)))
                         (pre ++ suf ++ zs)
                = pre ++ firstn (Z.to_nat (len d)) (suf ++ zs) ++ suf).
  { replace (Z.to_nat (len pre + len d))
      with (List.length pre + Z.to_nat (len d))%nat by (unfold len; lia).
    rewrite firstn_app_2.
    unfold slice. rewrite skipn_len_app.
    replace (len pre + (len pre + len suf - len pre) - len pre) with (len suf) by lia.
    rewrite firstn_len_app.
    rewrite (skipn_all2 (pre ++ suf ++ zs))
      by (rewrite !length_app; unfold len in *; lia).
    now rewrite app_nil_r, <- app_assoc. }
  rewrite Hmv. clear Hmv.
  set (mid := firstn (Z.to_nat (len d)) (suf ++ zs)).
  assert (Hmid : len mid = len d).
  { unfold mid, len. rewrite length_firstn, length_app. unfold len in *. lia. }
  rewrite !len_app, Hmid.
  replace ((len pre <? 0) || (len pre + (len d + len suf) <? len pre)) with false
    by (symmetry; apply orb_false_iff; split; apply Z.ltb_ge; lia).
  cbn [bind]. unfold mm_write, mm_size. cbn [mm_buf mm_pos].
  rewrite !len_app, Hmid.
  destruct (len pre + (len d + len suf) - len pre <? len d) eqn:E3;
    [apply Z.ltb_lt in E3; lia|].
  cbn [bind]. eexists. do 3 f_equal.
  rewrite firstn_len_app. f_equal. f_equal.
  replace (Z.to_nat (len pre + len d))
    with (List.length pre + Z.to_nat (len mid))%nat by (unfold len in *; lia).
  rewrite skipn_app.
  rewrite skipn_all2 by lia.
  replace (List.length pre + Z.to_nat (len mid) - List.length pre)%nat
    with (Z.to_nat (len mid)) by lia.
  cbn [app]. apply skipn_len_app.
Qed.

Lemma insert_into_mmap_buf (st : patcher) (data : string) :
  cursor_ok st ->
  exists pos',
    _insert_into_mmap st data =
    Ok (Patcher
          (MMap (firstn (Z.to_nat (insert_offset st)) (mm_buf (p_mm st))
                 ++ encode data
                 ++ skipn (Z.to_nat (insert_offset st)) (mm_buf (p_mm st))) pos')
          (insert_offset st + len (encode data))).
Proof.
  destruct st as [[buf pos] off]. unfold cursor_ok, mm_size.
  cbn [p_mm insert_offset mm_buf]. intros [Hne Hoff].
  destruct (split_at buf off Hoff) as (pre & suf & -> & <- & -> & ->).
  apply insert_into_mmap_app. exact Hne.
Qed.

Lemma insert_into_mmap_cursor_ok (st st' : patcher) (data : string) :
  cursor_ok st -> _insert_into_mmap st data = Ok st' -> cursor_ok st'.
Proof.
  intros Hc Hrun.
  destruct (insert_into_mmap_buf st data Hc) as [pos' E].
  rewrite E in Hrun. injection Hrun as <-.
  destruct Hc as [Hne Hoff]. unfold cursor_ok, mm_size in *.
  cbn [p_mm mm_buf insert_offset].
  destruct (split_at (mm_buf (p_mm st)) _ Hoff) as (pre & suf & E0 & E1 & E2 & E3).
  rewrite E2, E3. rewrite E0 in Hne. rewrite !len_app in *.
  pose proof (len_nonneg (encode data)). pose proof (len_nonneg suf). lia.
Qed.

Lemma insert_all_app (ds : list string) :
  forall (pre suf : list byte) (pos : Z),
    0 < len (pre ++ suf) ->
    exists pos',
      insert_all (Patcher (MMap (pre ++ suf) pos) (len pre)) ds =
      Ok (Patcher (MMap (pre ++ List.concat (map encode ds) ++ suf) pos')
                  (len pre + len (List.concat (map encode ds)))).
Proof.
  induction ds as [|d ds IH]; intros pre suf pos Hne.
  - exists pos. cbn. now rewrite Z.add_0_r.
  - cbn [insert_all map List.concat].
    destruct (insert_into_mmap_app pre suf pos d Hne) as [pos1 ->]. cbn [bind].
    rewrite <- len_app.
    replace (pre ++ encode d ++ suf) with ((pre ++ encode d) ++ suf)
      by now rewrite <- app_assoc.
    destruct (IH (pre ++ encode d) suf pos1) as [pos2 ->].
    { rewrite !len_app in *. pose proof (len_nonneg (encode d)). lia. }
    exists pos2. rewrite !len_app, <- !app_assoc. do 2 f_equal. lia.
Qed.

Lemma byte_at_app_l (l1 l2 : list byte) (i : Z) :
  0 <= i < len l1 -> byte_at (l1 ++ l2) i = byte_at l1 i.
Proof.
  unfold byte_at, len. intros H.
  destruct (i <? 0) eqn:E; [apply Z.ltb_lt in E; lia|].
  apply nth_error_app1. lia.
Qed.

Lemma byte_at_app_r (l1 l2 : list byte) (i : Z) :
  len l1 <= i -> byte_at (l1 ++ l2) i = byte_at l2 (i - len l1).
Proof.
  unfold byte_at, len. intros H.
  destruct (i <? 0) eqn:E; [apply Z.ltb_lt in E; lia|].
  destruct (i - Z.of_nat (List.length l1) <? 0) eqn:E'; [apply Z.ltb_lt in E'; lia|].
  rewrite nth_error_app2 by lia. f_equal. lia.
Qed.

(** How the bytes of [pre ++ mid ++ suf] relate to those of [pre ++ suf]. *)
Lemma spliced_bytes (pre mid suf : list byte) :
  len (pre ++ mid ++ suf) = len (pre ++ suf) + len mid
  /\ (forall i, len pre <= i < len (pre ++ suf) ->
        byte_at (pre ++ mid ++ suf) (i + len mid) = byte_at (pre ++ suf) i)
  /\ (forall j, 0 <= j < len mid ->
        byte_at (pre ++ mid ++ suf) (len pre + j) = byte_at mid j)
  /\ (forall i, 0 <= i < len pre ->
        byte_at (pre ++ mid ++ suf) i = byte_at (pre ++ suf) i).
Proof.
  pose proof (len_nonneg pre). pose proof (len_nonneg mid).
  repeat split.
  - rewrite !len_app. lia.
  - intros i Hi. rewrite len_app in Hi.
    rewrite !byte_at_app_r by lia. f_equal. lia.
  - intros j Hj. rewrite byte_at_app_r by lia.
    rewrite byte_at_app_l by lia. f_equal. lia.
  - intros i Hi. now rewrite !byte_at_app_l by lia.
Qed.

Lemma len_concat_encode (ds : list string) :
  len (List.concat (map encode ds)) = total_length ds.
Proof.
  induction ds as [|d ds IH]; cbn [map List.concat total_length fold_right].
  - reflexivity.
  - rewrite len_app, IH. reflexivity.
Qed.

(** C1.  On a state that satisfies the cursor invariant,
    [_insert_into_mmap] returns; the buffer grows by [len(data)]; the bytes
    formerly at [[insert_offset, oldLen)] are found [len(data)] further;
    [data] stands at [[insert_offset, insert_offset + len(data))]; the bytes
    before the cursor are untouched; the cursor advances by exactly
    [len(data)] and the invariant holds again.  Consequently any sequence
    of insertions returns, the final length is the original length plus the
    sum of the inserted lengths, and the bytes originally at
    [[cursor0, originalLength)] reappear shifted by that sum. *)
Theorem insert_into_mmap_correct (st : patcher) :
  cursor_ok st ->
  let old := mm_buf (p_mm st) in
  let off := insert_offset st in
  (forall data : string,
      let n := len (encode data) in
      exists st',
        _insert_into_mmap st data = Ok st'
        /\ len (mm_buf (p_mm st')) = len old + n
        /\ (forall i, off <= i < len old ->
              byte_at (mm_buf (p_mm st')) (i + n) = byte_at old i)
        /\ (forall j, 0 <= j < n ->
              byte_at (mm_buf (p_mm st')) (off + j) = byte_at (encode data) j)
        /\ (forall i, 0 <= i < off ->
              byte_at (mm_buf (p_mm st')) i = byte_at old i)
        /\ insert_offset st' = off + n
        /\ cursor_ok st')
  /\ (forall ds : list string,
         exists st',
           insert_all st ds = Ok st'
           /\ len (mm_buf (p_mm st')) = len old + total_length ds
           /\ (forall i, off <= i < len old ->
                 byte_at (mm_buf (p_mm st')) (i + total_length ds)
                 = byte_at old i)
           /\ insert_offset st' = off + total_length ds).
Proof.
  destruct st as [[buf pos] off0]. unfold cursor_ok, mm_size.
  cbn [p_mm insert_offset mm_buf]. intros [Hne Hoff].
  destruct (split_at buf off0 Hoff) as (pre & suf & -> & <- & _ & _).
  split.
  - intros data.
    destruct (insert_into_mmap_app pre suf pos data Hne) as [pos' ->].
    eexists. split; [reflexivity|]. cbn [p_mm insert_offset mm_buf].
    destruct (spliced_bytes pre (encode data) suf) as (H1 & H2 & H3 & H4).
    pose proof (len_nonneg (encode data)). pose proof (len_nonneg suf).
    unfold mm_size. cbn [mm_buf].
    repeat split; try assumption; rewrite ?len_app in *; lia.
  - intros ds.
    destruct (insert_all_app ds pre suf pos Hne) as [pos' ->].
    eexists. split; [reflexivity|]. cbn [p_mm insert_offset mm_buf].
    rewrite <- len_concat_encode.
    destruct (spliced_bytes pre (List.concat (map encode ds)) suf) as (H1 & H2 & _ & _).
    repeat split; assumption.
Qed.

(** C1 at a concrete state: two insertions into a ten-byte buffer with
    the cursor at offset 4. *)
Lemma insert_into_mmap_correct_witness :
  let st := Patcher (MMap (encode "0123456789") 0) 4 in
  cursor_ok st
  /\ (exists st',
        insert_all st ["ab"; "cde"] = Ok st'
        /\ len (mm_buf (p_mm st')) = 10 + 5
        /\ (forall i, 4 <= i < 10 ->
              byte_at (mm_buf (p_mm st')) (i + 5) = byte_at (encode "0123456789") i)
        /\ insert_offset st' = 4 + 5).
Proof.
  intros st.
  assert (H : cursor_ok st) by (unfold cursor_ok, st, mm_size; cbn; lia).
  split; [exact H|].
  exact (proj2 (insert_into_mmap_correct st H) ["ab"; "cde"]).
Defined.

(** ** Facts about dictionaries *)

Lemma dict_get_In {V} (d : dict V) (k : string) (v : V) :
  dict_get d k = Some v -> In (k, v) d.
Proof.
  induction d as [|[k' v'] d IH]; cbn; [discriminate|].
  destruct (String.eqb k' k) eqn:E.
  - apply String.eqb_eq in E. intros [= ->]. left. now subst.
  - intros H. right. auto.
Qed.

Lemma dict_get_set_same {V} (d : dict V) (k : string) (v : V) :
  dict_get (dict_set d k v) k = Some v.
Proof.
  induction d as [|[k' v'] d IH]; cbn.
  - now rewrite String.eqb_refl.
  - destruct (String.eqb k' k) eqn:E; cbn; rewrite E; auto.
Qed.

Lemma dict_get_set_other {V} (d : dict V) (k k' : string) (v : V) :
  k <> k' -> dict_get (dict_set d k v) k' = dict_get d k'.
Proof.
  intros Hne. induction d as [|[k0 v0] d IH]; cbn.
  - destruct (String.eqb k k') eqn:E; [apply String.eqb_eq in E; contradiction|].
    reflexivity.
  - destruct (String.eqb k0 k) eqn:E; cbn.
    + apply String.eqb_eq in E. subst k0.
      destruct (String.eqb k k') eqn:E'; [apply String.eqb_eq in E'; contradiction|].
      reflexivity.
    + destruct (String.eqb k0 k'); auto.
Qed.

Lemma dict_get_del_other {V} (d : dict V) (k k' : string) :
  k <> k' -> dict_get (dict_del d k) k' = dict_get d k'.
Proof.
  intros Hne. induction d as [|[k0 v0] d IH]; cbn; [reflexivity|].
  destruct (String.eqb k0 k) eqn:E; cbn.
  - apply String.eqb_eq in E. subst k0.
    destruct (String.eqb k k') eqn:E'; [apply String.eqb_eq in E'; contradiction|].
    reflexivity.
  - destruct (String.eqb k0 k'); auto.
Qed.

Lemma dict_get_None_keys {V} (d : dict V) (k : string) :
  dict_get d k = None <-> ~ In k (keys d).
Proof.
  induction d as [|[k0 v0] d IH]; cbn; [tauto|].
  destruct (String.eqb k0 k) eqn:E.
  - apply String.eqb_eq in E. split; [discriminate|]. intros H. exfalso. auto.
  - apply String.eqb_neq in E. rewrite IH. tauto.
Qed.

Lemma dict_get_del_same {V} (d : dict V) (k : string) :
  NoDup (keys d) -> dict_get (dict_del d k) k = None.
Proof.
  induction d as [|[k0 v0] d IH]; cbn; [reflexivity|].
  intros Hnd. inversion Hnd as [|? ? Hnotin Hnd']; subst.
  destruct (String.eqb k0 k) eqn:E; cbn.
  - apply String.eqb_eq in E. subst k0. now apply dict_get_None_keys.
  - rewrite E. auto.
Qed.

Lemma keys_dict_set {V} (d : dict V) (k : string) (v : V) :
  keys (dict_set d k v) = if dict_mem d k then keys d else keys d ++ [k].
Proof.
  unfold dict_mem, keys. induction d as [|[k0 v0] d IH]; cbn; [reflexivity|].
  destruct (String.eqb k0 k) eqn:E; cbn; [reflexivity|].
  rewrite IH. now destruct (dict_get d k).
Qed.

Lemma In_keys_dict_del {V} (d : dict V) (k k' : string) :
  In k' (keys (dict_del d k)) -> In k' (keys d).
Proof.
  induction d as [|[k0 v0] d IH]; cbn; [tauto|].
  destruct (String.eqb k0 k); cbn; tauto.
Qed.

Lemma NoDup_keys_dict_set {V} (d : dict V) (k : string) (v : V) :
  NoDup (keys d) -> NoDup (keys (dict_set d k v)).
Proof.
  intros Hnd. rewrite keys_dict_set. unfold dict_mem.
  destruct (dict_get d k) eqn:E; [exact Hnd|].
  apply dict_get_None_keys in E.
  apply NoDup_app; [exact Hnd | repeat constructor; cbn; tauto |].
  intros x Hx [<-|[]]. contradiction.
Qed.

Lemma NoDup_keys_dict_del {V} (d : dict V) (k : string) :
  NoDup (keys d) -> NoDup (keys (dict_del d k)).
Proof.
  induction d as [|[k0 v0] d IH]; cbn; [auto|].
  intros Hnd. inversion Hnd as [|? ? Hnotin Hnd']; subst.
  destruct (String.eqb k0 k); cbn; [exact Hnd'|].
  constructor; [|auto]. intros Hin. apply Hnotin.
  eapply In_keys_dict_del. exact Hin.
Qed.

(** ** Facts about the catalog *)

Lemma catalog_editable_is_int :
  forallb editable_is_int _pdfrate_feature_descriptions = true.
Proof. vm_compute. reflexivity. Qed.

Lemma catalog_boolean_is_indirect :
  forallb boolean_is_indirect _pdfrate_feature_descriptions = true.
Proof. vm_compute. reflexivity. Qed.

Lemma pytype_eqb_eq (a b : pytype) : pytype_eqb a b = true <-> a = b.
Proof. destruct a, b; cbn; split; congruence. Qed.

Lemma edit_eqb_eq (a b : edit) : edit_eqb a b = true <-> a = b.
Proof. destruct a, b; cbn; split; congruence. Qed.

Lemma editable_desc (feat : string) (d : feat_desc) :
  dict_get _pdfrate_feature_descriptions feat = Some d ->
  desc_edit d = edit_y ->
  desc_type d = t_int
  /\ int_bound (fst (desc_range d)) = true
  /\ int_bound (snd (desc_range d)) = true.
Proof.
  intros Hget He. apply dict_get_In in Hget.
  pose proof (proj1 (forallb_forall _ _) catalog_editable_is_int _ Hget) as H.
  unfold editable_is_int in H. cbn [snd] in H. rewrite He in H. cbn [edit_eqb] in H.
  apply andb_true_iff in H. destruct H as [H H3].
  apply andb_true_iff in H. destruct H as [H1 H2].
  apply pytype_eqb_eq in H1. auto.
Qed.

Lemma boolean_desc (feat : string) (d : feat_desc) :
  dict_get _pdfrate_feature_descriptions feat = Some d ->
  desc_type d = t_bool ->
  (feat = "box_other_only" \/ feat = "pdfid_mismatch") /\ desc_edit d = edit_m.
Proof.
  intros Hget Ht. apply dict_get_In in Hget.
  pose proof (proj1 (forallb_forall _ _) catalog_boolean_is_indirect _ Hget) as H.
  unfold boolean_is_indirect in H. cbn [fst snd] in H. rewrite Ht in H.
  cbn [pytype_eqb] in H.
  apply andb_true_iff in H. destruct H as [H1 H2].
  apply edit_eqb_eq in H2. split; [|exact H2].
  apply orb_true_iff in H1. destruct H1 as [H1|H1]; apply String.eqb_eq in H1; auto.
Qed.

(** ** The validator *)

Lemma int_bound_effective (b : bound) (current : Z) :
  int_bound b = true ->
  exists z, effective_bound b (VInt current) = VInt z
            /\ (b = FileDefined -> z = current)
            /\ (forall l, b = Lit (VInt l) -> z = l).
Proof.
  destruct b as [|[l| | | | | | |]]; cbn; try discriminate; intros _.
  - exists current. repeat split; congruence.
  - exists l. repeat split; congruence.
Qed.

(** The validator on an integer request for an editable feature. *)
Lemma check_feature_change_valid_int
    (self : FeatureEdit) (feat : string) (d : feat_desc)
    (current requested lo hi : Z) :
  dict_get _pdfrate_feature_descriptions feat = Some d ->
  desc_edit d = edit_y ->
  get_ self feat = Ok (VInt current) ->
  effective_bound (fst (desc_range d)) (VInt current) = VInt lo ->
  effective_bound (snd (desc_range d)) (VInt current) = VInt hi ->
  check_feature_change_valid self feat (VInt requested)
  = Ok (if requested <? lo
        then VMinimumExceededError feat (VInt lo) (VInt requested)
        else if hi <? requested
             then VMaximumExceededError feat (VInt hi) (VInt requested)
             else VBool true).
Proof.
  intros Hget He Hcur Elo Ehi.
  destruct (editable_desc feat d Hget He) as (Ht & _ & _).
  unfold check_feature_change_valid, dict_item. rewrite Hget. cbn [bind].
  rewrite Ht, He, Hcur. cbn [type pytype_eqb edit_eqb negb bind].
  destruct (fst (desc_range d)) as [|lov]; cbn [effective_bound] in Elo.
  - injection Elo as <-. cbn [py_gt py_lt as_num bind].
    destruct (requested <? current); [reflexivity|].
    destruct (snd (desc_range d)) as [|hiv]; cbn [effective_bound] in Ehi.
    + injection Ehi as <-. cbn [py_gt py_lt as_num bind].
      now destruct (current <? requested).
    + subst hiv. cbn [py_gt py_lt as_num bind].
      now destruct (hi <? requested).
  - subst lov. cbn [py_gt py_lt as_num bind].
    destruct (requested <? lo); [reflexivity|].
    destruct (snd (desc_range d)) as [|hiv]; cbn [effective_bound] in Ehi.
    + injection Ehi as <-. cbn [py_gt py_lt as_num bind].
      now destruct (current <? requested).
    + subst hiv. cbn [py_gt py_lt as_num bind].
      now destruct (hi <? requested).
Qed.

(** C2.  For an editable feature (all of them are integer features) whose
    getter answers [current], the validator's answer to a requested
    integer is decided by the effective bounds [lo] and [hi], where a
    file-defined bound is the current value and any other is its literal:
    the request is accepted only if [lo <= requested <= hi]; below [lo] the
    answer is the below-minimum rejection carrying [lo]; otherwise above
    [hi] it is the above-maximum rejection carrying [hi]. *)
Theorem check_feature_change_valid_range
    (self : FeatureEdit) (feat : string) (d : feat_desc)
    (current requested : Z) :
  dict_get _pdfrate_feature_descriptions feat = Some d ->
  desc_edit d = edit_y ->
  get_ self feat = Ok (VInt current) ->
  exists lo hi : Z,
    effective_bound (fst (desc_range d)) (VInt current) = VInt lo
    /\ effective_bound (snd (desc_range d)) (VInt current) = VInt hi
    /\ (fst (desc_range d) = FileDefined -> lo = current)
    /\ (forall l, fst (desc_range d) = Lit (VInt l) -> lo = l)
    /\ (snd (desc_range d) = FileDefined -> hi = current)
    /\ (forall h, snd (desc_range d) = Lit (VInt h) -> hi = h)
    /\ (check_feature_change_valid self feat (VInt requested) = Ok (VBool true) ->
        lo <= requested <= hi)
    /\ (requested < lo ->
        check_feature_change_valid self feat (VInt requested)
        = Ok (VMinimumExceededError feat (VInt lo) (VInt requested)))
    /\ (lo <= requested -> hi < requested ->
        check_feature_change_valid self feat (VInt requested)
        = Ok (VMaximumExceededError feat (VInt hi) (VInt requested)))
    /\ (lo <= requested <= hi ->
        check_feature_change_valid self feat (VInt requested) = Ok (VBool true)).
Proof.
  intros Hget He Hcur.
  destruct (editable_desc feat d Hget He) as (Ht & Hlo & Hhi).
  destruct (int_bound_effective _ current Hlo) as (lo & Elo & Flo & Llo).
  destruct (int_bound_effective _ current Hhi) as (hi & Ehi & Fhi & Lhi).
  exists lo, hi.
  pose proof (check_feature_change_valid_int self feat d current requested lo hi
                Hget He Hcur Elo Ehi) as Hchk.
  repeat split; try assumption.
  - rewrite Hchk in H.
    destruct (requested <? lo) eqn:E1; [discriminate|].
    apply Z.ltb_ge in E1. exact E1.
  - rewrite Hchk in H.
    destruct (requested <? lo) eqn:E1; [discriminate|].
    destruct (hi <? requested) eqn:E2; [discriminate|].
    apply Z.ltb_ge in E2. exact E2.
  - intros H. rewrite Hchk. apply Z.ltb_lt in H. now rewrite H.
  - intros H1 H2. rewrite Hchk.
    apply Z.ltb_ge in H1. apply Z.ltb_lt in H2. now rewrite H1, H2.
  - intros [H1 H2]. rewrite Hchk.
    apply Z.ltb_ge in H1. apply Z.ltb_ge in H2. now rewrite H1, H2.
Qed.

(** C2 on the sample: [count_eof] has a file-defined minimum and the sample
    has one end-of-file marker, so a request for none is below the
    effective bound 1. *)
Lemma check_feature_change_valid_range_witness :
  dict_get _pdfrate_feature_descriptions "count_eof"
  = Some (Desc t_int (FileDefined, Lit (VInt 24)) edit_y)
  /\ get_ sample "count_eof" = Ok (VInt 1)
  /\ exists lo hi : Z,
       effective_bound FileDefined (VInt 1) = VInt lo
       /\ effective_bound (Lit (VInt 24)) (VInt 1) = VInt hi
       /\ (@FileDefined = FileDefined -> lo = 1)
       /\ (forall l, FileDefined = Lit (VInt l) -> lo = l)
       /\ (Lit (VInt 24) = FileDefined -> hi = 1)
       /\ (forall h, Lit (VInt 24) = Lit (VInt h) -> hi = h)
       /\ (check_feature_change_valid sample "count_eof" (VInt 0) = Ok (VBool true) ->
           lo <= 0 <= hi)
       /\ (0 < lo ->
           check_feature_change_valid sample "count_eof" (VInt 0)
           = Ok (VMinimumExceededError "count_eof" (VInt lo) (VInt 0)))
       /\ (lo <= 0 -> hi < 0 ->
           check_feature_change_valid sample "count_eof" (VInt 0)
           = Ok (VMaximumExceededError "count_eof" (VInt hi) (VInt 0)))
       /\ (lo <= 0 <= hi ->
           check_feature_change_valid sample "count_eof" (VInt 0) = Ok (VBool true)).
Proof.
  split; [reflexivity|]. split; [reflexivity|].
  exact (check_feature_change_valid_range sample "count_eof"
           (Desc t_int (FileDefined, Lit (VInt 24)) edit_y) 1 0
           eq_refl eq_refl eq_refl).
Defined.

(** C10.  The boolean features of the catalog are [box_other_only] and
    [pdfid_mismatch], both with edit status ['m']; a boolean request for
    either is answered with the read-only rejection; and no request of
    type [bool] is accepted for any feature, so the rule that accepts a
    boolean without a range check is never reached with a positive
    answer. *)
Theorem no_boolean_feature_editable :
  (forall feat d,
      dict_get _pdfrate_feature_descriptions feat = Some d ->
      desc_type d = t_bool ->
      (feat = "box_other_only" \/ feat = "pdfid_mismatch")
      /\ desc_edit d = edit_m)
  /\ dict_get _pdfrate_feature_descriptions "box_other_only"
     = Some (Desc t_bool (Lit (VBool false), Lit (VBool true)) edit_m)
  /\ dict_get _pdfrate_feature_descriptions "pdfid_mismatch"
     = Some (Desc t_bool (Lit (VBool false), Lit (VBool true)) edit_m)
  /\ (forall self feat d b,
         dict_get _pdfrate_feature_descriptions feat = Some d ->
         desc_type d = t_bool ->
         check_feature_change_valid self feat (VBool b)
         = Ok (VReadOnlyFeatureError feat))
  /\ (forall self feat v,
         type v = t_bool ->
         check_feature_change_valid self feat v <> Ok (VBool true))
  /\ (forall feat d,
         dict_get _pdfrate_feature_descriptions feat = Some d ->
         desc_edit d = edit_y -> desc_type d <> t_bool).
Proof.
  split; [exact boolean_desc|].
  split; [reflexivity|]. split; [reflexivity|].
  assert (Hro : forall self feat d b,
             dict_get _pdfrate_feature_descriptions feat = Some d ->
             desc_type d = t_bool ->
             check_feature_change_valid self feat (VBool b)
             = Ok (VReadOnlyFeatureError feat)).
  { intros self feat d b Hget Ht.
    destruct (boolean_desc feat d Hget Ht) as [_ He].
    unfold check_feature_change_valid, dict_item. rewrite Hget. cbn [bind].
    rewrite Ht, He. reflexivity. }
  split; [exact Hro|]. split.
  - intros self feat v Hv.
    destruct v; try discriminate Hv.
    destruct (dict_get _pdfrate_feature_descriptions feat) as [d|] eqn:Hget.
    + destruct (desc_type d) eqn:Ht.
      1,2,4: unfold check_feature_change_valid, dict_item; rewrite Hget;
        cbn [bind]; rewrite Ht; cbn; discriminate.
      rewrite (Hro self feat d b Hget Ht). discriminate.
    + unfold check_feature_change_valid, dict_item. rewrite Hget. cbn. discriminate.
  - intros feat d Hget He Ht.
    destruct (boolean_desc feat d Hget Ht) as [_ He']. congruence.
Qed.

(** ** Runs on the sample document *)

(** C4.  A request for version 5 on the sample (version 3) is accepted and
    reported as a success, one byte changes and the length does not; but
    the byte written at the anchor is the byte of value 5, not the digit
    character ['5'] (value 53): [mm[match.start(1)] = int(...)] stores the
    number itself. *)
Theorem version_overwrite_stores_byte_value :
  forall fh fm,
    let py := Build_Runtime gmtime_utc fh fm in
    check_feature_change_valid sample "version" (VInt 5) = Ok (VBool true)
    /\ modify_file py sample [("version", VInt 5)]
       = Ok (Result (firstn 7 sample_pdf ++ x05 :: skipn 8 sample_pdf)
                    [("version", Outcome true (VInt 5))] [])
    /\ firstn 8 sample_pdf = encode "%PDF-1.3"
    /\ x05 <> "5"%byte
    /\ Byte.to_N x05 = 5%N /\ Byte.to_N "5"%byte = 53%N.
Proof.
  intros fh fm py. repeat split; try (vm_compute; reflexivity).
  discriminate.
Qed.

(** C5.  A request for [createdate_tz = 0] alone on the sample, whose
    creation date is 2009-12-31T23:00:00 UTC (epoch 1262300400) and whose
    modification date is 2012-01-01T00:00:00 UTC (epoch 1325376000):
    the creation-date element that is inserted carries the modification
    epoch. *)
Theorem createdate_renders_moddate_epoch :
  forall fh fm,
    let py := Build_Runtime gmtime_utc fh fm in
    check_feature_change_valid sample "createdate_tz" (VInt 0) = Ok (VBool true)
    /\ modify_file py sample [("createdate_tz", VInt 0)]
       = Ok (Result
               (encode (sample_body
                        ++ "<xap:CreateDate>2012-01-01T00:00:00Z</xap:CreateDate>"
                        ++ sample_trailer))
               [("createdate_tz", Outcome true (VInt 0))] [])
    /\ get_ sample "createdate_ts" = Ok (VInt 1262300400)
    /\ (a <- gmtime py (VInt 1262300400) ;; Ok (format_createdate_ts a))
       = Ok "2009-12-31T23:00:00"
    /\ get_ sample "moddate_ts" = Ok (VInt 1325376000)
    /\ (a <- gmtime py (VInt 1325376000) ;; Ok (format_createdate_ts a))
       = Ok "2012-01-01T00:00:00".
Proof.
  intros fh fm py. repeat split; vm_compute; reflexivity.
Qed.

(** C9.  A request for a new modification timestamp on the sample is
    accepted by the validator; the new date has the length of the one in
    the file (17 characters), so it is written in place; [mm.write] is
    handed a [str] and raises [TypeError], which [modify_file] does not
    catch. *)
Theorem accepted_moddate_change_aborts :
  forall fh fm,
    let py := Build_Runtime gmtime_utc fh fm in
    check_feature_change_valid sample "moddate_ts" (VInt 1325376001)
    = Ok (VBool true)
    /\ moddate_anchor sample = Some (44, encode "D:20120101000000Z")
    /\ slice sample_pdf 44 (44 + 17) = encode "D:20120101000000Z"
    /\ modify_file py sample [("moddate_ts", VInt 1325376001)] = Raise TypeError.
Proof.
  intros fh fm py. repeat split; vm_compute; reflexivity.
Qed.


(** ** How the steps treat the state *)

Lemma moved_refl (P : string -> bool) (st : state) : moved P st st.
Proof. intros k. left. split; reflexivity. Qed.

Lemma moved_trans (P : string -> bool) (st1 st2 st3 : state) :
  moved P st1 st2 -> moved P st2 st3 -> moved P st1 st3.
Proof.
  intros H12 H23 k.
  destruct (H12 k) as [[Ht Hr]|(HP & v & Hv & Hn & Hrep)];
    destruct (H23 k) as [[Ht' Hr']|(HP' & v' & Hv' & Hn' & Hrep')].
  - left. split; congruence.
  - right. split; [exact HP'|]. exists v'. repeat split; congruence.
  - right. split; [exact HP|]. exists v. repeat split; congruence.
  - congruence.
Qed.

Lemma moved_weaken (P Q : string -> bool) (st st' : state) :
  (forall k, P k = true -> Q k = true) -> moved P st st' -> moved Q st st'.
Proof.
  intros HPQ H k. destruct (H k) as [H1|(HP & H2)]; [left; exact H1|].
  right. split; [apply HPQ; exact HP | exact H2].
Qed.

(** A pending or reported entry after the step was pending or reported
    before it. *)
Lemma moved_absent (P : string -> bool) (st st' : state) (k : string) :
  moved P st st' ->
  dict_get (to_change st) k = None -> dict_get (report st) k = None ->
  dict_get (to_change st') k = None /\ dict_get (report st') k = None.
Proof.
  intros H Ht Hr. destruct (H k) as [[Ht' Hr']|(_ & v & Hv & _)].
  - split; congruence.
  - congruence.
Qed.


Lemma moved_untouched (P : string -> bool) (st st' : state) (k : string) :
  moved P st st' -> P k = false ->
  dict_get (to_change st') k = dict_get (to_change st) k
  /\ dict_get (report st') k = dict_get (report st) k.
Proof.
  intros H HP. destruct (H k) as [H1|(HP' & _)]; [exact H1|congruence].
Qed.

Lemma advanced_refl (P : string -> bool) (st : state) :
  NoDup (keys (to_change st)) -> advanced P st st.
Proof.
  intros H. split; [exact H|]. split; [apply moved_refl|].
  split; [reflexivity|]. intros Hc. split; [exact Hc | lia].
Qed.

Lemma advanced_trans (P : string -> bool) (st1 st2 st3 : state) :
  advanced P st1 st2 -> advanced P st2 st3 -> advanced P st1 st3.
Proof.
  intros (W1 & M1 & C1 & L1) (W2 & M2 & C2 & L2).
  split; [exact W2|]. split; [eapply moved_trans; eassumption|].
  split; [congruence|]. intros Hc.
  destruct (L1 Hc) as [Hc2 Hl1]. destruct (L2 Hc2) as [Hc3 Hl2].
  split; [exact Hc3 | lia].
Qed.

Lemma advanced_weaken (P Q : string -> bool) (st st' : state) :
  (forall k, P k = true -> Q k = true) -> advanced P st st' -> advanced Q st st'.
Proof.
  intros HPQ (W & M & C & L). split; [exact W|].
  split; [eapply moved_weaken; eassumption|]. split; assumption.
Qed.

Lemma advanced_wf (P : string -> bool) (st st' : state) :
  advanced P st st' -> NoDup (keys (to_change st')).
Proof. intros H. apply H. Qed.

Lemma advanced_cursor (P : string -> bool) (st st' : state) :
  advanced P st st' -> wf st -> wf st'.
Proof. intros (W & _ & _ & L) [Hc _]. split; [apply L, Hc | exact W]. Qed.

Lemma step_spec_weaken (P Q : string -> bool) (f : state -> res state) :
  (forall k, P k = true -> Q k = true) -> step_spec P f -> step_spec Q f.
Proof.
  intros HPQ Hf st st' Hwf Hrun.
  eapply advanced_weaken; [exact HPQ | exact (Hf st st' Hwf Hrun)].
Qed.

Lemma step_spec_bind (P : string -> bool) (f g : state -> res state) :
  step_spec P f -> step_spec P g ->
  step_spec P (fun st => st1 <- f st ;; g st1).
Proof.
  intros Hf Hg st st' Hwf Hrun. cbn beta in Hrun.
  destruct (f st) as [st1|e] eqn:E; [|discriminate]. cbn [bind] in Hrun.
  pose proof (Hf st st1 Hwf E) as A1.
  eapply advanced_trans; [exact A1|].
  exact (Hg st1 st' (advanced_wf _ _ _ A1) Hrun).
Qed.

(** An insertion on a well-formed state returns, and what it returns is
    determined. *)
Lemma insert_ok (st : state) (data : string) :
  cursor_ok (st_patcher st) ->
  exists st',
    insert st data = Ok st'
    /\ buffer st' = firstn (Z.to_nat (cursor st)) (buffer st) ++ encode data
                    ++ skipn (Z.to_nat (cursor st)) (buffer st)
    /\ cursor st' = cursor st + len (encode data)
    /\ report st' = report st /\ to_change st' = to_change st
    /\ validator_calls st' = validator_calls st
    /\ cursor_ok (st_patcher st').
Proof.
  intros Hc.
  destruct (insert_into_mmap_buf (st_patcher st) data Hc) as [pos' Hrun].
  pose proof (insert_into_mmap_cursor_ok _ _ data Hc Hrun) as Hc'.
  unfold insert. rewrite Hrun. cbn [bind]. eexists. split; [reflexivity|].
  unfold buffer, cursor, set_patcher. cbn [st_patcher report to_change validator_calls].
  cbn [p_mm mm_buf insert_offset].
  repeat (split; [reflexivity|]). exact Hc'.
Qed.

Lemma len_buffer_insert (st st' : state) (data : string) :
  cursor_ok (st_patcher st) ->
  buffer st' = firstn (Z.to_nat (cursor st)) (buffer st) ++ encode data
               ++ skipn (Z.to_nat (cursor st)) (buffer st) ->
  len (buffer st') = len (buffer st) + len (encode data).
Proof.
  intros [_ Hc] ->. unfold cursor, buffer. unfold mm_size in Hc.
  destruct (split_at (mm_buf (p_mm (st_patcher st))) _ Hc)
    as (pre & suf & E & _ & E1 & E2).
  rewrite E1, E2, E, !len_app. lia.
Qed.

Lemma insert_step (P : string -> bool) (data : state -> string) :
  step_spec P (fun st => insert st (data st)).
Proof.
  intros st st' Hnd Hrun.
  assert (Hsame : report st' = report st /\ to_change st' = to_change st
                  /\ validator_calls st' = validator_calls st).
  { unfold insert in Hrun.
    destruct (_insert_into_mmap (st_patcher st) (data st)); [|discriminate].
    cbn [bind] in Hrun. injection Hrun as <-. repeat split. }
  destruct Hsame as (Hr & Ht & Hv).
  split; [now rewrite Ht|]. split; [intros k; left; now rewrite Hr, Ht|].
  split; [exact Hv|]. intros Hc.
  destruct (insert_ok st (data st) Hc) as (st1 & E & Hb & _ & _ & _ & _ & Hc1).
  rewrite E in Hrun. injection Hrun as <-. split; [exact Hc1|].
  rewrite (len_buffer_insert st st1 (data st) Hc Hb).
  pose proof (len_nonneg (encode (data st))). lia.
Qed.

Lemma report_and_del_step (feat : string) :
  step_spec (String.eqb feat) (fun st => report_and_del st feat).
Proof.
  intros st st' Hnd Hrun. unfold report_and_del, dict_item in Hrun.
  destruct (dict_get (to_change st) feat) as [v|] eqn:E; [|discriminate].
  cbn [bind] in Hrun. injection Hrun as <-.
  unfold advanced, buffer. cbn [st_patcher report to_change validator_calls].
  split; [now apply NoDup_keys_dict_del|].
  split; [|split; [reflexivity | intros Hc; split; [exact Hc | lia]]].
  intros k. cbn [report to_change].
  destruct (String.eqb feat k) eqn:Ek.
  - apply String.eqb_eq in Ek. subst k. right. split; [reflexivity|].
    exists v. split; [exact E|]. split; [now apply dict_get_del_same|].
    apply dict_get_set_same.
  - apply String.eqb_neq in Ek. left.
    now rewrite dict_get_del_other, dict_get_set_other.
Qed.

(** Replacing the map by one of the same length keeps the invariant. *)
Lemma set_patcher_same_len (P : string -> bool) (st : state) (mm' : mmap) :
  NoDup (keys (to_change st)) ->
  mm_size mm' = mm_size (p_mm (st_patcher st)) ->
  advanced P st (set_patcher st (Patcher mm' (insert_offset (st_patcher st)))).
Proof.
  intros Hnd Hlen.
  split; [exact Hnd|]. split; [intros k; left; split; reflexivity|].
  split; [reflexivity|]. intros [H1 H2]. split.
  - unfold cursor_ok, set_patcher. cbn [st_patcher p_mm insert_offset].
    rewrite Hlen. split; assumption.
  - unfold buffer, set_patcher. cbn [st_patcher p_mm].
    unfold mm_size in Hlen. lia.
Qed.

Lemma mm_setitem_size (mm mm' : mmap) (i v : Z) :
  mm_setitem mm i v = Ok mm' -> mm_size mm' = mm_size mm.
Proof.
  unfold mm_setitem.
  set (i' := if i <? 0 then i + mm_size mm else i).
  destruct ((i' <? 0) || (mm_size mm <=? i')) eqn:E; [discriminate|].
  apply orb_false_iff in E. destruct E as [E1 E2].
  apply Z.ltb_ge in E1. apply Z.leb_gt in E2.
  destruct (if v <? 0 then None else Byte.of_N (Z.to_N v)) as [b|]; [|discriminate].
  intros [= <-]. unfold mm_size in *. cbn [mm_buf].
  unfold len in *. rewrite length_app. cbn [List.length].
  rewrite length_firstn, length_skipn. lia.
Qed.

Lemma modify_version_step : step_spec (String.eqb "version") modify_version.
Proof.
  intros st st' Hwf Hrun. unfold modify_version in Hrun.
  destruct (dict_get (to_change st) "version") as [version|];
    [|injection Hrun as <-; now apply advanced_refl].
  destruct (_regex_pdf_version_search (p_mm (st_patcher st))) as [start1|];
    [|injection Hrun as <-; now apply advanced_refl].
  destruct (py_int version) as [v|]; [|discriminate]. cbn [bind] in Hrun.
  destruct (mm_setitem (p_mm (st_patcher st)) start1 v) as [mm'|] eqn:E;
    [|discriminate]. cbn [bind] in Hrun.
  apply mm_setitem_size in E.
  pose proof (set_patcher_same_len (String.eqb "version") st mm' Hwf E) as H1.
  eapply advanced_trans; [exact H1|].
  apply (report_and_del_step "version"); [eapply advanced_wf; exact H1 | exact Hrun].
Qed.

Lemma dict_mem_In {V} (d : dict V) (k : string) (v : V) :
  In (k, v) d -> dict_mem d k = true.
Proof.
  unfold dict_mem. induction d as [|[k0 v0] d IH]; cbn; [tauto|].
  intros [[= -> ->]|H].
  - now rewrite String.eqb_refl.
  - destruct (String.eqb k0 k); [reflexivity | auto].
Qed.

Lemma modify_incrementable_feat_step (fc : dict value) (entry : string * string) :
  step_spec (String.eqb (fst entry))
            (fun st => modify_incrementable_feat fc st entry).
Proof.
  destruct entry as [feat marker]. cbn [fst].
  intros st st' Hwf Hrun. unfold modify_incrementable_feat in Hrun.
  destruct (dict_get (to_change st) feat) as [new_val|];
    [|injection Hrun as <-; now apply advanced_refl].
  destruct (dict_item fc feat) as [cur|]; [|discriminate]. cbn [bind] in Hrun.
  destruct (py_sub new_val cur) as [increase|]; [|discriminate]. cbn [bind] in Hrun.
  destruct (py_repeat _ increase) as [data|]; [|discriminate]. cbn [bind] in Hrun.
  destruct (insert st data) as [st1|] eqn:E; [|discriminate]. cbn [bind] in Hrun.
  pose proof (insert_step (String.eqb feat) (fun _ => data) st st1 Hwf E) as H1.
  eapply advanced_trans; [exact H1|].
  apply (report_and_del_step feat); [eapply advanced_wf; exact H1 | exact Hrun].
Qed.

Lemma modify_incrementable_step (fc : dict value) (feats : dict string) :
  step_spec (dict_mem feats) (fun st => modify_incrementable fc st feats).
Proof.
  induction feats as [|entry feats IH]; intros st st' Hwf Hrun.
  - injection Hrun as <-. now apply advanced_refl.
  - cbn [modify_incrementable] in Hrun.
    destruct (modify_incrementable_feat fc st entry) as [st1|] eqn:E; [|discriminate].
    cbn [bind] in Hrun.
    pose proof (modify_incrementable_feat_step fc entry st st1 Hwf E) as H1.
    eapply advanced_trans.
    + eapply advanced_weaken; [|exact H1]. intros k Hk.
      apply String.eqb_eq in Hk. subst k. destruct entry as [feat marker].
      unfold dict_mem. cbn. now rewrite String.eqb_refl.
    + eapply advanced_weaken; [|apply IH; [eapply advanced_wf; exact H1 | exact Hrun]].
      intros k Hk. unfold dict_mem in *. destruct entry as [feat marker]. cbn.
      destruct (String.eqb feat k); [reflexivity | exact Hk].
Qed.

Lemma prefix_underscore (p s : string) :
  String.prefix (p ++ "_") (p ++ "_" ++ s) = true.
Proof.
  induction p as [|a p IH]; cbn.
  - now destruct s.
  - destruct (ascii_dec a a) as [_|Hne]; [exact IH | contradiction].
Qed.

Lemma metadata_suffix_step_spec (feat_prefix : string)
    (acc acc' : string * state) (feat_suffix : string) :
  NoDup (keys (to_change (snd acc))) ->
  metadata_suffix_step feat_prefix acc feat_suffix = Ok acc' ->
  advanced (String.prefix (feat_prefix ++ "_")) (snd acc) (snd acc')
  /\ st_patcher (snd acc') = st_patcher (snd acc).
Proof.
  destruct acc as [addendum st]. cbn [snd]. intros Hwf Hrun.
  unfold metadata_suffix_step in Hrun.
  destruct (dict_item (to_change st) _) as [v|]; [|discriminate]. cbn [bind] in Hrun.
  match type of Hrun with
  | (bind ?c _) = _ => destruct c as [addendum'|]; [|discriminate]
  end.
  cbn [bind] in Hrun.
  destruct (report_and_del st _) as [st1|] eqn:E; [|discriminate]. cbn [bind] in Hrun.
  injection Hrun as <-. cbn [snd]. split.
  - eapply advanced_weaken; [|eapply report_and_del_step; eassumption].
    intros k Hk. apply String.eqb_eq in Hk. subst k. apply prefix_underscore.
  - unfold report_and_del in E.
    destruct (dict_item (to_change st) _); [|discriminate].
    cbn [bind] in E. injection E as <-. reflexivity.
Qed.

Lemma metadata_suffix_loop_spec (feat_prefix : string) (suffixes : list string) :
  forall acc acc',
    NoDup (keys (to_change (snd acc))) ->
    metadata_suffix_loop feat_prefix acc suffixes = Ok acc' ->
    advanced (String.prefix (feat_prefix ++ "_")) (snd acc) (snd acc')
    /\ st_patcher (snd acc') = st_patcher (snd acc).
Proof.
  induction suffixes as [|s suffixes IH]; intros acc acc' Hwf Hrun.
  - injection Hrun as <-. split; [now apply advanced_refl | reflexivity].
  - cbn [metadata_suffix_loop] in Hrun.
    destruct (metadata_suffix_step feat_prefix acc s) as [acc1|] eqn:E; [|discriminate].
    cbn [bind] in Hrun.
    destruct (metadata_suffix_step_spec feat_prefix acc acc1 s Hwf E) as [H1 P1].
    destruct (IH acc1 acc' (advanced_wf _ _ _ H1) Hrun) as [H2 P2].
    split; [eapply advanced_trans; eassumption | congruence].
Qed.

Lemma modify_metadata_field_step (fields : dict (string * string))
    (entry : string * (string * string)) :
  step_spec (String.prefix (fst entry ++ "_"))
            (fun st => modify_metadata_field st entry).
Proof.
  destruct entry as [feat_prefix [before after]]. cbn [fst].
  intros st st' Hwf Hrun. unfold modify_metadata_field in Hrun.
  destruct (metadata_suffix_loop feat_prefix ("", st) _) as [[addendum st1]|] eqn:E;
    [|discriminate].
  cbn [bind] in Hrun.
  destruct (metadata_suffix_loop_spec feat_prefix _ ("", st) (addendum, st1) Hwf E)
    as [H1 _].
  cbn [snd] in H1.
  destruct (String.eqb addendum ""); [injection Hrun as <-; exact H1|].
  eapply advanced_trans; [exact H1|].
  exact (insert_step _ (fun _ => _) st1 st' (advanced_wf _ _ _ H1) Hrun).
Qed.

Lemma modify_metadata_step (fields : dict (string * string)) :
  step_spec (fun k => existsb (fun e : string * (string * string) =>
                                 String.prefix (fst e ++ "_") k) fields)
            (fun st => modify_metadata st fields).
Proof.
  induction fields as [|entry fields IH]; intros st st' Hwf Hrun.
  - injection Hrun as <-. now apply advanced_refl.
  - cbn [modify_metadata] in Hrun.
    destruct (modify_metadata_field st entry) as [st1|] eqn:E; [|discriminate].
    cbn [bind] in Hrun.
    pose proof (modify_metadata_field_step fields entry st st1 Hwf E) as H1.
    eapply advanced_trans.
    + eapply advanced_weaken; [|exact H1]. intros k Hk. cbn [existsb].
      now rewrite Hk.
    + eapply advanced_weaken; [|apply IH; [eapply advanced_wf; exact H1 | exact Hrun]].
      intros k Hk. cbn [existsb]. rewrite Hk. apply orb_true_r.
Qed.

Lemma write_date_step (P : string -> bool) (anchor : option (Z * list byte))
    (new_date new_field : string) :
  step_spec P (fun st => write_date st anchor new_date new_field).
Proof.
  intros st st' Hwf Hrun. unfold write_date in Hrun.
  assert (Hins : insert st new_field = Ok st' -> advanced P st st')
    by exact (insert_step P (fun _ => new_field) st st' Hwf).
  destruct anchor as [[mod_location old_date]|]; [|auto].
  destruct (Z.of_nat (String.length new_date) =? len old_date); [|auto].
  destruct (mm_seek _ mod_location) as [mm1|]; [|discriminate].
  cbn [bind mm_write] in Hrun. discriminate.
Qed.

Lemma modify_moddate_step (py : Runtime) (self : FeatureEdit) :
  step_spec moddate_handled (modify_moddate py self).
Proof.
  intros st st' Hwf Hrun. unfold modify_moddate in Hrun.
  destruct (dict_mem (to_change st) "moddate_ts" || dict_mem (to_change st) "moddate_tz");
    [|injection Hrun as <-; now apply advanced_refl].
  assert (H1 : exists ts_str st1,
             advanced moddate_handled st st1
             /\ (' (tz_str, st0) <-
                   match dict_get (to_change st1) "moddate_tz" with
                   | Some new_tz =>
                       tz_str <- (if py_eq new_tz (VInt 0) then Ok "Z"
                                  else format_tz py "'" new_tz) ;;
                       st'0 <- report_and_del st1 "moddate_tz" ;;
                       Ok (tz_str, st'0)
                   | None =>
                       old_tz <- get_ self "moddate_tz" ;;
                       tz_str <- (if py_ne old_tz (VInt 0)
                                  then format_tz py "'" old_tz else Ok "Z") ;;
                       Ok (tz_str, st1)
                   end ;;
                 write_date st0 (moddate_anchor self)
                            ("D:" ++ ts_str ++ tz_str)%string
                            ("/ModDate(D:" ++ ts_str ++ tz_str ++ ")")%string)
                = Ok st').
  { destruct (dict_get (to_change st) "moddate_ts") as [ts|].
    - destruct (gmtime py ts) as [a|]; [|discriminate]. cbn [bind] in Hrun.
      destruct (report_and_del st "moddate_ts") as [st1|] eqn:E; [|discriminate].
      cbn [bind] in Hrun. exists (format_moddate_ts a), st1. split; [|exact Hrun].
      eapply advanced_weaken; [|exact (report_and_del_step _ st st1 Hwf E)].
      intros k Hk. unfold moddate_handled. now rewrite Hk.
    - destruct (get_ self "moddate_ts") as [ts|]; [|discriminate]. cbn [bind] in Hrun.
      destruct (gmtime py ts) as [a|]; [|discriminate]. cbn [bind] in Hrun.
      exists (format_moddate_ts a), st. split; [now apply advanced_refl | exact Hrun]. }
  clear Hrun. destruct H1 as (ts_str & st1 & A1 & Hrun).
  eapply advanced_trans; [exact A1|]. apply advanced_wf in A1.
  destruct (dict_get (to_change st1) "moddate_tz") as [new_tz|].
  - match type of Hrun with
    | context [bind (if ?c then _ else _) _] =>
        destruct (if c then Ok "Z" else format_tz py "'" new_tz) as [tz_str|];
          [|discriminate]
    end.
    cbn [bind] in Hrun.
    destruct (report_and_del st1 "moddate_tz") as [st2|] eqn:E; [|discriminate].
    cbn [bind] in Hrun.
    pose proof (report_and_del_step _ st1 st2 A1 E) as A2.
    eapply advanced_trans.
    + eapply advanced_weaken; [|exact A2].
      intros k Hk. unfold moddate_handled. rewrite Hk. apply orb_true_r.
    + exact (write_date_step _ _ _ _ st2 st' (advanced_wf _ _ _ A2) Hrun).
  - destruct (get_ self "moddate_tz") as [old_tz|]; [|discriminate]. cbn [bind] in Hrun.
    match type of Hrun with
    | context [bind (if ?c then _ else _) _] =>
        destruct (if c then format_tz py "'" old_tz else Ok "Z") as [tz_str|];
          [|discriminate]
    end.
    cbn [bind] in Hrun.
    exact (write_date_step _ _ _ _ st1 st' A1 Hrun).
Qed.

Lemma modify_createdate_step (py : Runtime) (self : FeatureEdit) :
  step_spec createdate_handled (modify_createdate py self).
Proof.
  intros st st' Hwf Hrun. unfold modify_createdate in Hrun.
  destruct (dict_mem (to_change st) "createdate_ts"
            || dict_mem (to_change st) "createdate_tz");
    [|injection Hrun as <-; now apply advanced_refl].
  assert (H1 : exists ts_str st1,
             advanced createdate_handled st st1
             /\ (' (tz_str, st0) <-
                   match dict_get (to_change st1) "createdate_tz" with
                   | Some new_tz =>
                       tz_str <- (if py_eq new_tz (VInt 0) then Ok "Z"
                                  else format_tz py ":" new_tz) ;;
                       st'0 <- report_and_del st1 "createdate_tz" ;;
                       Ok (tz_str, st'0)
                   | None =>
                       old_tz <- get_ self "createdate_tz" ;;
                       tz_str <- (if py_ne old_tz (VInt 0)
                                  then format_tz py "'" old_tz else Ok "Z") ;;
                       Ok (tz_str, st1)
                   end ;;
                 write_date st0 (createdate_anchor self)
                            (ts_str ++ tz_str)%string
                            ("<xap:CreateDate>" ++ ts_str ++ tz_str
                             ++ "</xap:CreateDate>")%string)
                = Ok st').
  { destruct (dict_get (to_change st) "createdate_ts") as [ts|].
    - destruct (gmtime py ts) as [a|]; [|discriminate]. cbn [bind] in Hrun.
      destruct (report_and_del st "createdate_ts") as [st1|] eqn:E; [|discriminate].
      cbn [bind] in Hrun. exists (format_createdate_ts a), st1. split; [|exact Hrun].
      eapply advanced_weaken; [|exact (report_and_del_step _ st st1 Hwf E)].
      intros k Hk. unfold createdate_handled. now rewrite Hk.
    - destruct (get_ self "moddate_ts") as [ts|]; [|discriminate]. cbn [bind] in Hrun.
      destruct (gmtime py ts) as [a|]; [|discriminate]. cbn [bind] in Hrun.
      exists (format_createdate_ts a), st. split; [now apply advanced_refl | exact Hrun]. }
  clear Hrun. destruct H1 as (ts_str & st1 & A1 & Hrun).
  eapply advanced_trans; [exact A1|]. apply advanced_wf in A1.
  destruct (dict_get (to_change st1) "createdate_tz") as [new_tz|].
  - match type of Hrun with
    | context [bind (if ?c then _ else _) _] =>
        destruct (if c then Ok "Z" else format_tz py ":" new_tz) as [tz_str|];
          [|discriminate]
    end.
    cbn [bind] in Hrun.
    destruct (report_and_del st1 "createdate_tz") as [st2|] eqn:E; [|discriminate].
    cbn [bind] in Hrun.
    pose proof (report_and_del_step _ st1 st2 A1 E) as A2.
    eapply advanced_trans.
    + eapply advanced_weaken; [|exact A2].
      intros k Hk. unfold createdate_handled. rewrite Hk. apply orb_true_r.
    + exact (write_date_step _ _ _ _ st2 st' (advanced_wf _ _ _ A2) Hrun).
  - destruct (get_ self "createdate_tz") as [old_tz|]; [|discriminate].
    cbn [bind] in Hrun.
    match type of Hrun with
    | context [bind (if ?c then _ else _) _] =>
        destruct (if c then format_tz py "'" old_tz else Ok "Z") as [tz_str|];
          [|discriminate]
    end.
    cbn [bind] in Hrun.
    exact (write_date_step _ _ _ _ st1 st' A1 Hrun).
Qed.

Lemma modify_size_step : step_spec (String.eqb "size") modify_size.
Proof.
  intros st st' Hwf Hrun. unfold modify_size in Hrun.
  destruct (dict_get (to_change st) "size") as [size|];
    [|injection Hrun as <-; now apply advanced_refl].
  destruct (py_sub size _) as [insert_count|]; [|discriminate]. cbn [bind] in Hrun.
  destruct (py_gt insert_count (VInt 0)) as [[|]|]; try discriminate; cbn [bind] in Hrun;
    [|injection Hrun as <-; now apply advanced_refl].
  destruct (py_repeat " " insert_count) as [data|]; [|discriminate]. cbn [bind] in Hrun.
  destruct (insert st data) as [st1|] eqn:E; [|discriminate]. cbn [bind] in Hrun.
  pose proof (insert_step (String.eqb "size") (fun _ => data) st st1 Hwf E) as H1.
  eapply advanced_trans; [exact H1|].
  apply (report_and_del_step "size"); [eapply advanced_wf; exact H1 | exact Hrun].
Qed.

Lemma apply_edits_step (py : Runtime) (self : FeatureEdit) :
  step_spec handled_before_size (apply_edits py self).
Proof.
  unfold apply_edits.
  apply (step_spec_bind _ modify_version).
  { eapply step_spec_weaken; [|exact modify_version_step].
    intros k Hk. unfold handled_before_size.
    rewrite String.eqb_sym, Hk. reflexivity. }
  apply (step_spec_bind _
           (fun st => modify_incrementable (retrieve_feature_dictionary self) st
                                           _incrementable_feats)).
  { eapply step_spec_weaken; [|apply modify_incrementable_step].
    intros k Hk. unfold handled_before_size. rewrite Hk.
    now rewrite orb_true_r. }
  apply (step_spec_bind _ (fun st => modify_metadata st _metadata_feats)).
  { eapply step_spec_weaken; [|apply modify_metadata_step].
    intros k Hk. unfold handled_before_size. cbv beta in Hk. rewrite Hk.
    now rewrite !orb_true_r. }
  apply (step_spec_bind _ (modify_moddate py self)).
  { eapply step_spec_weaken; [|apply modify_moddate_step].
    intros k Hk. unfold handled_before_size, moddate_handled in *.
    rewrite (String.eqb_sym k "moddate_ts"), (String.eqb_sym k "moddate_tz").
    apply orb_true_iff in Hk. destruct Hk as [-> | ->]; now rewrite ?orb_true_r. }
  eapply step_spec_weaken; [|apply modify_createdate_step].
  intros k Hk. unfold handled_before_size, createdate_handled in *.
  rewrite (String.eqb_sym k "createdate_ts"), (String.eqb_sym k "createdate_tz").
  apply orb_true_iff in Hk. destruct Hk as [-> | ->]; now rewrite ?orb_true_r.
Qed.

(** ** Step 1 *)

(** The validator answers [True] or an exception object. *)
Lemma check_feature_change_valid_answer
    (self : FeatureEdit) (feat : string) (feat_val r : value) :
  check_feature_change_valid self feat feat_val = Ok r ->
  r = VBool true \/ isinstance_Exception r = true.
Proof.
  unfold check_feature_change_valid.
  destruct (dict_item _ feat) as [d|]; [|discriminate]. cbn [bind].
  destruct (negb (pytype_eqb (desc_type d) (type feat_val)));
    [intros [= <-]; now right|].
  destruct (negb (edit_eqb (desc_edit d) edit_y)); [intros [= <-]; now right|].
  destruct (pytype_eqb (type feat_val) t_bool); [intros [= <-]; now left|].
  destruct (get_ self feat) as [cur|]; [|discriminate]. cbn [bind].
  destruct (fst (desc_range d)) as [|lo];
    (match goal with
     | |- context [py_gt ?a ?b] => destruct (py_gt a b) as [[|]|]
     end; cbn [bind]; try discriminate; [intros [= <-]; now right|]);
    (destruct (snd (desc_range d)) as [|hi];
     match goal with
     | |- context [py_lt ?a ?b] => destruct (py_lt a b) as [[|]|]
     end; cbn [bind]; try discriminate; intros [= <-]; auto).
Qed.

Lemma py_eq_True (r : value) :
  r = VBool true \/ isinstance_Exception r = true ->
  py_eq r (VBool true) = true -> r = VBool true.
Proof.
  intros [->|H] E; [reflexivity|].
  destruct r; cbn in H; try discriminate H; cbn in E; discriminate E.
Qed.

Lemma diff_item_spec (self : FeatureEdit) (st st' : state) (item : string * value) :
  diff_item self (retrieve_feature_dictionary self) st item = Ok st' ->
  st_patcher st' = st_patcher st
  /\ (NoDup (keys (to_change st)) -> NoDup (keys (to_change st')))
  /\ (all_accepted self st -> all_accepted self st')
  /\ (forall k, k <> fst item ->
        dict_get (to_change st') k = dict_get (to_change st) k
        /\ dict_get (report st') k = dict_get (report st) k)
  /\ (forall k, In k (map fst (validator_calls st')) ->
        In k (map fst (validator_calls st)) \/ k = fst item).
Proof.
  destruct item as [feat feat_val]. cbn [fst]. unfold diff_item.
  destruct (dict_item _ feat) as [cur|] eqn:Ecur; [|discriminate]. cbn [bind].
  assert (Hsame : Ok st = Ok st' ->
            st_patcher st' = st_patcher st
            /\ (NoDup (keys (to_change st)) -> NoDup (keys (to_change st')))
            /\ (all_accepted self st -> all_accepted self st')
            /\ (forall k, k <> feat ->
                  dict_get (to_change st') k = dict_get (to_change st) k
                  /\ dict_get (report st') k = dict_get (report st) k)
            /\ (forall k, In k (map fst (validator_calls st')) ->
                  In k (map fst (validator_calls st)) \/ k = feat)).
  { intros [= <-]. repeat split; auto. }
  destruct (py_ne cur feat_val) eqn:Ene; cbn [andb]; [|exact Hsame].
  destruct (negb (isinstance_Exception feat_val)); [|exact Hsame].
  match goal with
  | |- context [bind ?c _] => destruct c as [[|]|]
  end; cbn [bind]; try discriminate; [exact Hsame|].
  destruct (check_feature_change_valid self feat feat_val) as [valid|] eqn:Echk;
    [|discriminate].
  cbn [bind].
  pose proof (check_feature_change_valid_answer _ _ _ _ Echk) as Hans.
  clear Hsame.
  destruct (py_eq valid (VBool true)) eqn:Eeq; intros [= <-];
    unfold all_accepted; cbn [st_patcher to_change report validator_calls].
  - apply (py_eq_True _ Hans) in Eeq. subst valid.
    split; [reflexivity|]. split; [apply NoDup_keys_dict_set|].
    split; [|split].
    + intros Hacc k v. destruct (String.eqb feat k) eqn:Ek.
      * apply String.eqb_eq in Ek. subst k. rewrite dict_get_set_same.
        intros [= <-]. exists cur. unfold dict_item in Ecur.
        destruct (dict_get _ feat); [|discriminate]. injection Ecur as ->. auto.
      * apply String.eqb_neq in Ek. rewrite dict_get_set_other by exact Ek.
        apply Hacc.
    + intros k Hk. split; [|reflexivity].
      apply dict_get_set_other. congruence.
    + intros k. rewrite map_app, in_app_iff. cbn. intuition (subst; auto).
  - split; [reflexivity|]. split; [auto|]. split; [auto|]. split.
    + intros k Hk. split; [reflexivity|].
      apply dict_get_set_other. congruence.
    + intros k. rewrite map_app, in_app_iff. cbn. intuition (subst; auto).
Qed.

Lemma diff_items_spec (self : FeatureEdit) (items : list (string * value)) :
  forall st st',
    diff_items self (retrieve_feature_dictionary self) st items = Ok st' ->
    st_patcher st' = st_patcher st
    /\ (NoDup (keys (to_change st)) -> NoDup (keys (to_change st')))
    /\ (all_accepted self st -> all_accepted self st')
    /\ (forall k, ~ In k (map fst items) ->
          dict_get (to_change st') k = dict_get (to_change st) k
          /\ dict_get (report st') k = dict_get (report st) k
          /\ (In k (map fst (validator_calls st')) ->
              In k (map fst (validator_calls st)))).
Proof.
  induction items as [|item items IH]; intros st st' Hrun.
  - injection Hrun as <-. repeat split; auto.
  - cbn [diff_items] in Hrun.
    destruct (diff_item self _ st item) as [st1|] eqn:E; [|discriminate].
    cbn [bind] in Hrun.
    destruct (diff_item_spec self st st1 item E) as (P1 & N1 & A1 & F1 & C1).
    destruct (IH st1 st' Hrun) as (P2 & N2 & A2 & F2).
    split; [congruence|]. split; [auto|]. split; [auto|].
    intros k Hk. cbn [map] in Hk.
    assert (Hk1 : k <> fst item) by (intros ->; apply Hk; now left).
    assert (Hk2 : ~ In k (map fst items)) by (intros H; apply Hk; now right).
    destruct (F1 k Hk1) as [T1 R1]. destruct (F2 k Hk2) as (T2 & R2 & V2).
    split; [congruence|]. split; [congruence|].
    intros H. destruct (C1 k (V2 H)) as [H'|H']; [exact H' | contradiction].
Qed.

Lemma In_insert_sorted {V} (x a : string * V) (l : list (string * V)) :
  In x (insert_sorted a l) <-> x = a \/ In x l.
Proof.
  induction l as [|y l IH]; cbn; [intuition congruence|].
  destruct (String.leb (fst a) (fst y)); cbn; rewrite ?IH; intuition congruence.
Qed.

Lemma In_sorted {V} (x : string * V) (l : list (string * V)) :
  In x (sorted l) <-> In x l.
Proof.
  induction l as [|a l IH]; cbn; [tauto|].
  rewrite In_insert_sorted, IH. intuition congruence.
Qed.

Lemma In_keys_sorted {V} (k : string) (l : list (string * V)) :
  In k (map fst (sorted l)) <-> In k (keys l).
Proof.
  unfold keys. rewrite !in_map_iff. split; intros (x & Hx & Hin); exists x;
    (split; [exact Hx|]); now apply In_sorted.
Qed.

(** The state step 1 leaves: well-formed when the reader's cursor lies in
    the file; every pending change accepted; nothing recorded for a feature
    that was not requested. *)
Lemma stage_and_validate_spec (self : FeatureEdit) (features : dict value)
    (st : state) :
  stage_and_validate self features = Ok st ->
  st_patcher st = Patcher (MMap (pdf self) 0) (_get_startxref_position self)
  /\ (0 <= _get_startxref_position self <= len (pdf self) -> wf st)
  /\ NoDup (keys (to_change st))
  /\ all_accepted self st
  /\ (forall k, ~ In k (keys features) ->
        dict_get (to_change st) k = None /\ dict_get (report st) k = None
        /\ ~ In k (map fst (validator_calls st))).
Proof.
  unfold stage_and_validate.
  destruct (len (pdf self) =? 0) eqn:E0; [discriminate|]. cbn [bind].
  apply Z.eqb_neq in E0. intros Hrun.
  destruct (diff_items_spec self _ _ _ Hrun) as (P & N & A & F).
  cbn [st_patcher to_change report validator_calls] in *.
  split; [exact P|]. split; [|split; [|split]].
  - intros Hoff. split; [|apply N; constructor].
    rewrite P. unfold cursor_ok, mm_size. cbn [p_mm mm_buf insert_offset].
    pose proof (len_nonneg (pdf self)). lia.
  - apply N. constructor.
  - apply A. intros k v. discriminate.
  - intros k Hk. rewrite <- In_keys_sorted in Hk.
    destruct (F k Hk) as (T & R & V). cbn in T, R. auto.
Qed.

(** ** The report that is returned *)

Lemma dict_get_map_outcome (report : dict value) (k : string) :
  dict_get (map (fun kv : string * value =>
                   (fst kv, Outcome (negb (isinstance_Exception (snd kv))) (snd kv)))
                report) k
  = option_map (fun v => Outcome (negb (isinstance_Exception v)) v)
               (dict_get report k).
Proof.
  induction report as [|[k0 v0] report IH]; cbn; [reflexivity|].
  destruct (String.eqb k0 k); [reflexivity | exact IH].
Qed.

Lemma dict_get_fold_pending (to_change : dict value) :
  forall (r : dict outcome) (k : string),
    NoDup (keys to_change) ->
    dict_get (fold_left (fun r (kv : string * value) =>
                           dict_set r (fst kv) (Outcome false (snd kv)))
                        to_change r) k
    = match dict_get to_change k with
      | Some v => Some (Outcome false v)
      | None => dict_get r k
      end.
Proof.
  induction to_change as [|[k0 v0] tc IH]; intros r k Hnd; cbn; [reflexivity|].
  inversion Hnd as [|? ? Hnotin Hnd']; subst.
  rewrite IH by exact Hnd'. cbn [fst snd].
  destruct (String.eqb k0 k) eqn:E.
  - apply String.eqb_eq in E. subst k0.
    apply dict_get_None_keys in Hnotin. rewrite Hnotin.
    apply dict_get_set_same.
  - apply String.eqb_neq in E.
    destruct (dict_get tc k); [reflexivity|].
    now apply dict_get_set_other.
Qed.

(** An entry of the returned report: a pending feature is unsuccessful, a
    reported one is successful unless an exception object was recorded. *)
Lemma final_report_get (report to_change : dict value) (k : string) :
  NoDup (keys to_change) ->
  dict_get (final_report report to_change) k
  = match dict_get to_change k with
    | Some v => Some (Outcome false v)
    | None => option_map (fun v => Outcome (negb (isinstance_Exception v)) v)
                         (dict_get report k)
    end.
Proof.
  intros Hnd. unfold final_report.
  rewrite dict_get_fold_pending by exact Hnd.
  now rewrite dict_get_map_outcome.
Qed.

(** ** Step 6 *)

Lemma encode_repeat_space (n : nat) :
  encode (repeat_string " " n) = repeat " "%byte n.
Proof.
  induction n as [|n IH]; [reflexivity|].
  cbn [repeat_string repeat]. cbn [append encode]. rewrite IH. reflexivity.
Qed.

Lemma handled_before_size_size : handled_before_size "size" = false.
Proof. vm_compute. reflexivity. Qed.

(** C7.  Let [size] be accepted in step 1 with the requested value, and
    let the steps before the size step leave the state [st], whose buffer
    has the size [cur].  Then [size] is still pending in [st], the size
    step returns, and [modify_file] returns what is built from the state
    the step leaves.  If [requested > cur], exactly [requested - cur]
    spaces are inserted at the cursor, the final length is the requested
    size and the report says success; if [requested <= cur] the state is
    unchanged and the report says [success = False]. *)
Theorem size_step_pads_to_requested_size
    (py : Runtime) (self : FeatureEdit) (features : dict value)
    (st1 st : state) (requested : Z) :
  0 <= _get_startxref_position self <= len (pdf self) ->
  stage_and_validate self features = Ok st1 ->
  dict_get (to_change st1) "size" = Some (VInt requested) ->
  apply_edits py self st1 = Ok st ->
  let cur := mm_size (p_mm (st_patcher st)) in
  dict_get (to_change st) "size" = Some (VInt requested)
  /\ exists st',
       modify_size st = Ok st'
       /\ modify_file py self features = finish self st'
       /\ (forall r, modify_file py self features = Ok r ->
             path_content r = buffer st'
             /\ res_report r = final_report (report st') (to_change st'))
       /\ (cur < requested ->
             buffer st' = firstn (Z.to_nat (cursor st)) (buffer st)
                          ++ repeat " "%byte (Z.to_nat (requested - cur))
                          ++ skipn (Z.to_nat (cursor st)) (buffer st)
             /\ len (buffer st') = requested
             /\ dict_get (final_report (report st') (to_change st')) "size"
                = Some (Outcome true (VInt requested)))
       /\ (requested <= cur ->
             st' = st
             /\ dict_get (final_report (report st') (to_change st')) "size"
                = Some (Outcome false (VInt requested))).
Proof.
  intros Hoff Hstage Hacc Hedits cur.
  destruct (stage_and_validate_spec self features st1 Hstage) as (_ & W1 & _).
  specialize (W1 Hoff).
  pose proof (apply_edits_step py self st1 st (proj2 W1) Hedits) as A.
  pose proof (advanced_cursor _ _ _ A W1) as W. destruct A as (_ & M & _ & _).
  destruct (moved_untouched _ _ _ "size" M handled_before_size_size) as [Hsize _].
  rewrite Hacc in Hsize. split; [exact Hsize|].
  assert (Hfile : forall st', modify_size st = Ok st' ->
                    modify_file py self features = finish self st').
  { intros st' E. unfold modify_file. rewrite Hstage. cbn [bind].
    rewrite Hedits. cbn [bind]. rewrite E. reflexivity. }
  assert (Hres : forall st' r, finish self st' = Ok r ->
                   path_content r = buffer st'
                   /\ res_report r = final_report (report st') (to_change st')).
  { intros st' r. unfold finish, buffer.
    destruct (reread self _); [|discriminate]. cbn [bind].
    intros [= <-]. split; reflexivity. }
  destruct (0 <? requested - cur) eqn:Epos.
  - destruct (insert_ok st (repeat_string " " (Z.to_nat (requested - cur))) (proj1 W))
      as (st2 & Eins & Hbuf & Hcur & Hrep & Htc & _ & W2).
    assert (Hrun : modify_size st
                   = Ok (State (st_patcher st2)
                               (dict_set (report st2) "size" (VInt requested))
                               (dict_del (to_change st2) "size")
                               (validator_calls st2))).
    { unfold modify_size. rewrite Hsize. cbn [py_sub as_num bind py_gt py_lt].
      fold cur. rewrite Epos. cbn [py_repeat bind].
      rewrite Eins. cbn [bind]. unfold report_and_del, dict_item.
      rewrite Htc, Hsize. reflexivity. }
    apply Z.ltb_lt in Epos.
    eexists. split; [exact Hrun|].
    split; [exact (Hfile _ Hrun)|].
    split; [intros r Hr; apply Hres; rewrite <- (Hfile _ Hrun); exact Hr|].
    split; [|lia]. intros _.
    rewrite encode_repeat_space in Hbuf.
    assert (Hb : forall r t c, buffer (State (st_patcher st2) r t c) = buffer st2)
      by reflexivity.
    rewrite !Hb.
    split; [exact Hbuf|]. split.
    + pose proof (len_buffer_insert st st2
                    (repeat_string " " (Z.to_nat (requested - cur))) (proj1 W)) as Hlen.
      rewrite encode_repeat_space in Hlen. rewrite (Hlen Hbuf), len_repeat.
      subst cur. unfold mm_size, buffer in *. lia.
    + cbn [report to_change]. rewrite Htc.
      rewrite final_report_get by (apply NoDup_keys_dict_del, W).
      rewrite dict_get_del_same by apply W.
      now rewrite dict_get_set_same.
  - assert (Hrun : modify_size st = Ok st).
    { unfold modify_size. rewrite Hsize. cbn [py_sub as_num bind py_gt py_lt].
      fold cur. now rewrite Epos. }
    apply Z.ltb_ge in Epos. exists st. split; [exact Hrun|].
    split; [exact (Hfile _ Hrun)|].
    split; [intros r Hr; apply Hres; rewrite <- (Hfile _ Hrun); exact Hr|].
    split; [lia|]. intros _. split; [reflexivity|].
    rewrite final_report_get by apply W. now rewrite Hsize.
Qed.

(** C7 on the sample: 150 bytes, a request for 300. *)
Lemma size_step_pads_to_requested_size_witness :
  exists st',
    modify_file sample_runtime sample [("size", VInt 300)] = finish sample st'
    /\ len (buffer st') = 300
    /\ dict_get (final_report (report st') (to_change st')) "size"
       = Some (Outcome true (VInt 300)).
Proof.
  destruct (stage_and_validate sample [("size", VInt 300)]) as [st1|] eqn:E1;
    [|vm_compute in E1; discriminate].
  destruct (apply_edits sample_runtime sample st1) as [st|] eqn:E2;
    [|vm_compute in E1; injection E1 as <-; vm_compute in E2; discriminate].
  assert (Hoff : 0 <= _get_startxref_position sample <= len (pdf sample))
    by (vm_compute; split; discriminate).
  assert (Hacc : dict_get (to_change st1) "size" = Some (VInt 300))
    by (vm_compute in E1; injection E1 as <-; reflexivity).
  destruct (size_step_pads_to_requested_size sample_runtime sample
              [("size", VInt 300)] st1 st 300 Hoff E1 Hacc E2)
    as (_ & st' & _ & Hfile & _ & Hgrow & _).
  exists st'. split; [exact Hfile|].
  assert (Hcur : mm_size (p_mm (st_patcher st)) < 300).
  { vm_compute in E1. injection E1 as <-. vm_compute in E2. injection E2 as <-.
    vm_compute. reflexivity. }
  destruct (Hgrow Hcur) as (_ & Hlen & Hrep). split; assumption.
Defined.

(** ** The order of the requested items *)

Lemma leb_trans (a b c : string) :
  String.leb a b = true -> String.leb b c = true -> String.leb a c = true.
Proof.
  unfold String.leb.
  destruct (String.compare a b) eqn:Eab; try discriminate; intros _;
    destruct (String.compare b c) eqn:Ebc; try discriminate; intros _.
  - apply String_as_OT.cmp_eq in Eab. subst b. now rewrite Ebc.
  - apply String_as_OT.cmp_eq in Eab. subst b. now rewrite Ebc.
  - apply String_as_OT.cmp_eq in Ebc. subst c. now rewrite Eab.
  - apply String_as_OT.cmp_lt in Eab. apply String_as_OT.cmp_lt in Ebc.
    pose proof (String_as_OT.lt_trans _ _ _ Eab Ebc) as H.
    apply String_as_OT.cmp_lt in H. unfold String_as_OT.cmp in H. now rewrite H.
Qed.

Lemma Forall_insert_sorted {V} (R : string * V -> Prop)
    (x : string * V) (l : list (string * V)) :
  R x -> Forall R l -> Forall R (insert_sorted x l).
Proof.
  intros Hx Hl. apply Forall_forall. intros y Hy.
  apply In_insert_sorted in Hy. destruct Hy as [->|Hy]; [exact Hx|].
  revert y Hy. now apply Forall_forall.
Qed.

Lemma StronglySorted_insert {V} (x : string * V) (l : list (string * V)) :
  StronglySorted key_le l -> StronglySorted key_le (insert_sorted x l).
Proof.
  induction 1 as [|y l Hs IH Hy]; cbn.
  - repeat constructor.
  - destruct (String.leb (fst x) (fst y)) eqn:E.
    + constructor; [now constructor|]. constructor; [exact E|].
      eapply Forall_impl; [|exact Hy]. intros z Hz.
      unfold key_le in *. eapply leb_trans; eassumption.
    + constructor; [exact IH|]. apply Forall_insert_sorted; [|exact Hy].
      unfold key_le. destruct (String.leb_total (fst x) (fst y)); congruence.
Qed.

Lemma StronglySorted_sorted {V} (l : list (string * V)) :
  StronglySorted key_le (sorted l).
Proof.
  induction l as [|x l IH]; cbn; [constructor|].
  now apply StronglySorted_insert.
Qed.

Lemma insert_sorted_least {V} (x : string * V) (l : list (string * V)) :
  Forall (key_le x) l -> insert_sorted x l = x :: l.
Proof.
  destruct l as [|y l]; [reflexivity|]. intros H.
  inversion H as [|? ? Hy _]; subst. cbn. unfold key_le in Hy. now rewrite Hy.
Qed.

Lemma filter_insert_sorted {V} (p : string * V -> bool)
    (x : string * V) (l : list (string * V)) :
  StronglySorted key_le l ->
  filter p (insert_sorted x l)
  = if p x then insert_sorted x (filter p l) else filter p l.
Proof.
  induction 1 as [|y l Hs IH Hy]; cbn.
  - now destruct (p x).
  - destruct (String.leb (fst x) (fst y)) eqn:E; cbn.
    + destruct (p x) eqn:Px; [|reflexivity].
      destruct (p y) eqn:Py; cbn; [now rewrite E|].
      symmetry. apply insert_sorted_least.
      apply Forall_forall. intros z Hz. apply filter_In in Hz.
      destruct Hz as [Hz _].
      pose proof (proj1 (Forall_forall _ _) Hy z Hz) as Hyz.
      unfold key_le in *. eapply leb_trans; eassumption.
    + rewrite IH. destruct (p y) eqn:Py; cbn; [|reflexivity].
      destruct (p x); [now rewrite E | reflexivity].
Qed.

Lemma filter_sorted {V} (p : string * V -> bool) (l : list (string * V)) :
  filter p (sorted l) = sorted (filter p l).
Proof.
  induction l as [|x l IH]; [reflexivity|].
  change (sorted (x :: l)) with (insert_sorted x (sorted l)).
  rewrite filter_insert_sorted by apply StronglySorted_sorted.
  rewrite IH. cbn [filter]. now destruct (p x).
Qed.

Lemma NoDup_keys_unique {V} (l : dict V) (k : string) (v v' : V) :
  NoDup (keys l) -> In (k, v) l -> In (k, v') l -> v = v'.
Proof.
  induction l as [|[k0 v0] l IH]; cbn; [tauto|].
  intros Hnd. inversion Hnd as [|? ? Hnotin Hnd']; subst.
  intros [[= -> ->]|H1] [[= <-]|H2]; auto.
  - exfalso. apply Hnotin. apply in_map_iff. now exists (k, v').
  - subst. exfalso. apply Hnotin. apply in_map_iff. now exists (k0, v).
Qed.

(** ** No-op requests *)

(** The loop of step 1 skips an item whose value is the current one, or a
    float near it: the state is returned as it is. *)
Lemma diff_item_noop (self : FeatureEdit) (fc : dict value) (st : state)
    (feat : string) (v cur : value) :
  dict_get fc feat = Some cur ->
  py_ne cur v = false \/ (type v = t_float /\ near_equal cur v = Ok true) ->
  diff_item self fc st (feat, v) = Ok st.
Proof.
  intros Hcur H. unfold diff_item, dict_item. rewrite Hcur. cbn [bind].
  destruct H as [->|[Ht Hnear]]; [reflexivity|].
  destruct (py_ne cur v); [|reflexivity].
  destruct (negb (isinstance_Exception v)); [|reflexivity].
  cbn [andb]. rewrite Ht, Hnear. reflexivity.
Qed.

Lemma diff_items_without (self : FeatureEdit) (fc : dict value)
    (feat : string) (v : value) (items : list (string * value)) :
  (forall st, diff_item self fc st (feat, v) = Ok st) ->
  (forall v', In (feat, v') items -> v' = v) ->
  forall st,
    diff_items self fc st items = diff_items self fc st (without feat items).
Proof.
  intros Hnoop. induction items as [|[k w] items IH]; intros Huniq st;
    [reflexivity|].
  cbn [without filter fst diff_items]. fold (without feat items).
  assert (Huniq' : forall v', In (feat, v') items -> v' = v)
    by (intros v' Hin; apply Huniq; now right).
  destruct (String.eqb k feat) eqn:E; cbn [negb].
  - apply String.eqb_eq in E. subst k.
    rewrite (Huniq w) by now left. rewrite Hnoop. cbn [bind]. now apply IH.
  - cbn [diff_items]. destruct (diff_item self fc st (k, w)); cbn [bind];
      [now apply IH | reflexivity].
Qed.

Lemma not_In_keys_without (feat : string) (features : dict value) :
  ~ In feat (keys (without feat features)).
Proof.
  unfold keys, without. intros H. apply in_map_iff in H.
  destruct H as ([k v] & Hk & Hin). cbn [fst] in Hk. subst k.
  apply filter_In in Hin. destruct Hin as [_ Hp]. cbn [fst] in Hp.
  now rewrite String.eqb_refl in Hp.
Qed.

Lemma stage_and_validate_without (self : FeatureEdit) (features : dict value)
    (feat : string) (v cur : value) :
  NoDup (keys features) ->
  In (feat, v) features ->
  dict_get (retrieve_feature_dictionary self) feat = Some cur ->
  py_ne cur v = false \/ (type v = t_float /\ near_equal cur v = Ok true) ->
  stage_and_validate self features
  = stage_and_validate self (without feat features).
Proof.
  intros Hnd Hin Hcur Hnoop. unfold stage_and_validate.
  destruct (len (pdf self) =? 0); [reflexivity|]. cbn [bind].
  unfold without at 1. rewrite <- filter_sorted. fold (without feat (sorted features)).
  apply diff_items_without with (v := v).
  - intros st. eapply diff_item_noop; eassumption.
  - intros v' Hv'. apply (proj1 (In_sorted _ _)) in Hv'.
    eapply NoDup_keys_unique; eassumption.
Qed.

(** C8.  Let the request hold, for [feat], the value the reader reports
    for it ([features_current[feat] != feat_val] is false), or a float
    whose distance to it is below [1e-6].  Then the run is the run of the
    request without that entry: no edit is made for it; the validator is
    not called on it and step 1 records nothing for it; and the returned
    report has no entry for it. *)
Theorem noop_request_leaves_no_trace
    (py : Runtime) (self : FeatureEdit) (features : dict value)
    (feat : string) (v cur : value) :
  NoDup (keys features) ->
  In (feat, v) features ->
  dict_get (retrieve_feature_dictionary self) feat = Some cur ->
  py_ne cur v = false \/ (type v = t_float /\ near_equal cur v = Ok true) ->
  modify_file py self features = modify_file py self (without feat features)
  /\ (forall st,
        stage_and_validate self features = Ok st ->
        ~ In feat (map fst (validator_calls st))
        /\ dict_get (to_change st) feat = None
        /\ dict_get (report st) feat = None)
  /\ (forall r,
        modify_file py self features = Ok r ->
        dict_get (res_report r) feat = None).
Proof.
  intros Hnd Hin Hcur Hnoop.
  pose proof (stage_and_validate_without self features feat v cur
                Hnd Hin Hcur Hnoop) as Hstage.
  assert (Hst : forall st,
             stage_and_validate self features = Ok st ->
             NoDup (keys (to_change st))
             /\ ~ In feat (map fst (validator_calls st))
             /\ dict_get (to_change st) feat = None
             /\ dict_get (report st) feat = None).
  { intros st E. rewrite Hstage in E.
    destruct (stage_and_validate_spec self _ st E) as (_ & _ & N & _ & F).
    destruct (F feat (not_In_keys_without feat features)) as (T & R & C). auto. }
  split; [unfold modify_file; now rewrite Hstage|].
  split; [intros st E; apply (Hst st E)|].
  intros r. unfold modify_file.
  destruct (stage_and_validate self features) as [st1|] eqn:E1; [|discriminate].
  cbn [bind]. destruct (Hst st1 eq_refl) as (N1 & _ & T1 & R1).
  destruct (apply_edits py self st1) as [st2|] eqn:E2; [|discriminate].
  cbn [bind]. destruct (apply_edits_step py self st1 st2 N1 E2) as (N2 & M2 & _).
  destruct (moved_absent _ _ _ feat M2 T1 R1) as [T2 R2].
  destruct (modify_size st2) as [st3|] eqn:E3; [|discriminate].
  cbn [bind]. destruct (modify_size_step st2 st3 N2 E3) as (N3 & M3 & _).
  destruct (moved_absent _ _ _ feat M3 T2 R2) as [T3 R3].
  unfold finish. destruct (reread self _); [|discriminate]. cbn [bind].
  intros [= <-]. cbn [res_report].
  rewrite final_report_get by exact N3. now rewrite T3, R3.
Qed.

(** C8 on the sample: the current version, and a float within [1e-6] of
    the current value of [pos_box_min]. *)
Lemma noop_request_leaves_no_trace_witness :
  let features := [("pos_box_min", VFloat (-1.0000001)); ("version", VInt 3)] in
  near_equal (VFloat (-1)) (VFloat (-1.0000001)) = Ok true
  /\ modify_file sample_runtime sample features
     = modify_file sample_runtime sample (without "pos_box_min" features)
  /\ modify_file sample_runtime sample features
     = modify_file sample_runtime sample (without "version" features)
  /\ modify_file sample_runtime sample features = Ok (Result sample_pdf [] []).
Proof.
  intros features.
  assert (Hnd : NoDup (keys features)).
  { repeat constructor; cbn; intuition discriminate. }
  assert (Hnear : near_equal (VFloat (-1)) (VFloat (-1.0000001)) = Ok true)
    by (vm_compute; reflexivity).
  split; [exact Hnear|]. split; [|split].
  - apply (noop_request_leaves_no_trace sample_runtime sample features
             "pos_box_min" (VFloat (-1.0000001)) (VFloat (-1)) Hnd).
    + left. reflexivity.
    + vm_compute. reflexivity.
    + right. split; [reflexivity | exact Hnear].
  - apply (noop_request_leaves_no_trace sample_runtime sample features
             "version" (VInt 3) (VInt 3) Hnd).
    + right. left. reflexivity.
    + vm_compute. reflexivity.
    + left. reflexivity.
  - vm_compute. reflexivity.
Defined.

(** ** Incrementable features *)







(** ** Metadata fields *)





(** An accepted change is an integer for an editable feature. *)
Lemma accepted_editable_int (self : FeatureEdit) (k : string) (v : value) :
  accepted self k v ->
  exists d n,
    dict_get _pdfrate_feature_descriptions k = Some d
    /\ desc_edit d = edit_y /\ v = VInt n.
Proof.
  intros (cur & _ & _ & Hchk). unfold check_feature_change_valid, dict_item in Hchk.
  destruct (dict_get _pdfrate_feature_descriptions k) as [d|] eqn:Hd; [|discriminate].
  cbn [bind] in Hchk.
  destruct (pytype_eqb (desc_type d) (type v)) eqn:Ht; [|discriminate].
  destruct (edit_eqb (desc_edit d) edit_y) eqn:He; [|discriminate].
  apply pytype_eqb_eq in Ht. apply edit_eqb_eq in He.
  destruct (editable_desc k d Hd He) as (Hint & _ & _).
  rewrite Hint in Ht. destruct v; try discriminate Ht. eauto.
Qed.


Lemma In_keys_dict_get {V} (d : dict V) (k : string) :
  In k (keys d) -> exists v, dict_get d k = Some v.
Proof.
  intros H. destruct (dict_get d k) as [v|] eqn:E; [eauto|].
  apply dict_get_None_keys in E. contradiction.
Qed.









(** *** Counting the characters *)





Lemma class_table_class_char (sc : string) (ch : ascii) :
  In (sc, ch) class_table -> class_char sc = Some (String ch "").
Proof.
  cbn. intros H.
  repeat (destruct H as [H|H]; [injection H as <- <-; reflexivity|]).
  contradiction.
Qed.










(** ** The version digit, in general *)

Lemma search_version_bound (l : list byte) :
  forall i p, search_version l i = Some p -> i + 7 <= p < i + len l.
Proof.
  induction l as [|b l IH]; intros i p; cbn [search_version]; [discriminate|].
  destruct (version_match_here (b :: l)) eqn:E.
  - intros [= <-]. unfold version_match_here in E.
    apply andb_true_iff in E. destruct E as [_ E].
    destruct (skipn 7 (b :: l)) as [|d rest] eqn:Es; [discriminate|].
    assert (Hlen : (7 < List.length (b :: l))%nat).
    { destruct (Nat.lt_ge_cases 7 (List.length (b :: l))) as [H|H]; [exact H|].
      rewrite skipn_all2 in Es by exact H. discriminate. }
    unfold len. lia.
  - intros H. apply IH in H. unfold len in *. cbn [List.length]. lia.
Qed.

(** When the anchor is found and the pending version is an integer that
    fits a byte, the step replaces the one byte at the anchor by the byte
    whose value is that integer; the length and the cursor are as before,
    and the version moves from the pending changes to the report. *)
Lemma modify_version_overwrites_one_byte
    (st : state) (v start1 : Z) (b : byte) :
  NoDup (keys (to_change st)) ->
  dict_get (to_change st) "version" = Some (VInt v) ->
  _regex_pdf_version_search (p_mm (st_patcher st)) = Some start1 ->
  0 <= v -> Byte.of_N (Z.to_N v) = Some b ->
  exists st',
    modify_version st = Ok st'
    /\ buffer st' = firstn (Z.to_nat start1) (buffer st) ++ b
                    :: skipn (Z.to_nat (start1 + 1)) (buffer st)
    /\ len (buffer st') = len (buffer st)
    /\ cursor st' = cursor st
    /\ Byte.to_N b = Z.to_N v
    /\ dict_get (report st') "version" = Some (VInt v)
    /\ dict_get (to_change st') "version" = None.
Proof.
  intros Hnd Hv Hs Hv0 Hb. unfold modify_version. rewrite Hv, Hs.
  cbn [py_int as_num bind].
  unfold _regex_pdf_version_search in Hs. apply search_version_bound in Hs.
  unfold mm_setitem. fold (buffer st) in *. unfold mm_size. fold (buffer st).
  destruct (start1 <? 0) eqn:E0; [apply Z.ltb_lt in E0; lia|].
  destruct ((start1 <? 0) || (len (buffer st) <=? start1)) eqn:E1.
  { apply orb_true_iff in E1. destruct E1 as [E1|E1];
      [congruence | apply Z.leb_le in E1; lia]. }
  destruct (v <? 0) eqn:E2; [apply Z.ltb_lt in E2; lia|].
  rewrite Hb. cbn [bind mm_buf mm_pos].
  unfold report_and_del, dict_item, set_patcher.
  cbn [st_patcher report to_change validator_calls]. rewrite Hv. cbn [bind].
  eexists. split; [reflexivity|].
  assert (Hbuf : forall mm off r t c,
             buffer (State (Patcher mm off) r t c) = mm_buf mm) by reflexivity.
  rewrite !Hbuf. unfold cursor. cbn [st_patcher p_mm mm_buf insert_offset report to_change].
  split; [reflexivity|]. split.
  - unfold len. rewrite length_app. cbn [List.length].
    rewrite length_firstn, length_skipn. unfold len in Hs. lia.
  - split; [reflexivity|]. split; [now apply Byte.to_of_N|].
    split; [apply dict_get_set_same | now apply dict_get_del_same].
Qed.

(** ** The dates, in general *)

(** The in-place path of a date step never returns: after the seek,
    [mm.write] is handed a [str]. *)
Lemma write_date_in_place_raises
    (st : state) (mod_location : Z) (old_date : list byte)
    (new_date new_field : string) :
  Z.of_nat (String.length new_date) = len old_date ->
  0 <= mod_location <= len (buffer st) ->
  write_date st (Some (mod_location, old_date)) new_date new_field
  = Raise TypeError.
Proof.
  intros Hlen Hloc. unfold write_date. rewrite Hlen, Z.eqb_refl.
  unfold mm_seek, mm_size. fold (buffer st).
  destruct ((mod_location <? 0) || (len (buffer st) <? mod_location)) eqn:E.
  - apply orb_true_iff in E. destruct E as [E|E]; apply Z.ltb_lt in E; lia.
  - reflexivity.
Qed.

(** The creation-date step never consults the creation timestamp of the
    document: two readers that differ only there are not told apart. *)
Lemma modify_createdate_ignores_createdate_ts
    (py : Runtime) (self self' : FeatureEdit) (st : state) :
  (forall k, k <> "createdate_ts" -> get_ self k = get_ self' k) ->
  createdate_anchor self = createdate_anchor self' ->
  modify_createdate py self st = modify_createdate py self' st.
Proof.
  intros Hget Hanchor. unfold modify_createdate.
  rewrite <- (Hget "moddate_ts") by discriminate.
  rewrite <- (Hget "createdate_tz") by discriminate.
  now rewrite Hanchor.
Qed.

(** ** What the returned report says of refused and unapplied changes *)

Lemma keys_insert_sorted {V} (x : string * V) (l : list (string * V)) :
  NoDup (keys (insert_sorted x l)) <-> ~ In (fst x) (keys l) /\ NoDup (keys l).
Proof.
  unfold keys. induction l as [|y l IH]; cbn.
  - split; [intros _; split; [tauto | constructor] | intros _; repeat constructor; tauto].
  - destruct (String.leb (fst x) (fst y)); cbn.
    + split; [intros H; inversion H; subst; auto | intros [H1 H2]; now constructor].
    + rewrite !NoDup_cons_iff, IH.
      assert (Hin : In (fst y) (map fst (insert_sorted x l))
                    <-> fst y = fst x \/ In (fst y) (map fst l)).
      { rewrite !in_map_iff. split.
        - intros (z & Hz & Hin). apply In_insert_sorted in Hin.
          destruct Hin as [->|Hin]; [now left | right; eauto].
        - intros [E|(z & Hz & Hin)].
          + exists x. split; [now symmetry | apply In_insert_sorted; now left].
          + exists z. split; [exact Hz | apply In_insert_sorted; now right]. }
      rewrite Hin. intuition congruence.
Qed.

Lemma NoDup_keys_sorted {V} (l : list (string * V)) :
  NoDup (keys l) -> NoDup (keys (sorted l)).
Proof.
  induction l as [|x l IH]; cbn; [auto|].
  intros H. change (sorted (x :: l)) with (insert_sorted x (sorted l)).
  apply keys_insert_sorted. inversion H as [|? ? Hnotin Hnd]; subst. split.
  - intros Hin. apply Hnotin. now apply In_keys_sorted.
  - now apply IH.
Qed.

Lemma diff_item_rejections (self : FeatureEdit) (st st' : state)
    (item : string * value) :
  dict_get (report st) (fst item) = None ->
  dict_get (to_change st) (fst item) = None ->
  rejections_only st ->
  diff_item self (retrieve_feature_dictionary self) st item = Ok st' ->
  rejections_only st'.
Proof.
  destruct item as [feat feat_val]. cbn [fst]. intros Hr Ht HJ. unfold diff_item.
  destruct (dict_item _ feat) as [cur|]; [|discriminate]. cbn [bind].
  destruct (py_ne cur feat_val && negb (isinstance_Exception feat_val));
    [|intros [= <-]; exact HJ].
  match goal with
  | |- context [bind ?c _] => destruct c as [[|]|]
  end; cbn [bind]; try discriminate; [intros [= <-]; exact HJ|].
  destruct (check_feature_change_valid self feat feat_val) as [valid|] eqn:Echk;
    [|discriminate].
  cbn [bind].
  pose proof (check_feature_change_valid_answer _ _ _ _ Echk) as Hans.
  destruct (py_eq valid (VBool true)) eqn:Eeq; intros [= <-]; intros k e;
    cbn [report to_change].
  - intros Hk. destruct (HJ k e Hk) as [He Hn]. split; [exact He|].
    destruct (String.eqb feat k) eqn:E.
    + apply String.eqb_eq in E. subst k. congruence.
    + apply String.eqb_neq in E. now rewrite dict_get_set_other.
  - destruct (String.eqb feat k) eqn:E.
    + apply String.eqb_eq in E. subst k. rewrite dict_get_set_same.
      intros [= <-]. split; [|exact Ht].
      destruct Hans as [->|H]; [discriminate Eeq | exact H].
    + apply String.eqb_neq in E. rewrite dict_get_set_other by exact E.
      apply HJ.
Qed.

Lemma diff_items_rejections (self : FeatureEdit) (items : list (string * value)) :
  forall st st',
    NoDup (map fst items) ->
    (forall k, In k (map fst items) ->
       dict_get (report st) k = None /\ dict_get (to_change st) k = None) ->
    rejections_only st ->
    diff_items self (retrieve_feature_dictionary self) st items = Ok st' ->
    rejections_only st'.
Proof.
  induction items as [|item items IH]; intros st st' Hnd Hfresh HJ Hrun.
  - injection Hrun as <-. exact HJ.
  - cbn [diff_items] in Hrun.
    destruct (diff_item self _ st item) as [st1|] eqn:E; [|discriminate].
    cbn [bind] in Hrun. cbn [map] in Hnd, Hfresh.
    inversion Hnd as [|? ? Hnotin Hnd']; subst.
    destruct (Hfresh (fst item) (or_introl eq_refl)) as [Hr Ht].
    pose proof (diff_item_rejections self st st1 item Hr Ht HJ E) as HJ1.
    destruct (diff_item_spec self st st1 item E) as (_ & _ & _ & F1 & _).
    apply (IH st1 st' Hnd'); [|exact HJ1 | exact Hrun].
    intros k Hk. assert (Hne : k <> fst item) by (intros ->; contradiction).
    destruct (F1 k Hne) as [T R]. rewrite T, R. apply Hfresh. now right.
Qed.

(** Whenever [modify_file] returns: a change the validator refused is in
    the report with [success = False] and the refusal; an accepted change
    is in the report with its value, successful if a step applied it and
    unsuccessful if it was left pending. *)
Lemma returned_report_marks_failures
    (py : Runtime) (self : FeatureEdit) (features : dict value)
    (st1 : state) (r : result) :
  NoDup (keys features) ->
  stage_and_validate self features = Ok st1 ->
  modify_file py self features = Ok r ->
  (forall k e,
      dict_get (report st1) k = Some e ->
      isinstance_Exception e = true
      /\ dict_get (res_report r) k = Some (Outcome false e))
  /\ (forall k v,
         dict_get (to_change st1) k = Some v ->
         dict_get (res_report r) k = Some (Outcome true v)
         \/ dict_get (res_report r) k = Some (Outcome false v)).
Proof.
  intros Hnd Hstage Hrun.
  destruct (stage_and_validate_spec self features st1 Hstage)
    as (_ & _ & N1 & Hacc & _).
  assert (HJ : rejections_only st1).
  { unfold stage_and_validate in Hstage.
    destruct (len (pdf self) =? 0); [discriminate|]. cbn [bind] in Hstage.
    eapply diff_items_rejections; [| | |exact Hstage].
    - apply (NoDup_keys_sorted features Hnd).
    - intros k _. split; reflexivity.
    - intros k e. discriminate. }
  unfold modify_file in Hrun. rewrite Hstage in Hrun. cbn [bind] in Hrun.
  destruct (apply_edits py self st1) as [st2|] eqn:E2; [|discriminate].
  cbn [bind] in Hrun.
  destruct (apply_edits_step py self st1 st2 N1 E2) as (N2 & M2 & _).
  destruct (modify_size st2) as [st3|] eqn:E3; [|discriminate].
  cbn [bind] in Hrun.
  destruct (modify_size_step st2 st3 N2 E3) as (N3 & M3 & _).
  unfold finish in Hrun. destruct (reread self _); [|discriminate].
  cbn [bind] in Hrun. injection Hrun as <-. cbn [res_report].
  split.
  - intros k e Hk. destruct (HJ k e Hk) as [He Ht]. split; [exact He|].
    rewrite final_report_get by exact N3.
    destruct (M2 k) as [[T2 R2]|(_ & v & Hv & _)]; [|congruence].
    destruct (M3 k) as [[T3 R3]|(_ & v & Hv & _)]; [|congruence].
    rewrite T3, T2, Ht, R3, R2, Hk. cbn. now rewrite He.
  - intros k v Hk.
    destruct (accepted_editable_int self k v (Hacc k v Hk)) as (_ & n & _ & _ & ->).
    rewrite final_report_get by exact N3.
    destruct (M2 k) as [[T2 R2]|(_ & v2 & Hv2 & Hn2 & Hr2)].
    + destruct (M3 k) as [[T3 R3]|(_ & v3 & Hv3 & Hn3 & Hr3)].
      * right. now rewrite T3, T2, Hk.
      * left. assert (v3 = VInt n) by congruence. subst v3.
        now rewrite Hn3, Hr3.
    + destruct (M3 k) as [[T3 R3]|(_ & v3 & Hv3 & _)]; [|congruence].
      left. assert (v2 = VInt n) by congruence. subst v2.
      now rewrite T3, Hn2, R3, Hr2.
Qed.



(** ** More about the byte patcher *)

Lemma encode_app (a b : string) :
  encode (a ++ b) = encode a ++ encode b.
Proof.
  induction a as [|c a IH]; cbn [append encode]; [reflexivity|].
  now rewrite IH, app_assoc.
Qed.

(** After an insertion the file position stands at the cursor. *)
Lemma insert_into_mmap_pos (st st' : patcher) (data : string) :
  _insert_into_mmap st data = Ok st' ->
  mm_pos (p_mm st') = insert_offset st'.
Proof.
  unfold _insert_into_mmap.
  destruct (mm_resize _ _) as [mm1|]; [|discriminate]. cbn [bind].
  destruct (mm_move _ _ _ _) as [mm2|]; [|discriminate]. cbn [bind].
  destruct (mm_seek _ _) as [mm3|] eqn:E3; [|discriminate]. cbn [bind].
  unfold mm_seek in E3.
  destruct (_ || _) in E3; [discriminate|]. injection E3 as <-.
  unfold mm_write. cbn [mm_pos mm_buf].
  destruct (_ <? _); [discriminate|]. cbn [bind].
  intros [= <-]. reflexivity.
Qed.

Lemma insert_into_mmap_exact (st : patcher) (data : string) :
  cursor_ok st ->
  _insert_into_mmap st data =
  Ok (Patcher
        (MMap (firstn (Z.to_nat (insert_offset st)) (mm_buf (p_mm st))
               ++ encode data
               ++ skipn (Z.to_nat (insert_offset st)) (mm_buf (p_mm st)))
              (insert_offset st + len (encode data)))
        (insert_offset st + len (encode data))).
Proof.
  intros Hc. destruct (insert_into_mmap_buf st data Hc) as [pos' E].
  pose proof (insert_into_mmap_pos _ _ _ E) as Hp.
  cbn [p_mm mm_pos insert_offset] in Hp. now rewrite E, Hp.
Qed.

Lemma insert_into_mmap_outside (st : patcher) (data : string) :
  0 < mm_size (p_mm st) ->
  insert_offset st < 0 \/ mm_size (p_mm st) < insert_offset st ->
  _insert_into_mmap st data = Raise ValueError.
Proof.
  intros Hne Hout. destruct st as [[buf pos] off].
  unfold mm_size in *. cbn [p_mm insert_offset mm_buf] in *.
  pose proof (len_nonneg (encode data)) as Hd.
  unfold _insert_into_mmap. cbn [p_mm insert_offset].
  unfold mm_resize, mm_size. cbn [mm_buf mm_pos].
  destruct (len buf + len (encode data) <? 0) eqn:E1;
    [apply Z.ltb_lt in E1; lia|].
  destruct (len buf + len (encode data) =? 0) eqn:E2;
    [apply Z.eqb_eq in E2; lia|].
  cbn [bind]. unfold mm_move, mm_size. cbn [mm_buf].
  destruct Hout as [Hneg|Hbig].
  - replace (off <? 0) with true by (symmetry; apply Z.ltb_lt; lia).
    rewrite orb_true_r. reflexivity.
  - replace (len buf - off <? 0) with true by (symmetry; apply Z.ltb_lt; lia).
    rewrite orb_true_r. reflexivity.
Qed.

(** X1.  On a mapped file, [_insert_into_mmap] returns exactly when the
    cursor lies inside the file, [0 <= insert_offset <= size]; with the
    cursor before the start or behind the end it raises [ValueError],
    whatever the data. *)
Theorem insert_returns_iff_cursor_inside (st : patcher) (data : string) :
  0 < mm_size (p_mm st) ->
  ((exists st', _insert_into_mmap st data = Ok st')
   <-> 0 <= insert_offset st <= mm_size (p_mm st))
  /\ (insert_offset st < 0 \/ mm_size (p_mm st) < insert_offset st ->
      _insert_into_mmap st data = Raise ValueError).
Proof.
  intros Hne. split; [split|].
  - intros [st' Hrun].
    destruct (Z_lt_ge_dec (insert_offset st) 0) as [H0|H0].
    + rewrite (insert_into_mmap_outside st data Hne) in Hrun by now left.
      discriminate.
    + destruct (Z_lt_ge_dec (mm_size (p_mm st)) (insert_offset st)) as [H1|H1].
      * rewrite (insert_into_mmap_outside st data Hne) in Hrun by now right.
        discriminate.
      * lia.
  - intros Hin.
    destruct (insert_into_mmap_buf st data (conj Hne Hin)) as [pos' E]. eauto.
  - exact (insert_into_mmap_outside st data Hne).
Qed.

Lemma insert_returns_iff_cursor_inside_witness :
  ((exists st', _insert_into_mmap (Patcher (MMap sample_pdf 0) 151) "x" = Ok st')
   <-> 0 <= 151 <= mm_size (MMap sample_pdf 0))
  /\ (151 < 0 \/ mm_size (MMap sample_pdf 0) < 151 ->
      _insert_into_mmap (Patcher (MMap sample_pdf 0) 151) "x" = Raise ValueError).
Proof.
  apply (insert_returns_iff_cursor_inside (Patcher (MMap sample_pdf 0) 151) "x").
  vm_compute. reflexivity.
Defined.

(** X2.  Two insertions in a row are one insertion of the concatenated
    text: the same bytes, the same cursor, the same file position. *)
Theorem insert_twice_is_insert_of_concatenation
    (st : patcher) (d1 d2 : string) :
  cursor_ok st ->
  (st1 <- _insert_into_mmap st d1 ;; _insert_into_mmap st1 d2)
  = _insert_into_mmap st (d1 ++ d2).
Proof.
  intros Hc. pose proof Hc as [Hne Hoff].
  rewrite (insert_into_mmap_exact st d1 Hc). cbn [bind].
  assert (Hc1 : cursor_ok
                  (Patcher
                     (MMap (firstn (Z.to_nat (insert_offset st)) (mm_buf (p_mm st))
                            ++ encode d1
                            ++ skipn (Z.to_nat (insert_offset st)) (mm_buf (p_mm st)))
                           (insert_offset st + len (encode d1)))
                     (insert_offset st + len (encode d1)))).
  { eapply insert_into_mmap_cursor_ok; [exact Hc|].
    apply insert_into_mmap_exact. exact Hc. }
  rewrite (insert_into_mmap_exact _ d2 Hc1), (insert_into_mmap_exact st _ Hc).
  cbn [p_mm mm_buf insert_offset]. unfold mm_size in Hoff.
  destruct (split_at (mm_buf (p_mm st)) _ Hoff) as (pre & suf & E & Hl & E1 & E2).
  rewrite E1, E2, encode_app, len_app.
  replace (insert_offset st + len (encode d1)) with (len (pre ++ encode d1))
    by (rewrite len_app; lia).
  replace (pre ++ encode d1 ++ suf) with ((pre ++ encode d1) ++ suf)
    by now rewrite <- app_assoc.
  rewrite firstn_len_app, skipn_len_app, len_app, Hl.
  rewrite <- !app_assoc, Z.add_assoc. reflexivity.
Qed.

Lemma insert_twice_is_insert_of_concatenation_witness :
  (st1 <- _insert_into_mmap (Patcher (MMap sample_pdf 0) 10) "ab" ;;
   _insert_into_mmap st1 "cd")
  = _insert_into_mmap (Patcher (MMap sample_pdf 0) 10) ("ab" ++ "cd").
Proof.
  apply insert_twice_is_insert_of_concatenation.
  unfold cursor_ok. vm_compute. repeat split; discriminate.
Defined.

(** ** [_sanitize_PDF_literal_string] *)

Lemma starts_with_head (a : byte) (old s : list byte) :
  ~ In a s -> starts_with (a :: old) s = false.
Proof.
  destruct s as [|b s]; cbn; [reflexivity|]. intros H.
  destruct (Byte.eqb a b) eqn:E; [|reflexivity].
  apply Byte.byte_dec_bl in E. subst b. tauto.
Qed.

(** A pattern whose first byte does not occur is never found. *)
Lemma bytes_replace_absent (a : byte) (old new s : list byte) :
  ~ In a s -> bytes_replace (a :: old) new s = s.
Proof.
  unfold bytes_replace. induction s as [|b s IH]; intros H; [reflexivity|].
  cbn [replace_from]. rewrite (starts_with_head a old (b :: s) H).
  rewrite IH; [reflexivity|]. intros Hin. apply H. now right.
Qed.

(** A pattern of one byte is replaced byte by byte. *)
Lemma bytes_replace_single (a : byte) (new s : list byte) :
  bytes_replace [a] new s
  = flat_map (fun b => if Byte.eqb a b then new else [b]) s.
Proof.
  unfold bytes_replace. induction s as [|b s IH]; [reflexivity|].
  cbn [replace_from flat_map starts_with List.length pred].
  rewrite IH. destruct (Byte.eqb a b); cbn [andb].
  - now destruct s.
  - reflexivity.
Qed.

Lemma bytes_replace_single_same (a : byte) (s : list byte) :
  bytes_replace [a] [a] s = s.
Proof.
  rewrite bytes_replace_single. induction s as [|b s IH]; [reflexivity|].
  cbn [flat_map]. rewrite IH. destruct (Byte.eqb a b) eqn:E; [|reflexivity].
  apply Byte.byte_dec_bl in E. now subst b.
Qed.

(** What the replacements of the function do together: five of the first
    eight, and the eighth, put back the byte they take out. *)
Lemma sanitize_unfold (s : list byte) :
  _sanitize_PDF_literal_string s
  = bytes_replace [CR] [NL]
      (bytes_replace [CR; NL] [NL]
         (bytes_replace [BS; NL] []
            (bytes_replace [BS; RPAR] [RPAR]
               (bytes_replace [BS; LPAR] [LPAR] s)))).
Proof.
  unfold _sanitize_PDF_literal_string. now rewrite !bytes_replace_single_same.
Qed.

Lemma starts_with_length (old s : list byte) :
  starts_with old s = true -> (List.length old <= List.length s)%nat.
Proof.
  revert s. induction old as [|c old IH]; intros s E; [cbn; lia|].
  destruct s as [|d s]; [discriminate|]. cbn in E.
  apply andb_prop in E. destruct E as [_ E]. specialize (IH s E). cbn. lia.
Qed.

(** The length after a replacement by something that is not longer. *)
Lemma length_replace_from (old new : list byte) :
  old <> [] ->
  (List.length new <= List.length old)%nat ->
  forall (s : list byte) (skip : nat),
    (List.length (replace_from old new skip s) + Nat.min skip (List.length s)
     <= List.length s)%nat.
Proof.
  intros Hold Hn. induction s as [|b s IH]; intros skip; [cbn; lia|].
  cbn [replace_from]. destruct skip as [|k].
  - destruct (starts_with old (b :: s)) eqn:E.
    + apply starts_with_length in E.
      destruct old as [|a old]; [contradiction|].
      specialize (IH (pred (List.length (a :: old)))).
      cbn [List.length pred] in *. rewrite length_app.
      rewrite Nat.min_l in IH by lia. cbn. lia.
    + specialize (IH 0%nat). cbn in *. lia.
  - specialize (IH k). cbn [List.length]. lia.
Qed.

Lemma len_bytes_replace (old new s : list byte) :
  old <> [] -> (List.length new <= List.length old)%nat ->
  len (bytes_replace old new s) <= len s.
Proof.
  intros Hold Hn.
  pose proof (length_replace_from old new Hold Hn s 0) as H.
  destruct old as [|a old]; [contradiction|].
  unfold bytes_replace, len. cbn in H. lia.
Qed.

(** The last two replacements together: pairs first, then what is left
    of the carriage returns. *)
Lemma line_endings_replaced (s : list byte) :
  bytes_replace [CR] [NL] (bytes_replace [CR; NL] [NL] s) = line_feeds s.
Proof.
  rewrite bytes_replace_single. unfold bytes_replace.
  assert (H : forall (n : nat) (t : list byte),
             (List.length t <= n)%nat ->
             flat_map (fun b => if Byte.eqb CR b then [NL] else [b])
                      (replace_from [CR; NL] [NL] 0 t)
             = line_feeds t).
  { induction n as [|n IH]; intros t Hn.
    - destruct t; [reflexivity | cbn in Hn; lia].
    - destruct t as [|b t]; [reflexivity|].
      cbn [replace_from starts_with line_feeds List.length pred app].
      cbn [List.length] in Hn.
      destruct (Byte.eqb CR b) eqn:Eb; cbn [andb].
      + destruct t as [|c t].
        * cbn [replace_from flat_map app]. now rewrite Eb.
        * destruct (Byte.eqb NL c) eqn:Ec; cbn [andb].
          -- cbn [replace_from flat_map app].
             change (Byte.eqb CR NL) with false. cbn iota.
             cbn [app]. f_equal. apply IH. cbn [List.length] in Hn. lia.
          -- cbn [flat_map]. rewrite Eb. cbn [app]. f_equal. apply IH. lia.
      + cbn [flat_map]. rewrite Eb. cbn [app]. f_equal. apply IH. lia. }
  exact (H (List.length s) s (Nat.le_refl _)).
Qed.

Lemma line_feeds_no_carriage_return (s : list byte) : ~ In CR (line_feeds s).
Proof.
  rewrite <- line_endings_replaced, bytes_replace_single.
  generalize (bytes_replace [CR; NL] [NL] s).
  intros l Hin. apply in_flat_map in Hin. destruct Hin as (b & _ & Hb).
  destruct (Byte.eqb CR b) eqn:E.
  - destruct Hb as [Hb|[]]. discriminate.
  - destruct Hb as [Hb|[]]. subst b. vm_compute in E. discriminate.
Qed.

(** X3.  Every line ending comes out as a line feed.  What the function
    returns is the string the three backslash replacements leave, with
    each carriage return, together with the line feed that follows it if
    there is one, made one line feed, and every other byte kept; for a
    string without a backslash it is the string itself with its line
    endings so replaced.  The result therefore holds no carriage return. *)
Theorem sanitized_has_no_carriage_return (pdfstr : list byte) :
  _sanitize_PDF_literal_string pdfstr
  = line_feeds (bytes_replace [BS; NL] []
                  (bytes_replace [BS; RPAR] [RPAR]
                     (bytes_replace [BS; LPAR] [LPAR] pdfstr)))
  /\ (~ In BS pdfstr ->
      _sanitize_PDF_literal_string pdfstr = line_feeds pdfstr)
  /\ ~ In CR (_sanitize_PDF_literal_string pdfstr).
Proof.
  assert (H : _sanitize_PDF_literal_string pdfstr
              = line_feeds (bytes_replace [BS; NL] []
                              (bytes_replace [BS; RPAR] [RPAR]
                                 (bytes_replace [BS; LPAR] [LPAR] pdfstr))))
    by (rewrite sanitize_unfold; apply line_endings_replaced).
  split; [exact H|]. split.
  - intros Hbs. rewrite H.
    rewrite (bytes_replace_absent BS [LPAR] [LPAR] pdfstr Hbs).
    rewrite (bytes_replace_absent BS [RPAR] [RPAR] pdfstr Hbs).
    now rewrite (bytes_replace_absent BS [NL] [] pdfstr Hbs).
  - rewrite H. apply line_feeds_no_carriage_return.
Qed.

(** X3 on a string with both kinds of line ending, ["a\r\nb\rc"]. *)
Lemma sanitized_has_no_carriage_return_witness :
  _sanitize_PDF_literal_string [x61; CR; NL; x62; CR; x63]
  = [x61; NL; x62; NL; x63].
Proof.
  rewrite (proj1 (proj2 (sanitized_has_no_carriage_return
                           [x61; CR; NL; x62; CR; x63]))).
  - reflexivity.
  - vm_compute. intuition discriminate.
Defined.

(** X4.  A string with no backslash and no carriage return comes back as
    it is. *)
Theorem sanitize_keeps_plain_strings (pdfstr : list byte) :
  ~ In BS pdfstr -> ~ In CR pdfstr ->
  _sanitize_PDF_literal_string pdfstr = pdfstr.
Proof.
  intros Hbs Hcr. rewrite sanitize_unfold.
  rewrite (bytes_replace_absent BS [LPAR] [LPAR] pdfstr Hbs).
  rewrite (bytes_replace_absent BS [RPAR] [RPAR] pdfstr Hbs).
  rewrite (bytes_replace_absent BS [NL] [] pdfstr Hbs).
  rewrite (bytes_replace_absent CR [NL] [NL] pdfstr Hcr).
  exact (bytes_replace_absent CR [] [NL] pdfstr Hcr).
Qed.

Lemma sanitize_keeps_plain_strings_witness :
  _sanitize_PDF_literal_string (encode "A (plain) title")
  = encode "A (plain) title".
Proof.
  apply sanitize_keeps_plain_strings; vm_compute; intuition discriminate.
Defined.

(** X5.  The result is never longer than the argument. *)
Theorem sanitize_never_longer (pdfstr : list byte) :
  len (_sanitize_PDF_literal_string pdfstr) <= len pdfstr.
Proof.
  rewrite sanitize_unfold.
  eapply Z.le_trans; [apply len_bytes_replace; [discriminate | cbn; lia]|].
  eapply Z.le_trans; [apply len_bytes_replace; [discriminate | cbn; lia]|].
  eapply Z.le_trans; [apply len_bytes_replace; [discriminate | cbn; lia]|].
  eapply Z.le_trans; [apply len_bytes_replace; [discriminate | cbn; lia]|].
  apply len_bytes_replace; [discriminate | cbn; lia].
Qed.

(** ** [CachedMethod] *)

(** X6.  However often a decorated method is called, its function runs
    once: every call returns the value of the first one, and the object is
    left as the first call left it. *)
Theorem cached_method_runs_once
    (name : string) (_calculate : dict value -> res (value * dict value))
    (obj : object) (v : value) (attrs' : dict value) (n : nat) :
  dict_get (attrs obj) (attr_name name) = None ->
  _calculate (attrs obj) = Ok (v, attrs') ->
  call_times (S n) name _calculate obj
  = Ok (repeat v (S n),
        Obj (dict_set attrs' (attr_name name) v) (computed obj ++ [name])).
Proof.
  intros Hnew Hcalc. cbn [call_times]. unfold CachedMethod_get at 1.
  rewrite Hnew, Hcalc. cbn [bind].
  set (obj1 := Obj _ _).
  assert (Hhit : forall m, call_times m name _calculate obj1
                           = Ok (repeat v m, obj1)).
  { induction m as [|m IH]; [reflexivity|].
    cbn [call_times]. unfold CachedMethod_get at 1. unfold obj1 at 1.
    cbn [attrs]. rewrite dict_get_set_same. cbn [bind]. rewrite IH.
    reflexivity. }
  rewrite Hhit. reflexivity.
Qed.

Lemma cached_method_runs_once_witness :
  call_times 3 "get_size" (fun a => Ok (VInt 150, a)) (Obj [] [])
  = Ok ([VInt 150; VInt 150; VInt 150],
        Obj [("_get_size_attr", VInt 150)] ["get_size"]).
Proof.
  exact (cached_method_runs_once "get_size" (fun a => Ok (VInt 150, a))
           (Obj [] []) (VInt 150) [] 2 eq_refl eq_refl).
Defined.

(** ** The counts of images *)

(** X7.  The five size classes divide the images: their counts add up to
    [count_image_total]. *)
Theorem image_size_classes_partition (images_raw : list Z) :
  get_count_image_xsmall images_raw + get_count_image_small images_raw
  + get_count_image_med images_raw + get_count_image_large images_raw
  + get_count_image_xlarge images_raw
  = get_count_image_total images_raw.
Proof.
  unfold get_count_image_xsmall, get_count_image_small, get_count_image_med,
    get_count_image_large, get_count_image_xlarge, get_count_image_total, len.
  induction images_raw as [|x l IH]; [reflexivity|].
  cbn [filter List.length].
  destruct (x <=? 4096) eqn:E1; destruct (4096 <? x) eqn:E2;
    destruct (x <=? 64000) eqn:E3; destruct (64000 <? x) eqn:E4;
    destruct (x <=? 786432) eqn:E5; destruct (786432 <? x) eqn:E6;
    destruct (x <=? 12582912) eqn:E7; destruct (12582912 <? x) eqn:E8;
    cbn [andb List.length]; lia.
Qed.

(** ** [FeatureDescriptor] *)

Lemma names_length : len _pdfrate_feature_names = get_feature_count.
Proof. vm_compute. reflexivity. Qed.

Lemma list_getitem_Ok {A} (l : list A) (i : Z) (a : A) :
  list_getitem l i = Ok a <->
  - len l <= i < len l
  /\ nth_error l (Z.to_nat (if i <? 0 then i + len l else i)) = Some a.
Proof.
  unfold list_getitem. pose proof (len_nonneg l) as Hl.
  set (i' := if i <? 0 then i + len l else i).
  assert (Hi' : i' = if i <? 0 then i + len l else i) by reflexivity.
  destruct (i' <? 0) eqn:E.
  - apply Z.ltb_lt in E. split; [discriminate|]. intros [Hr _].
    destruct (i <? 0) eqn:E0; [apply Z.ltb_lt in E0|apply Z.ltb_ge in E0]; lia.
  - apply Z.ltb_ge in E. destruct (nth_error l (Z.to_nat i')) as [b|] eqn:En.
    + split.
      * intros [= ->]. split; [|reflexivity].
        assert (Hlt : (Z.to_nat i' < List.length l)%nat)
          by (apply nth_error_Some; congruence).
        unfold len.
        destruct (i <? 0) eqn:E0; [apply Z.ltb_lt in E0|apply Z.ltb_ge in E0];
          unfold len in *; lia.
      * intros [_ [= ->]]. reflexivity.
    + split; [discriminate|]. intros [_ H]. discriminate.
Qed.

Lemma list_getitem_nth {A} (l : list A) (i : Z) (a : A) :
  0 <= i ->
  (list_getitem l i = Ok a <-> nth_error l (Z.to_nat i) = Some a).
Proof.
  intros Hi. rewrite list_getitem_Ok.
  replace (i <? 0) with false by (symmetry; apply Z.ltb_ge; lia).
  split; [tauto|]. intros H. split; [|exact H].
  assert (Hlt : (Z.to_nat i < List.length l)%nat)
    by (apply nth_error_Some; congruence).
  unfold len. lia.
Qed.

Lemma list_getitem_outside {A} (l : list A) (i : Z) :
  i < - len l \/ len l <= i -> list_getitem l i = Raise IndexError.
Proof.
  intros H. destruct (list_getitem l i) as [a|e] eqn:E.
  - apply list_getitem_Ok in E. lia.
  - unfold list_getitem in E. destruct (_ <? 0) in E; [congruence|].
    destruct (nth_error _ _) in E; congruence.
Qed.

Lemma list_getitem_inside {A} (l : list A) (i : Z) :
  - len l <= i < len l -> exists a, list_getitem l i = Ok a.
Proof.
  intros Hi. set (i' := if i <? 0 then i + len l else i).
  assert (Hlt : (Z.to_nat i' < List.length l)%nat).
  { unfold i', len in *.
    destruct (i <? 0) eqn:E0; [apply Z.ltb_lt in E0|apply Z.ltb_ge in E0]; lia. }
  apply nth_error_Some in Hlt.
  destruct (nth_error l (Z.to_nat i')) as [a|] eqn:E; [|congruence].
  exists a. apply list_getitem_Ok. split; [exact Hi | exact E].
Qed.

Lemma list_getitem_In {A} (l : list A) (i : Z) (a : A) :
  list_getitem l i = Ok a -> In a l.
Proof.
  intros H. apply list_getitem_Ok in H. destruct H as [_ H].
  eapply nth_error_In. exact H.
Qed.

(** Every name of the sorted list has a description. *)
Lemma name_described (name : string) :
  In name _pdfrate_feature_names ->
  exists d, dict_get _pdfrate_feature_descriptions name = Some d.
Proof.
  intros H. apply In_keys_dict_get. apply In_keys_sorted. exact H.
Qed.

Lemma ltb_trans (a b c : string) :
  String.ltb a b = true -> String.ltb b c = true -> String.ltb a c = true.
Proof.
  unfold String.ltb.
  destruct (String.compare a b) eqn:Eab; try discriminate; intros _.
  destruct (String.compare b c) eqn:Ebc; try discriminate; intros _.
  apply String_as_OT.cmp_lt in Eab. apply String_as_OT.cmp_lt in Ebc.
  pose proof (String_as_OT.lt_trans _ _ _ Eab Ebc) as H.
  apply String_as_OT.cmp_lt in H. unfold String_as_OT.cmp in H. now rewrite H.
Qed.

Lemma strictly_increasing_head (l : list string) :
  forall a b, strictly_increasing (a :: l) = true -> In b l ->
              String.ltb a b = true.
Proof.
  induction l as [|c l IH]; intros a b Hs Hin; [destruct Hin|].
  cbn [strictly_increasing] in Hs. apply andb_prop in Hs.
  destruct Hs as [Hac Hs]. destruct Hin as [->|Hin]; [exact Hac|].
  eapply ltb_trans; [exact Hac|]. apply IH; assumption.
Qed.

Lemma strictly_increasing_tail (a : string) (l : list string) :
  strictly_increasing (a :: l) = true -> strictly_increasing l = true.
Proof.
  destruct l as [|b l]; [reflexivity|]. cbn [strictly_increasing].
  intros H. apply andb_prop in H. apply H.
Qed.

Lemma strictly_increasing_nth (l : list string) :
  strictly_increasing l = true ->
  forall (i j : nat) (a b : string),
    (i < j)%nat -> nth_error l i = Some a -> nth_error l j = Some b ->
    String.ltb a b = true.
Proof.
  induction l as [|c l IH]; intros Hs i j a b Hij Ha Hb.
  - destruct i; discriminate.
  - destruct j as [|j]; [lia|]. cbn [nth_error] in Hb. destruct i as [|i].
    + cbn in Ha. injection Ha as ->.
      eapply strictly_increasing_head; [exact Hs|].
      eapply nth_error_In. exact Hb.
    + cbn [nth_error] in Ha.
      apply (IH (strictly_increasing_tail _ _ Hs) i j); [lia | assumption..].
Qed.

Lemma names_strictly_increasing :
  strictly_increasing _pdfrate_feature_names = true.
Proof. vm_compute. reflexivity. Qed.

(** X8.  A feature can be given by its index or by its name, with the same
    description either way: the indices from [-135] to [134] name the
    features in alphabetical order (a negative one counts from the end),
    a name of the list always has a description, and any other index
    raises [IndexError]. *)
Theorem feature_index_and_name_agree (i : Z) :
  (- get_feature_count <= i < get_feature_count ->
     exists name d,
       get_feature_name i = Ok name
       /\ get_feature_description (ByIndex i) = Ok d
       /\ get_feature_description (ByName name) = Ok d
       /\ (i < 0 -> get_feature_name (i + get_feature_count) = Ok name))
  /\ (i < - get_feature_count \/ get_feature_count <= i ->
        get_feature_name i = Raise IndexError
        /\ get_feature_description (ByIndex i) = Raise IndexError)
  /\ (forall j a b,
        0 <= i < j ->
        get_feature_name i = Ok a -> get_feature_name j = Ok b ->
        String.ltb a b = true).
Proof.
  split; [|split].
  - intros Hi. unfold get_feature_name, get_feature_description, get_feature_names.
    destruct (list_getitem_inside _pdfrate_feature_names i) as [name E];
      [rewrite names_length; exact Hi|].
    destruct (name_described name (list_getitem_In _ _ _ E)) as [d Hd].
    exists name, d. rewrite E. cbn [bind]. unfold dict_item. rewrite Hd.
    repeat split. intros Hneg. apply list_getitem_Ok in E.
    destruct E as [_ E]. rewrite names_length in E.
    replace (i <? 0) with true in E by (symmetry; apply Z.ltb_lt; lia).
    apply list_getitem_nth; [lia | exact E].
  - intros Hout. unfold get_feature_name, get_feature_description, get_feature_names.
    rewrite list_getitem_outside by (rewrite names_length; exact Hout).
    split; reflexivity.
  - intros j a b Hij Ha Hb. unfold get_feature_name in *.
    apply list_getitem_nth in Ha; [|lia]. apply list_getitem_nth in Hb; [|lia].
    apply (strictly_increasing_nth _ names_strictly_increasing
             (Z.to_nat i) (Z.to_nat j)); [lia | assumption..].
Qed.

(** A feature that is not editable is refused whatever the file and the
    value. *)
Lemma check_feature_change_valid_not_editable
    (self : FeatureEdit) (feat : string) (d : feat_desc) (v : value) :
  dict_get _pdfrate_feature_descriptions feat = Some d ->
  desc_edit d <> edit_y ->
  check_feature_change_valid self feat v
  = Ok (if pytype_eqb (desc_type d) (type v)
        then VReadOnlyFeatureError feat
        else VTypeError (type v) (desc_type d)).
Proof.
  intros Hd Hedit. unfold check_feature_change_valid, dict_item.
  rewrite Hd. cbn [bind].
  destruct (pytype_eqb (desc_type d) (type v)); cbn [negb]; [|reflexivity].
  destruct (edit_eqb (desc_edit d) edit_y) eqn:E; [|reflexivity].
  apply edit_eqb_eq in E. contradiction.
Qed.

Lemma feature_mask_spec (names : list string) :
  (forall name, In name names ->
     exists d, dict_get _pdfrate_feature_descriptions name = Some d) ->
  exists mask,
    feature_mask names = Ok mask
    /\ List.length mask = List.length names
    /\ forall (i : nat) (name : string),
         nth_error names i = Some name ->
         exists d, dict_get _pdfrate_feature_descriptions name = Some d
                   /\ nth_error mask i
                      = Some (if edit_eqb (desc_edit d) edit_y then 1 else 0).
Proof.
  induction names as [|name names IH]; intros Hall.
  - exists []. repeat split. intros [|i] n H; discriminate.
  - destruct (Hall name (or_introl eq_refl)) as [d Hd].
    destruct IH as (mask & Hm & Hl & Hn); [intros n Hin; apply Hall; now right|].
    exists ((if edit_eqb (desc_edit d) edit_y then 1 else 0) :: mask).
    cbn [feature_mask]. unfold dict_item. rewrite Hd. cbn [bind].
    rewrite Hm. cbn [bind]. split; [reflexivity|].
    split; [cbn; now rewrite Hl|].
    intros [|i] n Hi; cbn [nth_error] in *.
    + injection Hi as <-. exists d. split; [exact Hd | reflexivity].
    + apply Hn. exact Hi.
Qed.

(** X9.  The mask of [get_feature_mask_numpy] has one entry for each
    feature, in the order of the names.  A feature with entry [0] is one
    the validator never accepts, whatever the file and the requested value;
    a feature with entry [1] is declared editable, and is an integer. *)
Theorem mask_marks_what_the_validator_can_accept :
  exists mask,
    get_feature_mask_numpy = Ok mask
    /\ len mask = get_feature_count
    /\ forall i name,
         0 <= i -> get_feature_name i = Ok name ->
         (list_getitem mask i = Ok 0
          /\ forall self v,
               check_feature_change_valid self name v <> Ok (VBool true))
         \/ (list_getitem mask i = Ok 1
             /\ exists d,
                  dict_get _pdfrate_feature_descriptions name = Some d
                  /\ desc_edit d = edit_y /\ desc_type d = t_int).
Proof.
  destruct (feature_mask_spec _pdfrate_feature_names name_described)
    as (mask & Hm & Hl & Hn).
  exists mask. split; [exact Hm|]. split.
  - unfold len. rewrite Hl. exact names_length.
  - intros i name Hi Hname. unfold get_feature_name in Hname.
    apply list_getitem_nth in Hname; [|exact Hi].
    destruct (Hn _ _ Hname) as (d & Hd & Hmask).
    destruct (edit_eqb (desc_edit d) edit_y) eqn:E.
    + right. split; [now apply list_getitem_nth|]. exists d.
      apply edit_eqb_eq in E. split; [exact Hd|]. split; [exact E|].
      now destruct (editable_desc name d Hd E).
    + left. split; [now apply list_getitem_nth|]. intros self v.
      rewrite (check_feature_change_valid_not_editable self name d v Hd).
      * destruct (pytype_eqb _ _); discriminate.
      * intros Hy. apply edit_eqb_eq in Hy. congruence.
Qed.

(** ** [retrieve_feature_bounds] *)

Lemma nth_error_snoc {A} (l : list A) (a : A) (l' : list A) (i : nat) :
  nth_error ((l ++ [a]) ++ l') i = nth_error (l ++ a :: l') i.
Proof. now rewrite <- app_assoc. Qed.

Lemma feature_bounds_loop_spec (self : FeatureEdit) (names : list string) :
  forall lb ub lb' ub',
    feature_bounds_loop self names lb ub = Ok (lb', ub') ->
    exists l u,
      lb' = lb ++ l /\ ub' = ub ++ u
      /\ List.length l = List.length names
      /\ List.length u = List.length names
      /\ forall (i : nat) (name : string),
           nth_error names i = Some name ->
           exists d lo hi,
             dict_get _pdfrate_feature_descriptions name = Some d
             /\ check_current_value self name (fst (desc_range d)) = Ok lo
             /\ check_current_value self name (snd (desc_range d)) = Ok hi
             /\ nth_error l i = Some lo /\ nth_error u i = Some hi.
Proof.
  induction names as [|key names IH]; intros lb ub lb' ub' Hrun.
  - injection Hrun as <- <-. exists [], []. rewrite !app_nil_r.
    repeat split. intros [|i] n H; discriminate.
  - cbn [feature_bounds_loop] in Hrun. unfold get_feature_descriptions in Hrun.
    unfold dict_item in Hrun.
    destruct (dict_get _pdfrate_feature_descriptions key) as [d|] eqn:Hd;
      [|discriminate].
    cbn [bind] in Hrun.
    destruct (check_current_value self key (fst (desc_range d))) as [lo|] eqn:Hlo;
      [|discriminate].
    cbn [bind] in Hrun.
    destruct (check_current_value self key (snd (desc_range d))) as [hi|] eqn:Hhi;
      [|discriminate].
    cbn [bind] in Hrun.
    destruct (IH _ _ _ _ Hrun) as (l & u & -> & -> & Hl & Hu & Hn).
    exists (lo :: l), (hi :: u). rewrite <- !app_assoc. cbn [app].
    split; [reflexivity|]. split; [reflexivity|].
    split; [cbn; now rewrite Hl|]. split; [cbn; now rewrite Hu|].
    intros [|i] n Hi; cbn [nth_error] in *.
    + injection Hi as <-. exists d, lo, hi. repeat split; assumption.
    + apply Hn. exact Hi.
Qed.

Lemma check_current_value_effective
    (self : FeatureEdit) (name : string) (b : bound) (current : value) :
  get_ self name = Ok current ->
  check_current_value self name b = Ok (effective_bound b current).
Proof. intros H. destruct b; cbn; [exact H | reflexivity]. Qed.

(** X10.  The bounds that [retrieve_feature_bounds] lists are the ones
    the validator enforces: for an editable feature with an integer
    value, a requested integer is accepted exactly when it lies between
    the entries of the two lists at the index of the feature. *)
Theorem feature_bounds_are_the_validator_bounds
    (self : FeatureEdit) (lb ub : list value) (i : Z) (name : string)
    (d : feat_desc) (current requested : Z) :
  feature_bounds self = Ok (lb, ub) ->
  0 <= i -> get_feature_name i = Ok name ->
  dict_get _pdfrate_feature_descriptions name = Some d ->
  desc_edit d = edit_y ->
  get_ self name = Ok (VInt current) ->
  exists lo hi,
    list_getitem lb i = Ok (VInt lo)
    /\ list_getitem ub i = Ok (VInt hi)
    /\ (check_feature_change_valid self name (VInt requested) = Ok (VBool true)
        <-> lo <= requested <= hi).
Proof.
  intros Hrun Hi Hname Hd Hedit Hcur. unfold feature_bounds in Hrun.
  destruct (feature_bounds_loop_spec self _ _ _ _ _ Hrun)
    as (l & u & -> & -> & _ & _ & Hn).
  cbn [app]. unfold get_feature_name in Hname.
  apply list_getitem_nth in Hname; [|exact Hi].
  destruct (Hn _ _ Hname) as (d' & lo & hi & Hd' & Hlo & Hhi & Hl & Hu).
  assert (d' = d) by congruence. subst d'.
  rewrite (check_current_value_effective self name _ _ Hcur) in Hlo.
  rewrite (check_current_value_effective self name _ _ Hcur) in Hhi.
  destruct (editable_desc name d Hd Hedit) as (_ & Hb1 & Hb2).
  destruct (int_bound_effective _ current Hb1) as (zlo & Elo & _).
  destruct (int_bound_effective _ current Hb2) as (zhi & Ehi & _).
  exists zlo, zhi. split; [apply list_getitem_nth; [exact Hi | congruence]|].
  split; [apply list_getitem_nth; [exact Hi | congruence]|].
  rewrite (check_feature_change_valid_int self name d current requested zlo zhi
             Hd Hedit Hcur Elo Ehi).
  destruct (requested <? zlo) eqn:E1; [apply Z.ltb_lt in E1|apply Z.ltb_ge in E1].
  - split; [discriminate | lia].
  - destruct (zhi <? requested) eqn:E2;
      [apply Z.ltb_lt in E2|apply Z.ltb_ge in E2].
    + split; [discriminate | lia].
    + split; [lia | reflexivity].
Qed.

Lemma feature_bounds_are_the_validator_bounds_witness :
  exists lb ub lo hi,
    feature_bounds sample = Ok (lb, ub)
    /\ list_getitem lb 134 = Ok (VInt lo)
    /\ list_getitem ub 134 = Ok (VInt hi)
    /\ (check_feature_change_valid sample "version" (VInt 5) = Ok (VBool true)
        <-> lo <= 5 <= hi).
Proof.
  destruct (feature_bounds sample) as [[lb ub]|] eqn:E;
    [|vm_compute in E; discriminate].
  destruct (feature_bounds_are_the_validator_bounds sample lb ub 134 "version"
              (Desc t_int (Lit (VInt 1), Lit (VInt 8)) edit_y) 3 5 E)
    as (lo & hi & H); try (vm_compute; reflexivity); [discriminate|].
  exists lb, ub, lo, hi. split; [reflexivity | exact H].
Defined.

(** ** Runs of [modify_file] *)

(** A run that returns went through every step. *)
Lemma modify_file_run (py : Runtime) (self : FeatureEdit)
    (features : dict value) (r : result) :
  modify_file py self features = Ok r ->
  exists st1 st2 st3 st4 st5 st6 st7,
    stage_and_validate self features = Ok st1
    /\ modify_version st1 = Ok st2
    /\ modify_incrementable (retrieve_feature_dictionary self) st2
                            _incrementable_feats = Ok st3
    /\ modify_metadata st3 _metadata_feats = Ok st4
    /\ modify_moddate py self st4 = Ok st5
    /\ modify_createdate py self st5 = Ok st6
    /\ modify_size st6 = Ok st7
    /\ reread self (buffer st7) = Ok (feats r)
    /\ path_content r = buffer st7
    /\ res_report r = final_report (report st7) (to_change st7).
Proof.
  unfold modify_file, apply_edits. intros Hrun.
  destruct (stage_and_validate self features) as [st1|] eqn:E1; [|discriminate].
  cbn [bind] in Hrun.
  destruct (modify_version st1) as [st2|] eqn:E2; [|discriminate].
  cbn [bind] in Hrun.
  destruct (modify_incrementable _ st2 _) as [st3|] eqn:E3; [|discriminate].
  cbn [bind] in Hrun.
  destruct (modify_metadata st3 _) as [st4|] eqn:E4; [|discriminate].
  cbn [bind] in Hrun.
  destruct (modify_moddate py self st4) as [st5|] eqn:E5; [|discriminate].
  cbn [bind] in Hrun.
  destruct (modify_createdate py self st5) as [st6|] eqn:E6; [|discriminate].
  cbn [bind] in Hrun.
  destruct (modify_size st6) as [st7|] eqn:E7; [|discriminate].
  cbn [bind] in Hrun.
  unfold finish in Hrun. fold (buffer st7) in Hrun.
  destruct (reread self (buffer st7)) as [fs|] eqn:E8; [|discriminate].
  cbn [bind] in Hrun. injection Hrun as <-.
  exists st1, st2, st3, st4, st5, st6, st7. repeat split; assumption.
Qed.

(** The steps 2 to 6 together. *)
Lemma modify_file_advanced (py : Runtime) (self : FeatureEdit)
    (features : dict value) (r : result) :
  modify_file py self features = Ok r ->
  exists st1 st7,
    stage_and_validate self features = Ok st1
    /\ advanced handled st1 st7
    /\ path_content r = buffer st7
    /\ res_report r = final_report (report st7) (to_change st7).
Proof.
  intros Hrun. unfold modify_file in Hrun.
  destruct (stage_and_validate self features) as [st1|] eqn:E1; [|discriminate].
  cbn [bind] in Hrun.
  destruct (stage_and_validate_spec self features st1 E1) as (_ & _ & N1 & _).
  destruct (apply_edits py self st1) as [st2|] eqn:E2; [|discriminate].
  cbn [bind] in Hrun.
  pose proof (apply_edits_step py self st1 st2 N1 E2) as A2.
  destruct (modify_size st2) as [st3|] eqn:E3; [|discriminate].
  cbn [bind] in Hrun.
  pose proof (modify_size_step st2 st3 (advanced_wf _ _ _ A2) E3) as A3.
  unfold finish in Hrun. destruct (reread self _); [|discriminate].
  cbn [bind] in Hrun. injection Hrun as <-.
  exists st1, st3. split; [reflexivity|]. split; [|split; reflexivity].
  eapply advanced_trans.
  - eapply advanced_weaken; [|exact A2]. intros k Hk. unfold handled.
    now rewrite Hk.
  - eapply advanced_weaken; [|exact A3]. intros k Hk. unfold handled.
    rewrite Hk. apply orb_true_r.
Qed.

(** What step 1 left of a request is what the validator answered. *)
Lemma stage_rejections_only (self : FeatureEdit) (features : dict value)
    (st1 : state) :
  NoDup (keys features) ->
  stage_and_validate self features = Ok st1 -> rejections_only st1.
Proof.
  intros Hnd Hstage. unfold stage_and_validate in Hstage.
  destruct (len (pdf self) =? 0); [discriminate|]. cbn [bind] in Hstage.
  eapply diff_items_rejections; [| | |exact Hstage].
  - apply (NoDup_keys_sorted features Hnd).
  - intros k _. split; reflexivity.
  - intros k e. discriminate.
Qed.

Lemma diff_items_app (self : FeatureEdit) (fc : dict value)
    (l1 l2 : list (string * value)) (st : state) :
  diff_items self fc st (l1 ++ l2)
  = (st' <- diff_items self fc st l1 ;; diff_items self fc st' l2).
Proof.
  revert st. induction l1 as [|x l1 IH]; intros st; [reflexivity|].
  cbn [app diff_items]. destruct (diff_item self fc st x); [|reflexivity].
  cbn [bind]. apply IH.
Qed.

(** The change of one item that is asked for and differs from the current
    value. *)
Lemma diff_item_answer (self : FeatureEdit) (st st' : state)
    (feat : string) (v cur answer : value) :
  dict_get (retrieve_feature_dictionary self) feat = Some cur ->
  py_ne cur v = true -> isinstance_Exception v = false ->
  (type v = t_float -> near_equal cur v <> Ok true) ->
  check_feature_change_valid self feat v = Ok answer ->
  diff_item self (retrieve_feature_dictionary self) st (feat, v) = Ok st' ->
  if py_eq answer (VBool true)
  then to_change st' = dict_set (to_change st) feat v /\ report st' = report st
  else report st' = dict_set (report st) feat answer
       /\ to_change st' = to_change st.
Proof.
  intros Hcur Hne Hexc Hnear Hans Hrun. unfold diff_item, dict_item in Hrun.
  rewrite Hcur in Hrun. cbn [bind] in Hrun. rewrite Hne, Hexc in Hrun.
  cbn [negb andb] in Hrun.
  assert (Hn : (if pytype_eqb (type v) t_float then near_equal cur v
                else Ok false) = Ok false
               \/ exists e, (if pytype_eqb (type v) t_float
                             then near_equal cur v else Ok false) = Raise e).
  { destruct (pytype_eqb (type v) t_float) eqn:Et; [|now left].
    apply pytype_eqb_eq in Et. specialize (Hnear Et).
    destruct (near_equal cur v) as [[|]|e]; [contradiction | now left | eauto]. }
  destruct Hn as [Hn|[e Hn]]; rewrite Hn in Hrun; [|discriminate].
  cbn [bind] in Hrun. rewrite Hans in Hrun. cbn [bind] in Hrun.
  destruct (py_eq answer (VBool true)); injection Hrun as <-;
    cbn [to_change report]; split; reflexivity.
Qed.

Lemma sorted_split {V} (features : dict V) (feat : string) (v : V) :
  NoDup (keys features) -> In (feat, v) features ->
  exists l1 l2,
    sorted features = l1 ++ (feat, v) :: l2
    /\ ~ In feat (map fst l1) /\ ~ In feat (map fst l2).
Proof.
  intros Hnd Hin. apply (proj2 (In_sorted _ _)) in Hin.
  apply in_split in Hin. destruct Hin as (l1 & l2 & E).
  exists l1, l2. split; [exact E|].
  pose proof (NoDup_keys_sorted features Hnd) as Hs. unfold keys in Hs.
  rewrite E, map_app in Hs. cbn [map fst] in Hs.
  apply NoDup_remove_2 in Hs. split; intros H; apply Hs; apply in_or_app; auto.
Qed.

(** After step 1, the entry of a request that differs from the current
    value holds what the validator answered. *)
Lemma stage_answer (self : FeatureEdit) (features : dict value)
    (feat : string) (v cur answer : value) (st1 : state) :
  NoDup (keys features) -> In (feat, v) features ->
  dict_get (retrieve_feature_dictionary self) feat = Some cur ->
  py_ne cur v = true -> isinstance_Exception v = false ->
  (type v = t_float -> near_equal cur v <> Ok true) ->
  check_feature_change_valid self feat v = Ok answer ->
  stage_and_validate self features = Ok st1 ->
  if py_eq answer (VBool true)
  then dict_get (to_change st1) feat = Some v
       /\ dict_get (report st1) feat = None
  else dict_get (report st1) feat = Some answer
       /\ dict_get (to_change st1) feat = None.
Proof.
  intros Hnd Hin Hcur Hne Hexc Hnear Hans Hstage.
  unfold stage_and_validate in Hstage.
  destruct (len (pdf self) =? 0); [discriminate|]. cbn [bind] in Hstage.
  destruct (sorted_split features feat v Hnd Hin) as (l1 & l2 & E & H1 & H2).
  rewrite E, diff_items_app in Hstage.
  destruct (diff_items _ _ _ l1) as [sa|] eqn:Ea; [|discriminate].
  cbn [bind diff_items] in Hstage.
  destruct (diff_item _ _ sa (feat, v)) as [sb|] eqn:Eb; [|discriminate].
  cbn [bind] in Hstage.
  destruct (diff_items_spec self l1 _ _ Ea) as (_ & _ & _ & Fa).
  destruct (Fa feat H1) as (Ta & Ra & _). cbn [to_change report] in Ta, Ra.
  destruct (diff_items_spec self l2 _ _ Hstage) as (_ & _ & _ & Fb).
  destruct (Fb feat H2) as (Tb & Rb & _).
  pose proof (diff_item_answer self sa sb feat v cur answer
                Hcur Hne Hexc Hnear Hans Eb) as Hitem.
  destruct (py_eq answer (VBool true)); destruct Hitem as [X Y];
    rewrite Tb, Rb, X, Y.
  - split; [apply dict_get_set_same | exact Ra].
  - split; [apply dict_get_set_same | exact Ta].
Qed.

(** What is pending after step 1 was asked for. *)
Lemma diff_items_pending_requested (self : FeatureEdit)
    (items : list (string * value)) :
  forall st st',
    diff_items self (retrieve_feature_dictionary self) st items = Ok st' ->
    forall k v,
      dict_get (to_change st') k = Some v ->
      dict_get (to_change st) k = Some v \/ In (k, v) items.
Proof.
  induction items as [|[feat fv] items IH]; intros st st' Hrun k v Hk.
  - injection Hrun as <-. now left.
  - cbn [diff_items] in Hrun.
    destruct (diff_item _ _ st (feat, fv)) as [sa|] eqn:Ea; [|discriminate].
    cbn [bind] in Hrun. destruct (IH _ _ Hrun k v Hk) as [H|H]; [|right; now right].
    clear IH Hrun. unfold diff_item in Ea.
    destruct (dict_item _ feat) as [cur|]; [|discriminate]. cbn [bind] in Ea.
    destruct (py_ne cur fv && negb (isinstance_Exception fv));
      [|injection Ea as <-; now left].
    match type of Ea with
    | bind ?c _ = _ => destruct c as [[|]|]; cbn [bind] in Ea; try discriminate
    end; [injection Ea as <-; now left|].
    destruct (check_feature_change_valid self feat fv) as [valid|]; [|discriminate].
    cbn [bind] in Ea.
    destruct (py_eq valid (VBool true)); injection Ea as <-;
      cbn [to_change] in H; [|now left].
    destruct (String.eqb feat k) eqn:Ek.
    + apply String.eqb_eq in Ek. subst k. rewrite dict_get_set_same in H.
      injection H as <-. right. now left.
    + apply String.eqb_neq in Ek. rewrite dict_get_set_other in H by exact Ek.
      now left.
Qed.

Lemma stage_pending_requested (self : FeatureEdit) (features : dict value)
    (st1 : state) (k : string) (v : value) :
  stage_and_validate self features = Ok st1 ->
  dict_get (to_change st1) k = Some v -> In (k, v) features.
Proof.
  intros Hstage Hk. unfold stage_and_validate in Hstage.
  destruct (len (pdf self) =? 0); [discriminate|]. cbn [bind] in Hstage.
  destruct (diff_items_pending_requested self _ _ _ Hstage k v Hk) as [H|H].
  - discriminate.
  - now apply (proj1 (In_sorted _ _)).
Qed.

(** X11.  The report names only requested features. *)
Theorem report_names_only_requested_features
    (py : Runtime) (self : FeatureEdit) (features : dict value)
    (r : result) (k : string) :
  modify_file py self features = Ok r ->
  ~ In k (keys features) ->
  dict_get (res_report r) k = None.
Proof.
  intros Hrun Hk.
  destruct (modify_file_advanced py self features r Hrun)
    as (st1 & st7 & E1 & (N7 & M & _) & _ & ->).
  destruct (stage_and_validate_spec self features st1 E1) as (_ & _ & _ & _ & F).
  destruct (F k Hk) as (T1 & R1 & _).
  destruct (moved_absent _ _ _ k M T1 R1) as [T7 R7].
  rewrite final_report_get by exact N7. now rewrite T7, R7.
Qed.

Lemma report_names_only_requested_features_witness :
  dict_get [("count_page", Outcome true (VInt 2))] "size" = None.
Proof.
  apply (report_names_only_requested_features sample_runtime sample
           [("count_page", VInt 2)]
           (Result (encode (sample_body ++ " /Page" ++ LF ++ " /Page" ++ LF
                            ++ sample_trailer))
                   [("count_page", Outcome true (VInt 2))] []) "size").
  - vm_compute. reflexivity.
  - cbn. intuition discriminate.
Defined.

(** X12.  A request the validator refuses is in the report with
    [success = False] and the validator's answer, which is an exception
    object. *)
Theorem refused_request_is_reported
    (py : Runtime) (self : FeatureEdit) (features : dict value)
    (feat : string) (v cur answer : value) (r : result) :
  NoDup (keys features) -> In (feat, v) features ->
  dict_get (retrieve_feature_dictionary self) feat = Some cur ->
  py_ne cur v = true -> isinstance_Exception v = false ->
  (type v = t_float -> near_equal cur v <> Ok true) ->
  check_feature_change_valid self feat v = Ok answer ->
  answer <> VBool true ->
  modify_file py self features = Ok r ->
  dict_get (res_report r) feat = Some (Outcome false answer)
  /\ isinstance_Exception answer = true.
Proof.
  intros Hnd Hin Hcur Hne Hexc Hnear Hans Hno Hrun.
  destruct (modify_file_advanced py self features r Hrun)
    as (st1 & st7 & E1 & (N7 & M & _) & _ & ->).
  pose proof (stage_answer self features feat v cur answer st1
                Hnd Hin Hcur Hne Hexc Hnear Hans E1) as H1.
  destruct (check_feature_change_valid_answer self feat v answer Hans)
    as [->|He]; [contradiction|].
  replace (py_eq answer (VBool true)) with false in H1
    by (destruct answer; try discriminate; reflexivity).
  destruct H1 as [R1 T1]. split; [|exact He].
  rewrite final_report_get by exact N7.
  destruct (M feat) as [[T7 R7]|(_ & w & Hw & _)]; [|congruence].
  rewrite T7, T1, R7, R1. cbn. now rewrite He.
Qed.

Lemma refused_request_is_reported_witness :
  dict_get [("count_page", Outcome false
               (VMaximumExceededError "count_page" (VInt 1341) (VInt 2000)))]
           "count_page"
  = Some (Outcome false
            (VMaximumExceededError "count_page" (VInt 1341) (VInt 2000)))
  /\ isinstance_Exception
       (VMaximumExceededError "count_page" (VInt 1341) (VInt 2000)) = true.
Proof.
  apply (refused_request_is_reported sample_runtime sample
           [("count_page", VInt 2000)] "count_page" (VInt 2000) (VInt 0)
           (VMaximumExceededError "count_page" (VInt 1341) (VInt 2000))
           (Result sample_pdf
              [("count_page", Outcome false
                  (VMaximumExceededError "count_page" (VInt 1341) (VInt 2000)))]
              [])).
  - repeat constructor. cbn. tauto.
  - left. reflexivity.
  - vm_compute. reflexivity.
  - reflexivity.
  - reflexivity.
  - discriminate.
  - vm_compute. reflexivity.
  - discriminate.
  - vm_compute. reflexivity.
Defined.

(** X13.  A report entry with [success = True] stands for a request of the
    caller that the validator accepted and that one of the steps looks
    for; its value is the requested integer. *)
Theorem success_means_accepted_and_handled
    (py : Runtime) (self : FeatureEdit) (features : dict value)
    (r : result) (k : string) (v : value) :
  NoDup (keys features) ->
  modify_file py self features = Ok r ->
  dict_get (res_report r) k = Some (Outcome true v) ->
  In (k, v) features /\ accepted self k v
  /\ (exists n, v = VInt n) /\ handled k = true.
Proof.
  intros Hnd Hrun Hk.
  destruct (modify_file_advanced py self features r Hrun)
    as (st1 & st7 & E1 & (N7 & M & _) & _ & Hrep).
  rewrite Hrep, final_report_get in Hk by exact N7.
  destruct (stage_and_validate_spec self features st1 E1) as (_ & _ & _ & Hacc & _).
  pose proof (stage_rejections_only self features st1 Hnd E1) as HJ.
  destruct (dict_get (to_change st7) k) as [w|] eqn:T7; [discriminate|].
  destruct (dict_get (report st7) k) as [w|] eqn:R7; [|discriminate].
  cbn in Hk. injection Hk as Hexc <-.
  destruct (M k) as [[T R]|(HP & w' & Hw & _ & Hr)].
  - rewrite R7 in R. symmetry in R. destruct (HJ k w R) as [He _].
    rewrite He in Hexc. discriminate.
  - assert (w' = w) by congruence. subst w'.
    split; [exact (stage_pending_requested self features st1 k w E1 Hw)|].
    split; [exact (Hacc k w Hw)|]. split; [|exact HP].
    destruct (accepted_editable_int self k w (Hacc k w Hw)) as (_ & n & _ & _ & ->).
    now exists n.
Qed.

Lemma success_means_accepted_and_handled_witness :
  In ("count_page", VInt 2) [("count_page", VInt 2)]
  /\ accepted sample "count_page" (VInt 2)
  /\ (exists n, VInt 2 = VInt n) /\ handled "count_page" = true.
Proof.
  apply (success_means_accepted_and_handled sample_runtime sample
           [("count_page", VInt 2)]
           (Result (encode (sample_body ++ " /Page" ++ LF ++ " /Page" ++ LF
                            ++ sample_trailer))
                   [("count_page", Outcome true (VInt 2))] [])).
  - repeat constructor. cbn. tauto.
  - vm_compute. reflexivity.
  - reflexivity.
Defined.






(** With the version alone pending, steps 3 to 6 leave the state as it
    is. *)
Lemma only_version_pending_run (py : Runtime) (self : FeatureEdit)
    (fc : dict value) (p : patcher) (rep : dict value) (v : value)
    (calls : list (string * value)) :
  (st <- modify_incrementable fc (State p rep [("version", v)] calls)
                              _incrementable_feats ;;
   st <- modify_metadata st _metadata_feats ;;
   st <- modify_moddate py self st ;;
   st <- modify_createdate py self st ;;
   modify_size st)
  = Ok (State p rep [("version", v)] calls).
Proof. reflexivity. Qed.

(** X15.  When the document has no [%PDF-1.x] header, an accepted request
    for [version] changes nothing and comes back with [success = False]:
    step 2 returns the state it was given, with the document, the cursor,
    the report and the pending changes as they were; a run with this
    request alone returns the bytes of the source; and in every run the
    report has the feature with [success = False] and the requested
    value. *)
Theorem version_request_without_header_fails
    (py : Runtime) (self : FeatureEdit) (features : dict value)
    (v : value) (r : result) :
  NoDup (keys features) -> In ("version", v) features ->
  accepted self "version" v ->
  _regex_pdf_version_search (MMap (pdf self) 0) = None ->
  modify_file py self features = Ok r ->
  (exists st1,
      stage_and_validate self features = Ok st1
      /\ dict_get (to_change st1) "version" = Some v
      /\ modify_version st1 = Ok st1)
  /\ (features = [("version", v)] -> path_content r = pdf self)
  /\ dict_get (res_report r) "version" = Some (Outcome false v).
Proof.
  intros Hnd Hin Hacc Hsearch Hrun.
  destruct (modify_file_run py self features r Hrun)
    as (st1 & st2 & st3 & st4 & st5 & st6 & st7
        & E1 & E2 & E3 & E4 & E5 & E6 & E7 & _ & Hpath & Hrep).
  destruct (stage_and_validate_spec self features st1 E1) as (P1 & _ & N1 & _).
  destruct (accepted_editable_int self _ v Hacc) as (_ & n & _ & _ & ->).
  destruct Hacc as (cur & Hcur & Hne & Hchk).
  pose proof (stage_answer self features "version" (VInt n) cur (VBool true) st1
                Hnd Hin Hcur Hne eq_refl) as H1.
  cbn [py_eq as_num Z.b2z Z.eqb Pos.eqb] in H1.
  destruct H1 as [T1 R1]; [discriminate | exact Hchk | exact E1 |].
  assert (st2 = st1).
  { unfold modify_version in E2. rewrite T1, P1 in E2. cbn [p_mm] in E2.
    rewrite Hsearch in E2. now injection E2. }
  subst st2. split; [|split].
  - exists st1. repeat split; assumption.
  - intros ->. rewrite Hpath.
    assert (Htc : to_change st1 = [("version", VInt n)]).
    { unfold stage_and_validate in E1.
      destruct (len (pdf self) =? 0); [discriminate|].
      cbn [bind sorted fold_right insert_sorted diff_items] in E1.
      destruct (diff_item self _ _ ("version", VInt n)) as [sa|] eqn:Ea;
        [|discriminate].
      cbn [bind] in E1. injection E1 as <-.
      assert (Hnear : type (VInt n) = t_float ->
                      near_equal cur (VInt n) <> Ok true) by discriminate.
      pose proof (diff_item_answer self _ sa "version" (VInt n) cur (VBool true)
                    Hcur Hne eq_refl Hnear Hchk Ea) as Hitem.
      cbn [py_eq as_num Z.b2z Z.eqb Pos.eqb] in Hitem.
      exact (proj1 Hitem). }
    pose proof (only_version_pending_run py self (retrieve_feature_dictionary self)
                  (st_patcher st1) (report st1) (VInt n) (validator_calls st1))
      as Hsteps.
    destruct st1 as [p rep tc calls]. cbn [to_change] in Htc. subst tc.
    cbn [st_patcher report validator_calls] in Hsteps, P1.
    rewrite E3 in Hsteps. cbn [bind] in Hsteps.
    rewrite E4 in Hsteps. cbn [bind] in Hsteps.
    rewrite E5 in Hsteps. cbn [bind] in Hsteps.
    rewrite E6 in Hsteps. cbn [bind] in Hsteps.
    rewrite E7 in Hsteps. injection Hsteps as ->.
    unfold buffer. cbn [st_patcher]. now rewrite P1.
  - rewrite Hrep.
    pose proof (modify_incrementable_step _ _ st1 st3 N1 E3) as A3.
    pose proof (modify_metadata_step _ st3 st4 (advanced_wf _ _ _ A3) E4) as A4.
    pose proof (modify_moddate_step py self st4 st5 (advanced_wf _ _ _ A4) E5) as A5.
    pose proof (modify_createdate_step py self st5 st6 (advanced_wf _ _ _ A5) E6)
      as A6.
    pose proof (modify_size_step st6 st7 (advanced_wf _ _ _ A6) E7) as A7.
    destruct A3 as (_ & M3 & _). destruct A4 as (_ & M4 & _).
    destruct A5 as (_ & M5 & _). destruct A6 as (_ & M6 & _).
    destruct A7 as (N7 & M7 & _).
    destruct (moved_untouched _ _ _ "version" M3 eq_refl) as [T3 _].
    destruct (moved_untouched _ _ _ "version" M4 eq_refl) as [T4 _].
    destruct (moved_untouched _ _ _ "version" M5 eq_refl) as [T5 _].
    destruct (moved_untouched _ _ _ "version" M6 eq_refl) as [T6 _].
    destruct (moved_untouched _ _ _ "version" M7 eq_refl) as [T7 _].
    rewrite final_report_get by exact N7.
    now rewrite T7, T6, T5, T4, T3, T1.
Qed.

Lemma version_request_without_header_fails_witness :
  modify_file sample_runtime headerless [("version", VInt 5)]
  = Ok (Result (pdf headerless) [("version", Outcome false (VInt 5))] [])
  /\ (exists st1,
      stage_and_validate headerless [("version", VInt 5)] = Ok st1
      /\ dict_get (to_change st1) "version" = Some (VInt 5)
      /\ modify_version st1 = Ok st1)
  /\ ([("version", VInt 5)] = [("version", VInt 5)] ->
      path_content
        (Result (pdf headerless) [("version", Outcome false (VInt 5))] [])
      = pdf headerless)
  /\ dict_get [("version", Outcome false (VInt 5))] "version"
     = Some (Outcome false (VInt 5)).
Proof.
  split; [vm_compute; reflexivity|].
  apply (version_request_without_header_fails sample_runtime headerless
           [("version", VInt 5)] (VInt 5)
           (Result (pdf headerless) [("version", Outcome false (VInt 5))] [])).
  - repeat constructor. cbn. tauto.
  - left. reflexivity.
  - exists (VInt 3). repeat split; vm_compute; reflexivity.
  - vm_compute. reflexivity.
  - vm_compute. reflexivity.
Defined.

(** The items of a loop of step 1 that returns are all features of the
    file. *)
Lemma diff_items_known (self : FeatureEdit) (fc : dict value)
    (items : list (string * value)) :
  forall st st',
    diff_items self fc st items = Ok st' ->
    forall k, In k (map fst items) -> dict_get fc k <> None.
Proof.
  induction items as [|[feat fv] items IH]; intros st st' Hrun k Hk;
    [destruct Hk|].
  cbn [diff_items] in Hrun.
  destruct (diff_item self fc st (feat, fv)) as [sa|] eqn:Ea; [|discriminate].
  cbn [bind] in Hrun. destruct Hk as [<-|Hk]; [|exact (IH _ _ Hrun k Hk)].
  cbn [fst]. unfold diff_item, dict_item in Ea.
  destruct (dict_get fc feat); [discriminate | discriminate].
Qed.

(** X16.  A request that names a feature outside the catalog makes
    [modify_file] raise: no document and no report come back, whatever
    the other entries are. *)
Theorem unknown_feature_name_aborts
    (py : Runtime) (self : FeatureEdit) (features : dict value) (k : string) :
  In k (keys features) ->
  dict_get _pdfrate_feature_descriptions k = None ->
  exists e, modify_file py self features = Raise e.
Proof.
  intros Hk Hnone.
  destruct (modify_file py self features) as [r|e] eqn:Hrun; [|eauto].
  exfalso.
  destruct (modify_file_run py self features r Hrun) as (st1 & _ & _ & _ & _ & _ & _
                                                         & E1 & _).
  unfold stage_and_validate in E1.
  destruct (len (pdf self) =? 0); [discriminate|]. cbn [bind] in E1.
  apply (diff_items_known self _ _ _ _ E1 k).
  - apply In_keys_sorted. exact Hk.
  - apply dict_get_None_keys. intros Hin. unfold retrieve_feature_dictionary in Hin.
    unfold keys in Hin. rewrite map_map in Hin. cbn [fst] in Hin.
    rewrite map_id in Hin.
    destruct (name_described k Hin) as [d Hd]. congruence.
Qed.

Lemma unknown_feature_name_aborts_witness :
  exists e,
    modify_file sample_runtime sample
                [("count_page", VInt 2); ("count_pages", VInt 2)] = Raise e.
Proof.
  apply (unknown_feature_name_aborts sample_runtime sample _ "count_pages").
  - right. left. reflexivity.
  - vm_compute. reflexivity.
Defined.

(** ** What a run does to the document *)

Lemma insert_all_cat (ds1 ds2 : list string) :
  forall p,
    insert_all p (ds1 ++ ds2) = (p' <- insert_all p ds1 ;; insert_all p' ds2).
Proof.
  induction ds1 as [|d ds1 IH]; intros p; [reflexivity|].
  cbn [app insert_all]. destruct (_insert_into_mmap p d); [|reflexivity].
  cbn [bind]. apply IH.
Qed.

Lemma inserted_refl (p : patcher) : inserted p p.
Proof. now exists []. Qed.

Lemma inserted_trans (p1 p2 p3 : patcher) :
  inserted p1 p2 -> inserted p2 p3 -> inserted p1 p3.
Proof.
  intros [ds1 H1] [ds2 H2]. exists (ds1 ++ ds2).
  now rewrite insert_all_cat, H1.
Qed.

Lemma inserts_only_bind (f g : state -> res state) :
  inserts_only f -> inserts_only g ->
  inserts_only (fun st => st1 <- f st ;; g st1).
Proof.
  intros Hf Hg st st' Hrun. cbn beta in Hrun.
  destruct (f st) as [st1|] eqn:E; [|discriminate]. cbn [bind] in Hrun.
  eapply inserted_trans; [exact (Hf _ _ E) | exact (Hg _ _ Hrun)].
Qed.

Lemma insert_inserts (data : state -> string) :
  inserts_only (fun st => insert st (data st)).
Proof.
  intros st st' Hrun. unfold insert in Hrun.
  destruct (_insert_into_mmap (st_patcher st) (data st)) as [p|] eqn:E;
    [|discriminate].
  cbn [bind] in Hrun. injection Hrun as <-. exists [data st].
  cbn [insert_all set_patcher st_patcher]. now rewrite E.
Qed.

Lemma report_and_del_patcher (st st' : state) (feat : string) :
  report_and_del st feat = Ok st' -> st_patcher st' = st_patcher st.
Proof.
  unfold report_and_del. destruct (dict_item _ _); [|discriminate].
  cbn [bind]. now intros [= <-].
Qed.

Lemma report_and_del_inserts (feat : string) :
  inserts_only (fun st => report_and_del st feat).
Proof.
  intros st st' Hrun. rewrite (report_and_del_patcher _ _ _ Hrun).
  apply inserted_refl.
Qed.

Lemma modify_incrementable_feat_inserts (fc : dict value)
    (entry : string * string) :
  inserts_only (fun st => modify_incrementable_feat fc st entry).
Proof.
  destruct entry as [feat marker]. intros st st' Hrun.
  unfold modify_incrementable_feat in Hrun.
  destruct (dict_get (to_change st) feat) as [new_val|];
    [|injection Hrun as <-; apply inserted_refl].
  destruct (dict_item fc feat) as [cur|]; [|discriminate]. cbn [bind] in Hrun.
  destruct (py_sub new_val cur) as [increase|]; [|discriminate]. cbn [bind] in Hrun.
  destruct (py_repeat _ increase) as [data|]; [|discriminate]. cbn [bind] in Hrun.
  exact (inserts_only_bind _ _ (insert_inserts (fun _ => data))
           (report_and_del_inserts feat) st st' Hrun).
Qed.

Lemma modify_incrementable_inserts (fc : dict value) (feats : dict string) :
  inserts_only (fun st => modify_incrementable fc st feats).
Proof.
  induction feats as [|entry feats IH]; intros st st' Hrun.
  - injection Hrun as <-. apply inserted_refl.
  - exact (inserts_only_bind _ _ (modify_incrementable_feat_inserts fc entry)
             IH st st' Hrun).
Qed.

Lemma metadata_suffix_loop_patcher (feat_prefix : string)
    (suffixes : list string) :
  forall acc acc',
    metadata_suffix_loop feat_prefix acc suffixes = Ok acc' ->
    st_patcher (snd acc') = st_patcher (snd acc).
Proof.
  induction suffixes as [|s suffixes IH]; intros acc acc' Hrun.
  - now injection Hrun as <-.
  - cbn [metadata_suffix_loop] in Hrun.
    destruct (metadata_suffix_step feat_prefix acc s) as [acc1|] eqn:E;
      [|discriminate].
    cbn [bind] in Hrun. rewrite (IH _ _ Hrun). clear IH Hrun.
    destruct acc as [addendum st]. unfold metadata_suffix_step in E.
    destruct (dict_item (to_change st) _) as [v|]; [|discriminate].
    cbn [bind] in E.
    match type of E with
    | (bind ?c _) = _ => destruct c as [addendum'|]; [|discriminate]
    end.
    cbn [bind] in E.
    destruct (report_and_del st _) as [st1|] eqn:E1; [|discriminate].
    cbn [bind] in E. injection E as <-. cbn [snd].
    exact (report_and_del_patcher _ _ _ E1).
Qed.

Lemma modify_metadata_field_inserts (entry : string * (string * string)) :
  inserts_only (fun st => modify_metadata_field st entry).
Proof.
  destruct entry as [feat_prefix [before after]]. intros st st' Hrun.
  unfold modify_metadata_field in Hrun.
  destruct (metadata_suffix_loop feat_prefix ("", st) _) as [[addendum st1]|] eqn:E;
    [|discriminate].
  cbn [bind] in Hrun. apply metadata_suffix_loop_patcher in E. cbn [snd] in E.
  rewrite <- E.
  destruct (String.eqb addendum "");
    [injection Hrun as <-; apply inserted_refl|].
  exact (insert_inserts (fun _ => _) st1 st' Hrun).
Qed.

Lemma modify_metadata_inserts (fields : dict (string * string)) :
  inserts_only (fun st => modify_metadata st fields).
Proof.
  induction fields as [|entry fields IH]; intros st st' Hrun.
  - injection Hrun as <-. apply inserted_refl.
  - exact (inserts_only_bind _ _ (modify_metadata_field_inserts entry)
             IH st st' Hrun).
Qed.

(** A date is written by an insertion or not at all: the overwriting in
    place never returns. *)
Lemma write_date_inserts (anchor : option (Z * list byte))
    (new_date new_field : string) :
  inserts_only (fun st => write_date st anchor new_date new_field).
Proof.
  intros st st' Hrun. unfold write_date in Hrun.
  assert (Hins : insert st new_field = Ok st' ->
                 inserted (st_patcher st) (st_patcher st'))
    by exact (insert_inserts (fun _ => new_field) st st').
  destruct anchor as [[mod_location old_date]|]; [|auto].
  destruct (Z.of_nat (String.length new_date) =? len old_date); [|auto].
  destruct (mm_seek _ mod_location) as [mm1|]; [|discriminate].
  cbn [bind mm_write] in Hrun. discriminate.
Qed.

Lemma modify_moddate_inserts (py : Runtime) (self : FeatureEdit) :
  inserts_only (modify_moddate py self).
Proof.
  intros st st' Hrun. unfold modify_moddate in Hrun.
  destruct (dict_mem (to_change st) "moddate_ts" || dict_mem (to_change st) "moddate_tz");
    [|injection Hrun as <-; apply inserted_refl].
  match type of Hrun with
  | bind ?c _ = _ => destruct c as [[ts_str st1]|] eqn:E1; [|discriminate]
  end.
  cbn [bind] in Hrun.
  match type of Hrun with
  | bind ?c _ = _ => destruct c as [[tz_str st2]|] eqn:E2; [|discriminate]
  end.
  cbn [bind] in Hrun.
  assert (P1 : st_patcher st1 = st_patcher st).
  { destruct (dict_get (to_change st) "moddate_ts") as [ts|].
    - destruct (gmtime py ts); [|discriminate]. cbn [bind] in E1.
      destruct (report_and_del st _) as [s|] eqn:E; [|discriminate].
      cbn [bind] in E1. injection E1 as _ <-.
      exact (report_and_del_patcher _ _ _ E).
    - destruct (get_ self "moddate_ts"); [|discriminate]. cbn [bind] in E1.
      destruct (gmtime py _); [|discriminate]. cbn [bind] in E1.
      now injection E1 as _ <-. }
  assert (P2 : st_patcher st2 = st_patcher st1).
  { destruct (dict_get (to_change st1) "moddate_tz") as [tz|].
    - match type of E2 with
      | bind ?c _ = _ => destruct c; [|discriminate]
      end.
      cbn [bind] in E2.
      destruct (report_and_del st1 _) as [s|] eqn:E; [|discriminate].
      cbn [bind] in E2. injection E2 as _ <-.
      exact (report_and_del_patcher _ _ _ E).
    - destruct (get_ self "moddate_tz"); [|discriminate]. cbn [bind] in E2.
      match type of E2 with
      | bind ?c _ = _ => destruct c; [|discriminate]
      end.
      cbn [bind] in E2. now injection E2 as _ <-. }
  rewrite <- P1, <- P2. exact (write_date_inserts _ _ _ st2 st' Hrun).
Qed.

Lemma modify_createdate_inserts (py : Runtime) (self : FeatureEdit) :
  inserts_only (modify_createdate py self).
Proof.
  intros st st' Hrun. unfold modify_createdate in Hrun.
  destruct (dict_mem (to_change st) "createdate_ts"
            || dict_mem (to_change st) "createdate_tz");
    [|injection Hrun as <-; apply inserted_refl].
  match type of Hrun with
  | bind ?c _ = _ => destruct c as [[ts_str st1]|] eqn:E1; [|discriminate]
  end.
  cbn [bind] in Hrun.
  match type of Hrun with
  | bind ?c _ = _ => destruct c as [[tz_str st2]|] eqn:E2; [|discriminate]
  end.
  cbn [bind] in Hrun.
  assert (P1 : st_patcher st1 = st_patcher st).
  { destruct (dict_get (to_change st) "createdate_ts") as [ts|].
    - destruct (gmtime py ts); [|discriminate]. cbn [bind] in E1.
      destruct (report_and_del st _) as [s|] eqn:E; [|discriminate].
      cbn [bind] in E1. injection E1 as _ <-.
      exact (report_and_del_patcher _ _ _ E).
    - destruct (get_ self "moddate_ts"); [|discriminate]. cbn [bind] in E1.
      destruct (gmtime py _); [|discriminate]. cbn [bind] in E1.
      now injection E1 as _ <-. }
  assert (P2 : st_patcher st2 = st_patcher st1).
  { destruct (dict_get (to_change st1) "createdate_tz") as [tz|].
    - match type of E2 with
      | bind ?c _ = _ => destruct c; [|discriminate]
      end.
      cbn [bind] in E2.
      destruct (report_and_del st1 _) as [s|] eqn:E; [|discriminate].
      cbn [bind] in E2. injection E2 as _ <-.
      exact (report_and_del_patcher _ _ _ E).
    - destruct (get_ self "createdate_tz"); [|discriminate]. cbn [bind] in E2.
      match type of E2 with
      | bind ?c _ = _ => destruct c; [|discriminate]
      end.
      cbn [bind] in E2. now injection E2 as _ <-. }
  rewrite <- P1, <- P2. exact (write_date_inserts _ _ _ st2 st' Hrun).
Qed.

Lemma modify_size_inserts : inserts_only modify_size.
Proof.
  intros st st' Hrun. unfold modify_size in Hrun.
  destruct (dict_get (to_change st) "size") as [size|];
    [|injection Hrun as <-; apply inserted_refl].
  destruct (py_sub size _) as [insert_count|]; [|discriminate]. cbn [bind] in Hrun.
  destruct (py_gt insert_count (VInt 0)) as [[|]|]; try discriminate;
    cbn [bind] in Hrun; [|injection Hrun as <-; apply inserted_refl].
  destruct (py_repeat " " insert_count) as [data|]; [|discriminate].
  cbn [bind] in Hrun.
  exact (inserts_only_bind _ _ (insert_inserts (fun _ => data))
           (report_and_del_inserts "size") st st' Hrun).
Qed.

(** What a sequence of insertions leaves in a mapped file. *)
Lemma inserted_buffer (p p' : patcher) :
  0 < mm_size (p_mm p) -> inserted p p' ->
  exists ds,
    mm_buf (p_mm p')
    = firstn (Z.to_nat (insert_offset p)) (mm_buf (p_mm p))
      ++ List.concat (map encode ds)
      ++ skipn (Z.to_nat (insert_offset p)) (mm_buf (p_mm p)).
Proof.
  intros Hne [ds Hrun].
  destruct (Z_le_gt_dec 0 (insert_offset p)) as [H0|H0].
  - destruct (Z_le_gt_dec (insert_offset p) (mm_size (p_mm p))) as [H1|H1].
    + destruct p as [[buf pos] off]. unfold mm_size in *.
      cbn [p_mm mm_buf insert_offset] in *.
      destruct (split_at buf off (conj H0 H1)) as (pre & suf & -> & <- & -> & ->).
      destruct (insert_all_app ds pre suf pos Hne) as [pos' E].
      rewrite E in Hrun. injection Hrun as <-. exists ds. reflexivity.
    + exists []. destruct ds as [|d ds].
      * injection Hrun as <-. cbn. now rewrite firstn_skipn.
      * cbn [insert_all] in Hrun.
        rewrite (insert_into_mmap_outside p d Hne) in Hrun by (right; lia).
        discriminate.
  - exists []. destruct ds as [|d ds].
    + injection Hrun as <-. cbn. now rewrite firstn_skipn.
    + cbn [insert_all] in Hrun.
      rewrite (insert_into_mmap_outside p d Hne) in Hrun by (left; lia).
      discriminate.
Qed.

(** The version step leaves the map as it is or replaces one byte, where
    the header has its digit. *)
Lemma modify_version_patcher (st st' : state) :
  modify_version st = Ok st' ->
  cursor st' = cursor st
  /\ (buffer st' = buffer st
      \/ (exists v, dict_get (to_change st) "version" = Some v)
         /\ exists start b,
              _regex_pdf_version_search (p_mm (st_patcher st)) = Some start
              /\ buffer st' = firstn (Z.to_nat start) (buffer st)
                              ++ b :: skipn (Z.to_nat (start + 1)) (buffer st)).
Proof.
  intros Hrun. unfold modify_version in Hrun.
  destruct (dict_get (to_change st) "version") as [version|] eqn:Ev;
    [|injection Hrun as <-; split; [reflexivity | now left]].
  destruct (_regex_pdf_version_search (p_mm (st_patcher st))) as [start1|] eqn:Es;
    [|injection Hrun as <-; split; [reflexivity | now left]].
  destruct (py_int version) as [v|]; [|discriminate]. cbn [bind] in Hrun.
  destruct (mm_setitem (p_mm (st_patcher st)) start1 v) as [mm'|] eqn:E;
    [|discriminate].
  cbn [bind] in Hrun. apply report_and_del_patcher in Hrun.
  unfold cursor, buffer. rewrite Hrun. cbn [set_patcher st_patcher insert_offset p_mm].
  split; [reflexivity|]. right. split; [eauto|].
  unfold _regex_pdf_version_search in Es.
  pose proof (search_version_bound _ _ _ Es) as Hb.
  unfold mm_setitem in E.
  replace (start1 <? 0) with false in E by (symmetry; apply Z.ltb_ge; lia).
  destruct (_ || _) in E; [discriminate|].
  destruct (if v <? 0 then None else Byte.of_N (Z.to_N v)) as [b|]; [|discriminate].
  injection E as <-. exists start1, b. split; reflexivity.
Qed.

Lemma stage_nonempty (self : FeatureEdit) (features : dict value) (st1 : state) :
  stage_and_validate self features = Ok st1 -> 0 < len (pdf self).
Proof.
  unfold stage_and_validate. pose proof (len_nonneg (pdf self)).
  destruct (len (pdf self) =? 0) eqn:E; [discriminate|].
  apply Z.eqb_neq in E. lia.
Qed.

(** X17.  Whatever is requested, the document [modify_file] returns is the
    source with one block of text put in at the [startxref] offset the
    reader gave: the bytes before and behind that offset are the source's,
    but for the digit of the first [%PDF-1.x] header when [version] was
    requested. *)
Theorem document_is_source_with_one_block_inserted
    (py : Runtime) (self : FeatureEdit) (features : dict value) (r : result) :
  modify_file py self features = Ok r ->
  let off := Z.to_nat (_get_startxref_position self) in
  exists (source : list byte) (texts : list string),
    path_content r
    = firstn off source ++ List.concat (map encode texts) ++ skipn off source
    /\ (source = pdf self
        \/ In "version" (keys features)
           /\ exists start b,
                _regex_pdf_version_search (MMap (pdf self) 0) = Some start
                /\ source = firstn (Z.to_nat start) (pdf self)
                            ++ b :: skipn (Z.to_nat (start + 1)) (pdf self)).
Proof.
  intros Hrun off.
  destruct (modify_file_run py self features r Hrun)
    as (st1 & st2 & st3 & st4 & st5 & st6 & st7
        & E1 & E2 & E3 & E4 & E5 & E6 & E7 & _ & -> & _).
  destruct (stage_and_validate_spec self features st1 E1) as (P1 & _).
  pose proof (stage_nonempty self features st1 E1) as Hne.
  destruct (modify_version_patcher st1 st2 E2) as [C2 B2].
  assert (Hins : inserted (st_patcher st2) (st_patcher st7)).
  { eapply inserted_trans; [exact (modify_incrementable_inserts _ _ _ _ E3)|].
    eapply inserted_trans; [exact (modify_metadata_inserts _ _ _ E4)|].
    eapply inserted_trans; [exact (modify_moddate_inserts _ _ _ _ E5)|].
    eapply inserted_trans; [exact (modify_createdate_inserts _ _ _ _ E6)|].
    exact (modify_size_inserts _ _ E7). }
  assert (B1 : buffer st1 = pdf self) by (unfold buffer; now rewrite P1).
  assert (C1 : cursor st1 = _get_startxref_position self)
    by (unfold cursor; now rewrite P1).
  assert (Hne2 : 0 < mm_size (p_mm (st_patcher st2))).
  { fold (buffer st2). unfold mm_size. fold (buffer st2).
    destruct B2 as [->|(_ & start & b & _ & ->)].
    - now rewrite B1.
    - rewrite len_app. pose proof (len_nonneg (firstn (Z.to_nat start) (buffer st1))).
      unfold len at 2. cbn [List.length]. lia. }
  destruct (inserted_buffer _ _ Hne2 Hins) as [ds Hb].
  fold (buffer st7) in Hb. fold (buffer st2) in Hb. fold (cursor st2) in Hb.
  rewrite C2, C1 in Hb. fold off in Hb.
  exists (buffer st2), ds. split; [exact Hb|].
  destruct B2 as [->|((v & Hv) & start & b & Hs & ->)]; [left; exact B1|].
  right. split.
  - apply (in_map fst) with (x := ("version", v)).
    exact (stage_pending_requested self features st1 _ v E1 Hv).
  - exists start, b. rewrite P1 in Hs. cbn [p_mm] in Hs. rewrite B1.
    split; [exact Hs | reflexivity].
Qed.

Lemma document_is_source_with_one_block_inserted_witness :
  let off := Z.to_nat (_get_startxref_position sample) in
  exists (source : list byte) (texts : list string),
    encode (sample_body ++ " /Page" ++ LF ++ " /Page" ++ LF ++ sample_trailer)
    = firstn off source ++ List.concat (map encode texts) ++ skipn off source
    /\ (source = pdf sample
        \/ In "version" (keys [("count_page", VInt 2)])
           /\ exists start b,
                _regex_pdf_version_search (MMap (pdf sample) 0) = Some start
                /\ source = firstn (Z.to_nat start) (pdf sample)
                            ++ b :: skipn (Z.to_nat (start + 1)) (pdf sample)).
Proof.
  apply (document_is_source_with_one_block_inserted sample_runtime sample
           [("count_page", VInt 2)]
           (Result (encode (sample_body ++ " /Page" ++ LF ++ " /Page" ++ LF
                            ++ sample_trailer))
                   [("count_page", Outcome true (VInt 2))] [])).
  vm_compute. reflexivity.
Defined.

(** ** The report does not steer the edits *)

Lemma same_outcome_bind {A B A' B' : Type}
    (R : A -> B -> Prop) (R' : A' -> B' -> Prop)
    (x : res A) (y : res B) (g : A -> res A') (g' : B -> res B') :
  same_outcome R x y ->
  (forall a b, R a b -> same_outcome R' (g a) (g' b)) ->
  same_outcome R' (bind x g) (bind y g').
Proof.
  destruct x as [a|e], y as [b|e']; cbn; intros H Hg; try contradiction.
  - now apply Hg.
  - exact H.
Qed.

Lemma agree_refl (K : string -> Prop) (st : state) : agree K st st.
Proof. repeat split. Qed.

Lemma agree_set_report (K : string -> Prop) (st st' : state)
    (p : patcher) (tc : dict value) (c c' : list (string * value))
    (feat : string) (v : value) :
  agree K st st' ->
  agree K (State p (dict_set (report st) feat v) tc c)
          (State p (dict_set (report st') feat v) tc c').
Proof.
  intros (_ & _ & Hr). split; [reflexivity|]. split; [reflexivity|].
  intros k Hk. cbn [report]. destruct (String.eqb feat k) eqn:E.
  - apply String.eqb_eq in E. subst k. now rewrite !dict_get_set_same.
  - apply String.eqb_neq in E. rewrite !dict_get_set_other by exact E. auto.
Qed.

Lemma independent_bind (K : string -> Prop) (f g : state -> res state) :
  independent K f -> independent K g ->
  independent K (fun st => st1 <- f st ;; g st1).
Proof.
  intros Hf Hg st st' H. cbn beta.
  eapply same_outcome_bind; [exact (Hf st st' H) | exact Hg].
Qed.

Lemma insert_independent (K : string -> Prop) (data : string) :
  independent K (fun st => insert st data).
Proof.
  intros st st' (Hp & Ht & Hr). unfold insert. rewrite <- Hp.
  destruct (_insert_into_mmap (st_patcher st) data) as [p|e]; cbn; [|reflexivity].
  unfold set_patcher. repeat split; cbn; assumption.
Qed.

Lemma report_and_del_independent (K : string -> Prop) (feat : string) :
  independent K (fun st => report_and_del st feat).
Proof.
  intros st st' H. pose proof H as (Hp & Ht & Hr).
  unfold report_and_del. rewrite <- Ht, <- Hp.
  destruct (dict_item (to_change st) feat) as [v|e]; cbn [bind same_outcome];
    [|reflexivity].
  now apply agree_set_report.
Qed.

Lemma set_patcher_agree (K : string -> Prop) (st st' : state) (p : patcher) :
  agree K st st' -> agree K (set_patcher st p) (set_patcher st' p).
Proof.
  intros (_ & Ht & Hr). unfold set_patcher. repeat split; cbn; assumption.
Qed.

Lemma modify_version_independent (K : string -> Prop) :
  independent K modify_version.
Proof.
  intros st st' H. pose proof H as (Hp & Ht & Hr).
  unfold modify_version. rewrite <- Ht, <- Hp.
  destruct (dict_get (to_change st) "version") as [version|]; [|exact H].
  destruct (_regex_pdf_version_search _) as [start1|]; [|exact H].
  destruct (py_int version) as [v|]; cbn [bind same_outcome]; [|reflexivity].
  destruct (mm_setitem _ start1 v) as [mm'|]; cbn [bind same_outcome];
    [|reflexivity].
  apply report_and_del_independent. now apply set_patcher_agree.
Qed.

Lemma modify_incrementable_feat_independent (K : string -> Prop)
    (fc : dict value) (entry : string * string) :
  independent K (fun st => modify_incrementable_feat fc st entry).
Proof.
  destruct entry as [feat marker].
  intros st st' H. pose proof H as (Hp & Ht & Hr).
  unfold modify_incrementable_feat. rewrite <- Ht.
  destruct (dict_get (to_change st) feat) as [new_val|]; [|exact H].
  destruct (dict_item fc feat) as [cur|]; cbn [bind same_outcome]; [|reflexivity].
  destruct (py_sub new_val cur) as [increase|]; cbn [bind same_outcome];
    [|reflexivity].
  destruct (py_repeat _ increase) as [data|]; cbn [bind same_outcome];
    [|reflexivity].
  exact (independent_bind K _ _ (insert_independent K data)
           (report_and_del_independent K feat) st st' H).
Qed.

Lemma modify_incrementable_independent (K : string -> Prop)
    (fc : dict value) (feats : dict string) :
  independent K (fun st => modify_incrementable fc st feats).
Proof.
  induction feats as [|entry feats IH]; [intros st st' H; exact H|].
  exact (independent_bind K _ _
           (modify_incrementable_feat_independent K fc entry) IH).
Qed.

Lemma metadata_suffix_loop_independent (K : string -> Prop)
    (feat_prefix : string) (suffixes : list string) :
  forall acc acc',
    agree_acc K acc acc' ->
    same_outcome (agree_acc K)
                 (metadata_suffix_loop feat_prefix acc suffixes)
                 (metadata_suffix_loop feat_prefix acc' suffixes).
Proof.
  induction suffixes as [|s suffixes IH]; intros acc acc' H; [exact H|].
  cbn [metadata_suffix_loop].
  eapply same_outcome_bind; [|exact IH].
  destruct acc as [addendum st], acc' as [addendum' st'].
  destruct H as [Ha H]. cbn [fst snd] in Ha, H. subst addendum'.
  pose proof H as (Hp & Ht & Hr).
  unfold metadata_suffix_step. rewrite <- Ht.
  destruct (dict_item (to_change st) _) as [v|]; cbn [bind same_outcome];
    [|reflexivity].
  match goal with
  | |- same_outcome _ (bind ?c _) _ =>
      destruct c as [addendum'|]; cbn [bind same_outcome]; [|reflexivity]
  end.
  eapply same_outcome_bind;
    [exact (report_and_del_independent K _ st st' H)|].
  intros a b Hab. split; [reflexivity | exact Hab].
Qed.

Lemma modify_metadata_field_independent (K : string -> Prop)
    (entry : string * (string * string)) :
  independent K (fun st => modify_metadata_field st entry).
Proof.
  destruct entry as [feat_prefix [before after]].
  intros st st' H. pose proof H as (Hp & Ht & Hr).
  unfold modify_metadata_field. rewrite <- Ht.
  eapply same_outcome_bind.
  - apply metadata_suffix_loop_independent. split; [reflexivity | exact H].
  - intros [addendum s] [addendum' s'] [Ha Hs]. cbn [fst snd] in Ha, Hs.
    subst addendum'. destruct (String.eqb addendum ""); [exact Hs|].
    now apply insert_independent.
Qed.

Lemma modify_metadata_independent (K : string -> Prop)
    (fields : dict (string * string)) :
  independent K (fun st => modify_metadata st fields).
Proof.
  induction fields as [|entry fields IH]; [intros st st' H; exact H|].
  exact (independent_bind K _ _ (modify_metadata_field_independent K entry) IH).
Qed.

Lemma write_date_independent (K : string -> Prop)
    (anchor : option (Z * list byte)) (new_date new_field : string) :
  independent K (fun st => write_date st anchor new_date new_field).
Proof.
  intros st st' H. pose proof H as (Hp & Ht & Hr). unfold write_date.
  pose proof (insert_independent K new_field st st' H) as Hins.
  destruct anchor as [[mod_location old_date]|]; [|exact Hins].
  destruct (Z.of_nat (String.length new_date) =? len old_date); [|exact Hins].
  rewrite <- Hp.
  destruct (mm_seek _ mod_location) as [mm1|]; cbn [bind same_outcome];
    [|reflexivity].
  cbn [mm_write bind same_outcome]. reflexivity.
Qed.

(** The first half of a date step: the text of the timestamp. *)
Lemma date_ts_independent (K : string -> Prop) (py : Runtime)
    (self : FeatureEdit) (feat : string) (fmt : struct_time -> string)
    (st st' : state) :
  agree K st st' ->
  same_outcome (agree_acc K)
    (match dict_get (to_change st) feat with
     | Some ts =>
         a <- gmtime py ts ;;
         s <- report_and_del st feat ;; Ok (fmt a, s)
     | None =>
         ts <- get_ self "moddate_ts" ;;
         a <- gmtime py ts ;; Ok (fmt a, st)
     end)
    (match dict_get (to_change st') feat with
     | Some ts =>
         a <- gmtime py ts ;;
         s <- report_and_del st' feat ;; Ok (fmt a, s)
     | None =>
         ts <- get_ self "moddate_ts" ;;
         a <- gmtime py ts ;; Ok (fmt a, st')
     end).
Proof.
  intros H. pose proof H as (Hp & Ht & Hr). rewrite <- Ht.
  destruct (dict_get (to_change st) feat) as [ts|].
  - destruct (gmtime py ts) as [a|]; cbn [bind same_outcome]; [|reflexivity].
    eapply same_outcome_bind; [exact (report_and_del_independent K feat st st' H)|].
    intros s s' Hs. split; [reflexivity | exact Hs].
  - destruct (get_ self "moddate_ts") as [ts|]; cbn [bind same_outcome];
      [|reflexivity].
    destruct (gmtime py ts) as [a|]; cbn [bind same_outcome]; [|reflexivity].
    split; [reflexivity | exact H].
Qed.

(** The second half: the text of the time zone. *)
Lemma date_tz_independent (K : string -> Prop) (py : Runtime)
    (self : FeatureEdit) (feat sep : string) (st st' : state) :
  agree K st st' ->
  same_outcome (agree_acc K)
    (match dict_get (to_change st) feat with
     | Some new_tz =>
         tz_str <- (if py_eq new_tz (VInt 0) then Ok "Z"
                    else format_tz py sep new_tz) ;;
         s <- report_and_del st feat ;; Ok (tz_str, s)
     | None =>
         old_tz <- get_ self feat ;;
         tz_str <- (if py_ne old_tz (VInt 0) then format_tz py "'" old_tz
                    else Ok "Z") ;;
         Ok (tz_str, st)
     end)
    (match dict_get (to_change st') feat with
     | Some new_tz =>
         tz_str <- (if py_eq new_tz (VInt 0) then Ok "Z"
                    else format_tz py sep new_tz) ;;
         s <- report_and_del st' feat ;; Ok (tz_str, s)
     | None =>
         old_tz <- get_ self feat ;;
         tz_str <- (if py_ne old_tz (VInt 0) then format_tz py "'" old_tz
                    else Ok "Z") ;;
         Ok (tz_str, st')
     end).
Proof.
  intros H. pose proof H as (Hp & Ht & Hr). rewrite <- Ht.
  destruct (dict_get (to_change st) feat) as [new_tz|].
  - destruct (if py_eq new_tz (VInt 0) then Ok "Z" else format_tz py sep new_tz)
      as [tz_str|]; cbn [bind same_outcome]; [|reflexivity].
    eapply same_outcome_bind; [exact (report_and_del_independent K feat st st' H)|].
    intros s s' Hs. split; [reflexivity | exact Hs].
  - destruct (get_ self feat) as [old_tz|]; cbn [bind same_outcome]; [|reflexivity].
    destruct (if py_ne old_tz (VInt 0) then format_tz py "'" old_tz else Ok "Z")
      as [tz_str|]; cbn [bind same_outcome]; [|reflexivity].
    split; [reflexivity | exact H].
Qed.

Lemma modify_moddate_independent (K : string -> Prop) (py : Runtime)
    (self : FeatureEdit) :
  independent K (modify_moddate py self).
Proof.
  intros st st' H. pose proof H as (Hp & Ht & Hr). unfold modify_moddate.
  rewrite <- Ht at 1 2.
  destruct (dict_mem (to_change st) "moddate_ts" || dict_mem (to_change st) "moddate_tz");
    [|exact H].
  eapply same_outcome_bind;
    [exact (date_ts_independent K py self "moddate_ts" format_moddate_ts st st' H)|].
  intros [ts_str s1] [ts_str' s1'] [Ea H1]. cbn [fst snd] in Ea, H1. subst ts_str'.
  eapply same_outcome_bind;
    [exact (date_tz_independent K py self "moddate_tz" "'" s1 s1' H1)|].
  intros [tz_str s2] [tz_str' s2'] [Eb H2]. cbn [fst snd] in Eb, H2. subst tz_str'.
  now apply write_date_independent.
Qed.

Lemma modify_createdate_independent (K : string -> Prop) (py : Runtime)
    (self : FeatureEdit) :
  independent K (modify_createdate py self).
Proof.
  intros st st' H. pose proof H as (Hp & Ht & Hr). unfold modify_createdate.
  rewrite <- Ht at 1 2.
  destruct (dict_mem (to_change st) "createdate_ts"
            || dict_mem (to_change st) "createdate_tz");
    [|exact H].
  eapply same_outcome_bind;
    [exact (date_ts_independent K py self "createdate_ts" format_createdate_ts
              st st' H)|].
  intros [ts_str s1] [ts_str' s1'] [Ea H1]. cbn [fst snd] in Ea, H1. subst ts_str'.
  eapply same_outcome_bind;
    [exact (date_tz_independent K py self "createdate_tz" ":" s1 s1' H1)|].
  intros [tz_str s2] [tz_str' s2'] [Eb H2]. cbn [fst snd] in Eb, H2. subst tz_str'.
  now apply write_date_independent.
Qed.

Lemma modify_size_independent (K : string -> Prop) : independent K modify_size.
Proof.
  intros st st' H. pose proof H as (Hp & Ht & Hr). unfold modify_size.
  rewrite <- Ht, <- Hp.
  destruct (dict_get (to_change st) "size") as [size|]; [|exact H].
  destruct (py_sub size _) as [insert_count|]; cbn [bind same_outcome];
    [|reflexivity].
  destruct (py_gt insert_count (VInt 0)) as [[|]|]; cbn [bind same_outcome];
    [|exact H|reflexivity].
  destruct (py_repeat " " insert_count) as [data|]; cbn [bind same_outcome];
    [|reflexivity].
  exact (independent_bind K _ _ (insert_independent K data)
           (report_and_del_independent K "size") st st' H).
Qed.

Lemma apply_edits_independent (K : string -> Prop) (py : Runtime)
    (self : FeatureEdit) :
  independent K (apply_edits py self).
Proof.
  unfold apply_edits.
  apply (independent_bind K modify_version); [apply modify_version_independent|].
  apply (independent_bind K
           (fun st => modify_incrementable (retrieve_feature_dictionary self) st
                                           _incrementable_feats));
    [apply modify_incrementable_independent|].
  apply (independent_bind K (fun st => modify_metadata st _metadata_feats));
    [apply modify_metadata_independent|].
  apply (independent_bind K (modify_moddate py self));
    [apply modify_moddate_independent|].
  apply modify_createdate_independent.
Qed.

Lemma diff_item_independent (K : string -> Prop) (self : FeatureEdit)
    (fc : dict value) (item : string * value) :
  independent K (fun st => diff_item self fc st item).
Proof.
  destruct item as [feat fv]. intros st st' H. pose proof H as (Hp & Ht & Hr).
  unfold diff_item.
  destruct (dict_item fc feat) as [cur|]; cbn [bind same_outcome]; [|reflexivity].
  destruct (py_ne cur fv && negb (isinstance_Exception fv)); [|exact H].
  match goal with
  | |- same_outcome _ (bind ?c _) _ =>
      destruct c as [[|]|]; cbn [bind same_outcome]; [exact H| |reflexivity]
  end.
  destruct (check_feature_change_valid self feat fv) as [valid|];
    cbn [bind same_outcome]; [|reflexivity].
  destruct (py_eq valid (VBool true)).
  - rewrite <- Hp, <- Ht. split; [reflexivity|]. split; [reflexivity|]. exact Hr.
  - rewrite <- Hp, <- Ht. now apply agree_set_report.
Qed.

Lemma diff_items_independent (K : string -> Prop) (self : FeatureEdit)
    (fc : dict value) (items : list (string * value)) :
  independent K (fun st => diff_items self fc st items).
Proof.
  induction items as [|item items IH]; [intros st st' H; exact H|].
  exact (independent_bind K _ _ (diff_item_independent K self fc item) IH).
Qed.

Lemma without_absent (feat : string) (l : dict value) :
  ~ In feat (map fst l) -> without feat l = l.
Proof.
  unfold without. induction l as [|[k w] l IH]; [reflexivity|].
  cbn [map fst filter In]. intros H.
  destruct (String.eqb k feat) eqn:E.
  - apply String.eqb_eq in E. tauto.
  - cbn [negb]. rewrite IH by tauto. reflexivity.
Qed.

Lemma final_report_agree (tc : dict value) (k : string) :
  forall r1 r2 : dict outcome,
    dict_get r1 k = dict_get r2 k ->
    dict_get (fold_left (fun r (kv : string * value) =>
                           dict_set r (fst kv) (Outcome false (snd kv)))
                        tc r1) k
    = dict_get (fold_left (fun r (kv : string * value) =>
                             dict_set r (fst kv) (Outcome false (snd kv)))
                          tc r2) k.
Proof.
  induction tc as [|[k0 v0] tc IH]; intros r1 r2 H; [exact H|].
  cbn [fold_left fst snd]. apply IH.
  destruct (String.eqb k0 k) eqn:E.
  - apply String.eqb_eq in E. subst k0. now rewrite !dict_get_set_same.
  - apply String.eqb_neq in E. now rewrite !dict_get_set_other by exact E.
Qed.

(** X18.  A request the validator refuses has no effect on the rest of
    the run: with it or without it, [modify_file] raises the same way or
    returns the same document, the same vector read back and the same
    report entries for the other features. *)
Theorem refused_request_does_not_touch_the_rest
    (py : Runtime) (self : FeatureEdit) (features : dict value)
    (feat : string) (v cur answer : value) :
  NoDup (keys features) -> In (feat, v) features ->
  dict_get (retrieve_feature_dictionary self) feat = Some cur ->
  py_ne cur v = true -> isinstance_Exception v = false ->
  (type v = t_float -> near_equal cur v = Ok false) ->
  check_feature_change_valid self feat v = Ok answer ->
  answer <> VBool true ->
  same_outcome (same_but feat)
               (modify_file py self features)
               (modify_file py self (without feat features)).
Proof.
  intros Hnd Hin Hcur Hne Hexc Hnear Hans Hno.
  set (K := fun k : string => k <> feat).
  assert (Hstage : same_outcome (agree K)
                     (stage_and_validate self features)
                     (stage_and_validate self (without feat features))).
  { unfold stage_and_validate.
    destruct (len (pdf self) =? 0); cbn [bind same_outcome]; [reflexivity|].
    destruct (sorted_split features feat v Hnd Hin) as (l1 & l2 & E & H1 & H2).
    unfold without at 1. rewrite <- filter_sorted. fold (without feat (sorted features)).
    rewrite E. unfold without. rewrite filter_app. cbn [filter fst].
    rewrite String.eqb_refl. cbn [negb].
    fold (without feat l1). fold (without feat l2).
    rewrite (without_absent feat l1 H1), (without_absent feat l2 H2).
    rewrite !diff_items_app.
    eapply same_outcome_bind with (R := eq).
    - destruct (diff_items _ _ _ l1); cbn; reflexivity.
    - intros sa ? <-. cbn [diff_items].
      assert (Hitem : diff_item self (retrieve_feature_dictionary self) sa (feat, v)
                      = Ok (State (st_patcher sa)
                                  (dict_set (report sa) feat answer)
                                  (to_change sa)
                                  (validator_calls sa ++ [(feat, v)]))).
      { unfold diff_item, dict_item. rewrite Hcur. cbn [bind].
        rewrite Hne, Hexc. cbn [negb andb].
        replace (if pytype_eqb (type v) t_float then near_equal cur v
                 else Ok false)
          with (@Ok bool false).
        2:{ destruct (pytype_eqb (type v) t_float) eqn:Et; [|reflexivity].
            apply pytype_eqb_eq in Et. now rewrite (Hnear Et). }
        cbn [bind]. rewrite Hans. cbn [bind].
        replace (py_eq answer (VBool true)) with false; [reflexivity|].
        destruct (check_feature_change_valid_answer self feat v answer Hans)
          as [->|He]; [contradiction|].
        destruct answer; try discriminate; reflexivity. }
      rewrite Hitem. cbn [bind]. apply diff_items_independent.
      split; [reflexivity|]. split; [reflexivity|].
      intros k Hk. cbn [report]. apply dict_get_set_other. unfold K in Hk.
      congruence. }
  unfold modify_file.
  eapply same_outcome_bind; [exact Hstage|]. intros s1 s1' H1.
  eapply same_outcome_bind; [exact (apply_edits_independent K py self s1 s1' H1)|].
  intros s2 s2' H2.
  eapply same_outcome_bind; [exact (modify_size_independent K s2 s2' H2)|].
  intros s3 s3' (Hp & Ht & Hr). unfold finish. rewrite <- Hp, <- Ht.
  destruct (reread self _) as [fs|]; cbn [bind same_outcome]; [|reflexivity].
  split; [reflexivity|]. split; [reflexivity|].
  intros k Hk. cbn [res_report]. unfold final_report.
  apply final_report_agree. rewrite !dict_get_map_outcome. now rewrite (Hr k Hk).
Qed.

Lemma refused_request_does_not_touch_the_rest_witness :
  same_outcome (same_but "count_page")
    (modify_file sample_runtime sample
                 [("count_page", VInt 2000); ("count_font", VInt 1)])
    (modify_file sample_runtime sample
                 (without "count_page"
                          [("count_page", VInt 2000); ("count_font", VInt 1)])).
Proof.
  apply (refused_request_does_not_touch_the_rest sample_runtime sample
           [("count_page", VInt 2000); ("count_font", VInt 1)]
           "count_page" (VInt 2000) (VInt 0)
           (VMaximumExceededError "count_page" (VInt 1341) (VInt 2000))).
  - repeat constructor; cbn; intuition discriminate.
  - left. reflexivity.
  - vm_compute. reflexivity.
  - reflexivity.
  - reflexivity.
  - discriminate.
  - vm_compute. reflexivity.
  - discriminate.
Defined.

(** ** Requests that ask for nothing, and the order of a request *)

Lemma diff_item_asks_nothing (self : FeatureEdit) (st : state)
    (item : string * value) :
  asks_nothing self item ->
  diff_item self (retrieve_feature_dictionary self) st item = Ok st.
Proof.
  destruct item as [feat v]. intros (cur & Hcur & H). cbn [fst snd] in *.
  destruct H as [H|[H|H]].
  - apply (diff_item_noop self _ st feat v cur Hcur). now left.
  - unfold diff_item, dict_item. rewrite Hcur. cbn [bind]. rewrite H.
    cbn [negb]. now rewrite andb_false_r.
  - apply (diff_item_noop self _ st feat v cur Hcur). now right.
Qed.

Lemma diff_items_ask_nothing (self : FeatureEdit) (st : state)
    (items : list (string * value)) :
  (forall item, In item items -> asks_nothing self item) ->
  diff_items self (retrieve_feature_dictionary self) st items = Ok st.
Proof.
  induction items as [|item items IH]; intros H; [reflexivity|].
  cbn [diff_items]. rewrite diff_item_asks_nothing by (apply H; now left).
  cbn [bind]. apply IH. intros i Hi. apply H. now right.
Qed.

(** With nothing to change, steps 2 to 6 leave the state as it is. *)
Lemma nothing_pending_run (py : Runtime) (self : FeatureEdit)
    (p : patcher) (rep : dict value) (calls : list (string * value)) :
  (st <- apply_edits py self (State p rep [] calls) ;; modify_size st)
  = Ok (State p rep [] calls).
Proof. reflexivity. Qed.

Lemma asks_nothing_run (py : Runtime) (self : FeatureEdit)
    (features : dict value) :
  (forall item, In item features -> asks_nothing self item) ->
  modify_file py self features
  = (if len (pdf self) =? 0 then Raise ValueError
     else new_feats <- reread self (pdf self) ;;
          Ok (Result (pdf self) [] new_feats)).
Proof.
  intros H. unfold modify_file, stage_and_validate.
  destruct (len (pdf self) =? 0); [reflexivity|]. cbn [bind].
  rewrite diff_items_ask_nothing
    by (intros item Hi; apply H; now apply (proj1 (In_sorted _ _))).
  cbn [bind].
  change (bind (apply_edits py self ?s) (fun st => bind (modify_size st) ?k))
    with (bind (bind (apply_edits py self s) (fun st => modify_size st)) k).
  rewrite nothing_pending_run. reflexivity.
Qed.

(** X19.  A request that asks for nothing new (every value is the current
    one, an exception object, or a float within [1e-6] of the current
    value) gives back the bytes of the source and an empty report, and the
    validator is not consulted for any of its entries. *)
Theorem request_for_nothing_new_returns_the_source
    (py : Runtime) (self : FeatureEdit) (features : dict value) :
  (forall item, In item features -> asks_nothing self item) ->
  modify_file py self features
  = (if len (pdf self) =? 0 then Raise ValueError
     else new_feats <- reread self (pdf self) ;;
          Ok (Result (pdf self) [] new_feats))
  /\ forall st,
       stage_and_validate self features = Ok st ->
       validator_calls st = [] /\ to_change st = [] /\ report st = [].
Proof.
  intros H. split; [exact (asks_nothing_run py self features H)|].
  intros st Hst. unfold stage_and_validate in Hst.
  destruct (len (pdf self) =? 0); [discriminate|]. cbn [bind] in Hst.
  rewrite diff_items_ask_nothing in Hst
    by (intros item Hi; apply H; now apply (proj1 (In_sorted _ _))).
  injection Hst as <-. repeat split.
Qed.

Lemma request_for_nothing_new_returns_the_source_witness :
  modify_file sample_runtime sample
              [("version", VInt 3); ("size", VException ReaderError)]
  = Ok (Result sample_pdf [] [])
  /\ forall st,
       stage_and_validate sample
         [("version", VInt 3); ("size", VException ReaderError)] = Ok st ->
       validator_calls st = [] /\ to_change st = [] /\ report st = [].
Proof.
  apply (request_for_nothing_new_returns_the_source sample_runtime sample
           [("version", VInt 3); ("size", VException ReaderError)]).
  intros item [<-|[<-|[]]].
  - exists (VInt 3). split; [vm_compute; reflexivity | now left].
  - exists (VInt 150). split; [vm_compute; reflexivity | right; now left].
Defined.

Lemma ltb_irrefl (a : string) : String.ltb a a = false.
Proof.
  unfold String.ltb. destruct (String.compare a a) eqn:E; try reflexivity.
  apply String_as_OT.cmp_lt in E. exfalso.
  exact (String_as_OT.lt_not_eq _ _ E eq_refl).
Qed.

Lemma strictly_increasing_NoDup (l : list string) :
  strictly_increasing l = true -> NoDup l.
Proof.
  induction l as [|a l IH]; intros H; constructor.
  - intros Hin. pose proof (strictly_increasing_head l a a H Hin) as Hlt.
    now rewrite ltb_irrefl in Hlt.
  - apply IH. exact (strictly_increasing_tail a l H).
Qed.

Lemma NoDup_names : NoDup _pdfrate_feature_names.
Proof. exact (strictly_increasing_NoDup _ names_strictly_increasing). Qed.

(** Sorting a sorted list changes nothing. *)
Lemma sorted_of_sorted {V} (l : list (string * V)) :
  StronglySorted key_le l -> sorted l = l.
Proof.
  induction 1 as [|x l Hs IH Hx]; [reflexivity|].
  cbn [sorted fold_right]. fold (sorted l). rewrite IH.
  now apply insert_sorted_least.
Qed.

Lemma StronglySorted_same_keys {V W} (l : list (string * V)) :
  StronglySorted key_le l ->
  forall l' : list (string * W),
    map fst l' = map fst l -> StronglySorted key_le l'.
Proof.
  induction 1 as [|x l Hs IH Hx]; intros l' E.
  - destruct l'; [constructor | discriminate].
  - destruct l' as [|y l']; [discriminate|]. cbn [map] in E.
    injection E as Ey El. constructor; [now apply IH|].
    apply Forall_forall. intros z Hz.
    assert (Hk : In (fst z) (map fst l)) by (rewrite <- El; now apply in_map).
    apply in_map_iff in Hk. destruct Hk as (w & Ew & Hw).
    rewrite Forall_forall in Hx. specialize (Hx w Hw).
    unfold key_le in *. now rewrite Ey, <- Ew.
Qed.

Lemma keys_feature_dictionary (self : FeatureEdit) :
  keys (retrieve_feature_dictionary self) = _pdfrate_feature_names.
Proof.
  unfold retrieve_feature_dictionary, keys. rewrite map_map. cbn [fst].
  apply map_id.
Qed.

Lemma feature_dictionary_sorted (self : FeatureEdit) :
  sorted (retrieve_feature_dictionary self) = retrieve_feature_dictionary self.
Proof.
  apply sorted_of_sorted.
  apply (StronglySorted_same_keys (sorted _pdfrate_feature_descriptions)
           (StronglySorted_sorted _)).
  exact (keys_feature_dictionary self).
Qed.

Lemma combine_fst_snd {V} (l : list (string * V)) :
  combine (map fst l) (map snd l) = l.
Proof.
  induction l as [|[k v] l IH]; [reflexivity|]. cbn. now rewrite IH.
Qed.

Lemma dict_set_new {V} (d : dict V) (k : string) (v : V) :
  ~ In k (keys d) -> dict_set d k v = d ++ [(k, v)].
Proof.
  induction d as [|[k0 v0] d IH]; cbn; intros H; [reflexivity|].
  destruct (String.eqb k0 k) eqn:E.
  - apply String.eqb_eq in E. tauto.
  - rewrite IH by tauto. reflexivity.
Qed.

Lemma py_dict_acc {V} (l : list (string * V)) :
  forall acc : dict V,
    NoDup (keys (acc ++ l)) ->
    fold_left (fun d kv => dict_set d (fst kv) (snd kv)) l acc = acc ++ l.
Proof.
  induction l as [|[k v] l IH]; intros acc Hnd; [now rewrite app_nil_r|].
  cbn [fold_left fst snd]. rewrite dict_set_new.
  - rewrite IH; rewrite <- app_assoc; [reflexivity | exact Hnd].
  - unfold keys in *. rewrite map_app in Hnd. cbn [map fst] in Hnd.
    apply NoDup_remove_2 in Hnd. intros Hin. apply Hnd. apply in_or_app. now left.
Qed.

(** A list of pairs with distinct keys is the dictionary it makes. *)
Lemma py_dict_NoDup {V} (l : list (string * V)) :
  NoDup (keys l) -> py_dict l = l.
Proof. intros H. unfold py_dict. now rewrite py_dict_acc. Qed.

Lemma py_ne_same (v : value) :
  (forall f, v = VFloat f -> PrimFloat.eqb f f = true) ->
  py_ne v v = false \/ isinstance_Exception v = true.
Proof.
  intros H. destruct v; try (right; reflexivity); left; unfold py_ne, py_eq;
    cbn [as_num].
  - now rewrite Z.eqb_refl.
  - now rewrite (H f eq_refl).
  - now rewrite Z.eqb_refl.
Qed.

(** The own vector of the object asks for nothing. *)
Lemma own_vector_asks_nothing (self : FeatureEdit) :
  (forall name f, get_ self name = Ok (VFloat f) -> PrimFloat.eqb f f = true) ->
  features_dict (ArgList (retrieve_feature_vector self))
  = Ok (retrieve_feature_dictionary self)
  /\ forall item, In item (retrieve_feature_dictionary self) ->
                  asks_nothing self item.
Proof.
  intros Hnan. split.
  - unfold features_dict, retrieve_feature_vector. cbn [bind].
    rewrite feature_dictionary_sorted. unfold get_feature_names.
    rewrite <- (keys_feature_dictionary self). unfold keys.
    rewrite combine_fst_snd, py_dict_NoDup; [reflexivity|].
    rewrite keys_feature_dictionary. exact NoDup_names.
  - intros [k v] Hin. pose proof Hin as Hin'.
    unfold retrieve_feature_dictionary in Hin'. apply in_map_iff in Hin'.
    destruct Hin' as (m & [= <- <-] & Hm).
    assert (Hnd : NoDup (keys (retrieve_feature_dictionary self)))
      by (rewrite keys_feature_dictionary; exact NoDup_names).
    destruct (In_keys_dict_get (retrieve_feature_dictionary self) m) as [cur Hcur].
    { rewrite keys_feature_dictionary. exact Hm. }
    pose proof (dict_get_In _ _ _ Hcur) as Hc.
    pose proof (NoDup_keys_unique _ m _ _ Hnd Hc Hin) as Ecur.
    exists cur. cbn [fst snd]. split; [exact Hcur|]. rewrite <- Ecur.
    destruct (py_ne_same cur) as [H|H]; [|now left|right; now left].
    intros f Ef. apply (Hnan m). rewrite Ecur in Ef.
    destruct (get_ self m); [congruence | discriminate].
Qed.

(** X20.  Round trip: handing [modify_file] the feature vector of the
    object itself, as a list, gives back the bytes of the source and an
    empty report, provided no feature value is a NaN (which differs from
    itself). *)
Theorem own_feature_vector_changes_nothing
    (py : Runtime) (self : FeatureEdit) :
  (forall name f, get_ self name = Ok (VFloat f) -> PrimFloat.eqb f f = true) ->
  modify_file_of py self (ArgList (retrieve_feature_vector self))
  = (if len (pdf self) =? 0 then Raise ValueError
     else new_feats <- reread self (pdf self) ;;
          Ok (Result (pdf self) [] new_feats)).
Proof.
  intros Hnan. destruct (own_vector_asks_nothing self Hnan) as [E H].
  unfold modify_file_of. rewrite E. cbn [bind].
  exact (asks_nothing_run py self _ H).
Qed.

Lemma own_feature_vector_changes_nothing_witness :
  modify_file_of sample_runtime sample (ArgList (retrieve_feature_vector sample))
  = Ok (Result sample_pdf [] []).
Proof.
  apply (own_feature_vector_changes_nothing sample_runtime sample).
  intros name f H. cbn [get_ sample] in H. unfold sample_get in H.
  repeat match type of H with
         | (if ?c then _ else _) = _ => destruct c; [discriminate|]
         end.
  destruct (dict_get _ name) as [d|]; [|discriminate].
  destruct (desc_type d); try discriminate. injection H as <-. reflexivity.
Defined.

(** Two sorted lists with distinct keys and the same entries are the
    same list. *)
Lemma sorted_unique {V} (l : list (string * V)) :
  forall l',
    StronglySorted key_le l -> StronglySorted key_le l' ->
    NoDup (keys l) -> NoDup (keys l') ->
    (forall kv, In kv l <-> In kv l') -> l = l'.
Proof.
  induction l as [|x t IH]; intros [|y t'] S S' N N' H.
  - reflexivity.
  - exfalso. apply (proj2 (H y)). now left.
  - exfalso. apply (proj1 (H x)). now left.
  - inversion S as [|? ? St Hx]; subst. inversion S' as [|? ? St' Hy]; subst.
    inversion N as [|? ? Nx Nt]; subst. inversion N' as [|? ? Ny Nt']; subst.
    rewrite Forall_forall in Hx, Hy.
    assert (Exy : x = y).
    { destruct (proj1 (H x) (or_introl eq_refl)) as [E|Hxin]; [now symmetry|].
      destruct (proj2 (H y) (or_introl eq_refl)) as [E|Hyin]; [exact E|].
      pose proof (Hy x Hxin) as L1. pose proof (Hx y Hyin) as L2.
      unfold key_le in L1, L2.
      assert (Ek : fst x = fst y) by (apply String.leb_antisym; assumption).
      destruct x as [kx vx], y as [ky vy]. cbn [fst] in Ek. subst ky.
      f_equal.
      apply (NoDup_keys_unique ((kx, vx) :: t) kx vx vy N);
        [now left | now right]. }
    subst y. f_equal. apply IH; try assumption.
    intros kv. split; intros Hin.
    + destruct (proj1 (H kv) (or_intror Hin)) as [E|Hin']; [|exact Hin'].
      subst kv. exfalso. apply Nx. now apply in_map.
    + destruct (proj2 (H kv) (or_intror Hin)) as [E|Hin']; [|exact Hin'].
      subst kv. exfalso. apply Ny. now apply in_map.
Qed.

(** X21.  The order in which a request lists its entries does not matter:
    two dictionaries with the same entries give the same run. *)
Theorem request_order_is_irrelevant
    (py : Runtime) (self : FeatureEdit) (features features' : dict value) :
  NoDup (keys features) -> NoDup (keys features') ->
  (forall kv, In kv features <-> In kv features') ->
  modify_file py self features = modify_file py self features'.
Proof.
  intros N N' H. unfold modify_file, stage_and_validate.
  rewrite (sorted_unique (sorted features) (sorted features')); [reflexivity|..].
  - apply StronglySorted_sorted.
  - apply StronglySorted_sorted.
  - now apply NoDup_keys_sorted.
  - now apply NoDup_keys_sorted.
  - intros kv. rewrite !In_sorted. apply H.
Qed.

Lemma request_order_is_irrelevant_witness :
  modify_file sample_runtime sample
              [("count_page", VInt 2); ("count_font", VInt 1)]
  = modify_file sample_runtime sample
                [("count_font", VInt 1); ("count_page", VInt 2)].
Proof.
  apply request_order_is_irrelevant.
  - repeat constructor; cbn; intuition discriminate.
  - repeat constructor; cbn; intuition discriminate.
  - intros kv. cbn. tauto.
Defined.

(** ** Requests given as a vector *)

Lemma list_getitem_nonneg {A} (l : list A) (i : Z) :
  0 <= i ->
  list_getitem l i = match nth_error l (Z.to_nat i) with
                     | Some a => Ok a
                     | None => Raise IndexError
                     end.
Proof.
  intros Hi. unfold list_getitem.
  replace (i <? 0) with false by (symmetry; apply Z.ltb_ge; lia).
  now replace (i <? 0) with false by (symmetry; apply Z.ltb_ge; lia).
Qed.

Lemma catalog_typed :
  forallb typed_entry _pdfrate_feature_descriptions = true.
Proof. vm_compute. reflexivity. Qed.

(** The description at an index of the range. *)
Lemma description_by_index (i : nat) :
  (i < 135)%nat ->
  exists name d,
    nth_error _pdfrate_feature_names i = Some name
    /\ dict_get _pdfrate_feature_descriptions name = Some d
    /\ get_feature_description (ByIndex (Z.of_nat i)) = Ok d
    /\ desc_type d <> t_exception.
Proof.
  intros Hi.
  destruct (nth_error _pdfrate_feature_names i) as [name|] eqn:En.
  2:{ apply nth_error_None in En. pose proof names_length as Hl.
      unfold len, get_feature_count in Hl. lia. }
  destruct (name_described name (nth_error_In _ _ En)) as [d Hd].
  exists name, d. split; [reflexivity|]. split; [exact Hd|]. split.
  - unfold get_feature_description, get_feature_names.
    rewrite list_getitem_nonneg by lia. rewrite Nat2Z.id, En. cbn [bind].
    unfold dict_item. now rewrite Hd.
  - apply dict_get_In in Hd.
    pose proof (proj1 (forallb_forall _ _) catalog_typed _ Hd) as H.
    unfold typed_entry in H. cbn [snd] in H. intros E. rewrite E in H.
    discriminate.
Qed.

(** A branch that is taken reads its element and gives a value of the
    declared type. *)
Lemma typed_value_Ok (t : pytype) (read : res value) (r : option value) :
  t <> t_exception ->
  typed_value t read = Ok r ->
  exists x v, read = Ok x /\ r = Some v /\ type v = t.
Proof.
  intros Ht H. destruct t; [| | |contradiction]; cbn [typed_value] in H;
    destruct read as [x|]; try discriminate; cbn [bind] in H.
  - destruct (int_round x); [|discriminate]. injection H as <-. eauto.
  - destruct (py_float x); [|discriminate]. injection H as <-. eauto.
  - destruct (py_abs x); [|discriminate]. cbn [bind] in H.
    destruct (py_lt _ _); [|discriminate]. injection H as <-. eauto.
Qed.

Lemma ndarray_getitem_Ok (a : list float) (i : nat) (x : value) :
  ndarray_getitem a (Z.of_nat i) = Ok x ->
  exists f, nth_error a i = Some f /\ x = VFloat f.
Proof.
  unfold ndarray_getitem. rewrite list_getitem_nonneg by lia. rewrite Nat2Z.id.
  destruct (nth_error a i) as [f|]; [|discriminate]. cbn [bind].
  intros [= <-]. eauto.
Qed.

Lemma ndarray_loop_types (a : list float) :
  forall (n i : nat) (acc l : list value),
    (i + n <= 135)%nat ->
    ndarray_loop a acc (map Z.of_nat (seq i n)) = Ok l ->
    exists vs,
      l = acc ++ vs /\ List.length vs = n
      /\ (n <> 0%nat -> (i + n <= List.length a)%nat)
      /\ forall j name,
           nth_error _pdfrate_feature_names (i + j) = Some name ->
           (j < n)%nat ->
           exists d v,
             dict_get _pdfrate_feature_descriptions name = Some d
             /\ nth_error vs j = Some v /\ type v = desc_type d.
Proof.
  induction n as [|n IH]; intros i acc l Hi Hrun.
  - injection Hrun as <-. exists []. rewrite app_nil_r.
    repeat split; [congruence | intros; lia].
  - cbn [seq map ndarray_loop] in Hrun.
    destruct (description_by_index i) as (name & d & Hn & Hd & Hdesc & Ht); [lia|].
    rewrite Hdesc in Hrun. cbn [bind] in Hrun.
    destruct (typed_value (desc_type d) _) as [r|] eqn:Ev; [|discriminate].
    cbn [bind] in Hrun.
    destruct (typed_value_Ok _ _ _ Ht Ev) as (x & v & Hx & -> & Hv).
    destruct (ndarray_getitem_Ok _ _ _ Hx) as (f & Hf & _).
    destruct (IH (S i) _ l ltac:(lia) Hrun) as (vs & -> & Hl & Hlen & Hall).
    exists (v :: vs). rewrite <- app_assoc. split; [reflexivity|].
    split; [cbn; now rewrite Hl|]. split.
    + intros _. destruct n as [|n'].
      * assert (i < List.length a)%nat by (apply nth_error_Some; congruence). lia.
      * specialize (Hlen ltac:(discriminate)). lia.
    + intros [|j] name' Hname Hj.
      * rewrite Nat.add_0_r in Hname. assert (name' = name) by congruence.
        subst name'. exists d, v. repeat split; assumption.
      * cbn [nth_error]. apply Hall; [|lia].
        now replace (S i + j)%nat with (i + S j)%nat by lia.
Qed.

Lemma map_fst_combine {A B} (l : list A) (l' : list B) :
  List.length l = List.length l' -> map fst (combine l l') = l.
Proof.
  revert l'. induction l as [|a l IH]; intros [|b l'] H; try discriminate;
    [reflexivity|].
  cbn. rewrite IH; [reflexivity|]. cbn in H. lia.
Qed.

Lemma In_combine_nth {A B} (l : list A) (l' : list B) (a : A) (b : B) :
  In (a, b) (combine l l') ->
  exists j, nth_error l j = Some a /\ nth_error l' j = Some b.
Proof.
  revert l'. induction l as [|x l IH]; intros [|y l'] H; try destruct H.
  - injection H as -> ->. now exists 0%nat.
  - destruct (IH _ H) as (j & Ha & Hb). now exists (S j).
Qed.

(** A value of the declared type is never answered with a [TypeError]. *)
Lemma check_feature_change_valid_well_typed
    (self : FeatureEdit) (feat : string) (d : feat_desc) (v r : value) :
  dict_get _pdfrate_feature_descriptions feat = Some d ->
  type v = desc_type d ->
  check_feature_change_valid self feat v = Ok r ->
  forall got expected, r <> VTypeError got expected.
Proof.
  intros Hd Ht Hrun got expected. unfold check_feature_change_valid, dict_item in Hrun.
  rewrite Hd in Hrun. cbn [bind] in Hrun.
  replace (pytype_eqb (desc_type d) (type v)) with true in Hrun
    by (symmetry; apply pytype_eqb_eq; congruence).
  cbn [negb] in Hrun.
  destruct (edit_eqb (desc_edit d) edit_y); cbn [negb] in Hrun;
    [|injection Hrun as <-; discriminate].
  destruct (pytype_eqb (type v) t_bool); [injection Hrun as <-; discriminate|].
  destruct (get_ self feat) as [current_value|]; [|discriminate].
  cbn [bind] in Hrun.
  destruct (fst (desc_range d));
    (destruct (py_gt _ v) as [[|]|]; cbn [bind] in Hrun;
     [injection Hrun as <-; discriminate | | discriminate Hrun]);
    destruct (snd (desc_range d));
    (destruct (py_lt _ v) as [[|]|]; cbn [bind] in Hrun;
     [injection Hrun as <-; discriminate
     | injection Hrun as <-; discriminate
     | discriminate Hrun]).
Qed.

Lemma bind_Ok {A B} (a : A) (k : A -> res B) : bind (Ok a) k = k a.
Proof. reflexivity. Qed.

Lemma Ok_inj {A} (a b : A) : Ok a = Ok b -> a = b.
Proof. now intros [= ->]. Qed.

Lemma features_dict_ndarray (a : list float) :
  features_dict (ArgNdarray a)
  = (l <- ndarray_loop a [] (range0 get_feature_count) ;;
     Ok (py_dict (combine get_feature_names l))).
Proof.
  unfold features_dict. now destruct (ndarray_loop a [] _).
Qed.

Lemma features_dict_list (l : list value) :
  features_dict (ArgList l) = Ok (py_dict (combine get_feature_names l)).
Proof. reflexivity. Qed.

(** X22.  A request given as an array is decoded by the declared types:
    the run reaches the validator only for an array of at least 135
    elements, the dictionary it makes has the feature names as keys, and
    every value has the type of its feature, so that the validator never
    answers such a request with a [TypeError]. *)
Theorem array_request_has_the_declared_types
    (a : list float) (features : dict value) :
  features_dict (ArgNdarray a) = Ok features ->
  get_feature_count <= len a
  /\ keys features = get_feature_names
  /\ forall k v,
       dict_get features k = Some v ->
       exists d,
         dict_get _pdfrate_feature_descriptions k = Some d
         /\ type v = desc_type d
         /\ forall self r,
              check_feature_change_valid self k v = Ok r ->
              forall got expected, r <> VTypeError got expected.
Proof.
  rewrite features_dict_ndarray. unfold range0, get_feature_count.
  change (Z.to_nat 135) with 135%nat.
  destruct (ndarray_loop a [] _) as [l|] eqn:E; [|discriminate].
  unfold bind. intros H. apply Ok_inj in H. subst features.
  destruct (ndarray_loop_types a 135 0 [] l ltac:(lia) E)
    as (vs & -> & Hl & Hlen & Hall).
  cbn [app] in *. specialize (Hlen ltac:(discriminate)).
  pose proof names_length as Hnl. unfold len, get_feature_count in Hnl.
  assert (Hk : map fst (combine get_feature_names vs) = get_feature_names).
  { apply map_fst_combine. unfold get_feature_names. lia. }
  assert (Hd : py_dict (combine get_feature_names vs)
               = combine get_feature_names vs).
  { apply py_dict_NoDup. unfold keys. rewrite Hk. exact NoDup_names. }
  rewrite Hd. split; [unfold len; lia|]. split; [exact Hk|].
  intros k v Hget. apply dict_get_In in Hget.
  destruct (In_combine_nth _ _ _ _ Hget) as (j & Hj & Hv).
  assert (Hjn : (j < 135)%nat).
  { rewrite <- Hl. apply nth_error_Some. congruence. }
  destruct (Hall j k Hj Hjn) as (d & v' & Hdesc & Hv' & Ht).
  assert (v' = v) by congruence. subst v'.
  exists d. split; [exact Hdesc|]. split; [exact Ht|].
  intros self r Hr. exact (check_feature_change_valid_well_typed self k d v r
                             Hdesc Ht Hr).
Qed.

Lemma array_request_has_the_declared_types_witness :
  exists features,
    features_dict (ArgNdarray (repeat 2.5%float 135)) = Ok features
    /\ get_feature_count <= len (repeat 2.5%float 135)
    /\ keys features = get_feature_names
    /\ forall k v,
         dict_get features k = Some v ->
         exists d,
           dict_get _pdfrate_feature_descriptions k = Some d
           /\ type v = desc_type d
           /\ forall self r,
                check_feature_change_valid self k v = Ok r ->
                forall got expected, r <> VTypeError got expected.
Proof.
  destruct (features_dict (ArgNdarray (repeat 2.5%float 135)))
    as [features|] eqn:E; [|vm_compute in E; discriminate].
  exists features. split; [reflexivity|].
  exact (array_request_has_the_declared_types _ features E).
Defined.

Lemma typed_value_same_read (t : pytype) (r1 r2 : res value) :
  r1 = r2 -> typed_value t r1 = typed_value t r2.
Proof. now intros ->. Qed.

(** The element read in the middle of the list that
    [features_inverse_standardize] updates is the element of the array. *)
Lemma getitem_behind_converted (vs : list value) (x : list float) (i : nat) :
  List.length vs = i ->
  list_getitem (vs ++ map VFloat (skipn i x)) (Z.of_nat i)
  = ndarray_getitem x (Z.of_nat i).
Proof.
  intros Hl. unfold ndarray_getitem. rewrite !list_getitem_nonneg by lia.
  rewrite Nat2Z.id, nth_error_app2 by lia.
  replace (i - List.length vs)%nat with 0%nat by lia.
  rewrite <- (Nat.add_0_r i) at 2. rewrite <- nth_error_skipn.
  destruct (skipn i x) as [|f rest]; reflexivity.
Qed.

Lemma set_middle {A} (vs : list A) (a v : A) (rest : list A) :
  firstn (List.length vs) (vs ++ a :: rest)
  ++ v :: skipn (S (List.length vs)) (vs ++ a :: rest)
  = (vs ++ [v]) ++ rest.
Proof.
  induction vs as [|y vs IH]; [reflexivity|].
  cbn [List.length app firstn skipn]. f_equal. exact IH.
Qed.

Lemma setitem_behind_converted (vs : list value) (x : list float) (i : nat)
    (f : float) (v : value) :
  List.length vs = i -> nth_error x i = Some f ->
  list_setitem (vs ++ map VFloat (skipn i x)) (Z.of_nat i) v
  = Ok ((vs ++ [v]) ++ map VFloat (skipn (S i) x)).
Proof.
  intros Hl Hf. unfold list_setitem.
  assert (Hs : skipn i x = f :: skipn (S i) x).
  { clear Hl. revert x Hf. induction i as [|i IH]; intros [|y x] Hf;
      try discriminate.
    - now injection Hf as ->.
    - cbn [nth_error] in Hf. exact (IH x Hf). }
  rewrite Hs. cbn [map].
  replace (Z.of_nat i <? 0) with false by (symmetry; apply Z.ltb_ge; lia).
  replace (Z.of_nat i <? 0) with false by (symmetry; apply Z.ltb_ge; lia).
  replace (len (vs ++ VFloat f :: map VFloat (skipn (S i) x)) <=? Z.of_nat i)
    with false.
  2:{ symmetry. apply Z.leb_gt. rewrite len_app. unfold len. cbn [List.length]. lia. }
  cbn [orb]. rewrite Nat2Z.id. f_equal.
  generalize (map VFloat (skipn (S i) x)). intros rest. subst i.
  apply set_middle.
Qed.

(** The two loops go the same way: the list that
    [features_inverse_standardize] updates holds what [modify_file]
    appends, followed by the elements not yet reached. *)
Lemma loops_agree (x : list float) :
  forall (n i : nat) (vs : list value),
    List.length vs = i -> (i + n <= 135)%nat ->
    inverse_standardize_loop (vs ++ map VFloat (skipn i x))
                             (map Z.of_nat (seq i n))
    = (l <- ndarray_loop x vs (map Z.of_nat (seq i n)) ;;
       Ok (l ++ map VFloat (skipn (i + n) x))).
Proof.
  induction n as [|n IH]; intros i vs Hl Hi.
  - cbn [seq map inverse_standardize_loop ndarray_loop bind].
    now rewrite Nat.add_0_r.
  - cbn [seq map inverse_standardize_loop ndarray_loop].
    destruct (description_by_index i) as (name & d & Hn & Hd & Hdesc & Ht); [lia|].
    rewrite Hdesc. cbn [bind].
    rewrite (typed_value_same_read _ _ _ (getitem_behind_converted vs x i Hl)).
    destruct (typed_value (desc_type d) (ndarray_getitem x (Z.of_nat i)))
      as [r|] eqn:Ev; [|reflexivity].
    cbn [bind].
    destruct (typed_value_Ok _ _ _ Ht Ev) as (xv & v & Hx & -> & Hv).
    destruct (ndarray_getitem_Ok _ _ _ Hx) as (f & Hf & _).
    rewrite (setitem_behind_converted vs x i f v Hl Hf). cbn [bind].
    rewrite (IH (S i) (vs ++ [v])); [|rewrite length_app; cbn; lia | lia].
    now replace (S i + n)%nat with (i + S n)%nat by lia.
Qed.

Lemma combine_app_short {A B} (l : list A) (l1 l2 : list B) :
  (List.length l <= List.length l1)%nat ->
  combine l (l1 ++ l2) = combine l l1.
Proof.
  revert l1. induction l as [|a l IH]; intros [|b l1] H; cbn in *;
    try reflexivity; try lia.
  rewrite IH; [reflexivity | lia].
Qed.

(** X23.  The list that [features_inverse_standardize] returns asks for
    what the array it was made from asks for: given to [modify_file],
    the two raise the same way or give the same result. *)
Theorem inverse_standardized_list_is_the_array_request
    (py : Runtime) (self : FeatureEdit) (x : list float) :
  (l <- features_inverse_standardize x ;; modify_file_of py self (ArgList l))
  = modify_file_of py self (ArgNdarray x).
Proof.
  unfold features_inverse_standardize, modify_file_of.
  rewrite features_dict_ndarray. unfold range0, get_feature_count.
  change (Z.to_nat 135) with 135%nat.
  pose proof (loops_agree x 135 0 [] eq_refl ltac:(lia)) as H.
  cbn [app skipn] in H. rewrite H. clear H.
  destruct (ndarray_loop x [] (map Z.of_nat (seq 0 135))) as [l|] eqn:E;
    [|reflexivity].
  repeat (rewrite bind_Ok; cbv beta). rewrite features_dict_list.
  repeat (rewrite bind_Ok; cbv beta).
  destruct (ndarray_loop_types x 135 0 [] l ltac:(lia) E) as (vs & -> & Hl & _).
  cbn [app]. rewrite combine_app_short; [reflexivity|].
  pose proof names_length as Hnl. unfold len, get_feature_count in Hnl.
  unfold get_feature_names. lia.
Qed.

(** ** The feature vector *)

(** X24.  The vector of [retrieve_feature_vector] is aligned with the
    names: it has one entry for each feature, and its [i]-th entry is what
    the getter of the [i]-th name returned, or the exception it raised. *)
Theorem feature_vector_is_aligned_with_names
    (self : FeatureEdit) (i : Z) (name : string) :
  0 <= i -> get_feature_name i = Ok name ->
  len (retrieve_feature_vector self) = get_feature_count
  /\ list_getitem (retrieve_feature_vector self) i
     = Ok (match get_ self name with
           | Ok r => r
           | Raise ex => VException ex
           end).
Proof.
  intros Hi Hname. unfold retrieve_feature_vector.
  rewrite feature_dictionary_sorted. unfold retrieve_feature_dictionary.
  rewrite map_map. cbn [snd]. split.
  - unfold len. rewrite length_map. exact names_length.
  - unfold get_feature_name in Hname.
    apply list_getitem_nth in Hname; [|exact Hi].
    apply list_getitem_nth; [exact Hi|].
    rewrite nth_error_map, Hname. reflexivity.
Qed.

Lemma feature_vector_is_aligned_with_names_witness :
  len (retrieve_feature_vector sample) = get_feature_count
  /\ list_getitem (retrieve_feature_vector sample) 134
     = Ok (match get_ sample "version" with
           | Ok r => r
           | Raise ex => VException ex
           end).
Proof.
  apply feature_vector_is_aligned_with_names; [lia | vm_compute; reflexivity].
Defined.

(** ** The date step, when it returns *)

Lemma report_and_del_spec (st st' : state) (feat : string) :
  report_and_del st feat = Ok st' ->
  st_patcher st' = st_patcher st
  /\ to_change st' = dict_del (to_change st) feat.
Proof.
  unfold report_and_del. destruct (dict_item _ _); [|discriminate].
  cbn [bind]. intros [= <-]. split; reflexivity.
Qed.

(** X25.  A modification-date step that was asked and returns has put a
    new [/ModDate(D:...)] field in at the cursor, and nothing else: the
    field the document already had is still there, since overwriting it in
    place (a new date as long as the old one) never returns.  Both date
    features are then no longer pending. *)
Theorem moddate_step_adds_a_new_field
    (py : Runtime) (self : FeatureEdit) (st st' : state) :
  wf st ->
  dict_mem (to_change st) "moddate_ts" || dict_mem (to_change st) "moddate_tz"
  = true ->
  modify_moddate py self st = Ok st' ->
  exists ts_str tz_str,
    buffer st'
    = firstn (Z.to_nat (cursor st)) (buffer st)
      ++ encode ("/ModDate(D:" ++ ts_str ++ tz_str ++ ")")
      ++ skipn (Z.to_nat (cursor st)) (buffer st)
    /\ cursor st'
       = cursor st + len (encode ("/ModDate(D:" ++ ts_str ++ tz_str ++ ")"))
    /\ dict_get (to_change st') "moddate_ts" = None
    /\ dict_get (to_change st') "moddate_tz" = None
    /\ match moddate_anchor self with
       | Some (_, old_date) =>
           Z.of_nat (String.length ("D:" ++ ts_str ++ tz_str)) <> len old_date
       | None => True
       end.
Proof.
  intros [Hc Hnd] Hreq Hrun. unfold modify_moddate in Hrun.
  rewrite Hreq in Hrun.
  match type of Hrun with
  | bind ?c _ = _ => destruct c as [[ts_str st1]|] eqn:E1; [|discriminate]
  end.
  cbn [bind] in Hrun.
  match type of Hrun with
  | bind ?c _ = _ => destruct c as [[tz_str st2]|] eqn:E2; [|discriminate]
  end.
  cbn [bind] in Hrun.
  assert (P1 : st_patcher st1 = st_patcher st
               /\ NoDup (keys (to_change st1))
               /\ dict_get (to_change st1) "moddate_ts" = None).
  { destruct (dict_get (to_change st) "moddate_ts") as [ts|] eqn:Ets.
    - destruct (gmtime py ts); [|discriminate]. cbn [bind] in E1.
      destruct (report_and_del st _) as [s|] eqn:E; [|discriminate].
      cbn [bind] in E1. injection E1 as _ <-.
      destruct (report_and_del_spec _ _ _ E) as [Hp Ht]. rewrite Ht.
      split; [exact Hp|]. split; [now apply NoDup_keys_dict_del|].
      now apply dict_get_del_same.
    - destruct (get_ self "moddate_ts"); [|discriminate]. cbn [bind] in E1.
      destruct (gmtime py _); [|discriminate]. cbn [bind] in E1.
      injection E1 as _ <-. repeat split; assumption. }
  destruct P1 as (Hp1 & Hnd1 & Hts1).
  assert (P2 : st_patcher st2 = st_patcher st1
               /\ dict_get (to_change st2) "moddate_ts" = None
               /\ dict_get (to_change st2) "moddate_tz" = None).
  { destruct (dict_get (to_change st1) "moddate_tz") as [tz|] eqn:Etz.
    - match type of E2 with
      | bind ?c _ = _ => destruct c; [|discriminate]
      end.
      cbn [bind] in E2.
      destruct (report_and_del st1 _) as [s|] eqn:E; [|discriminate].
      cbn [bind] in E2. injection E2 as _ <-.
      destruct (report_and_del_spec _ _ _ E) as [Hp Ht]. rewrite Ht.
      split; [exact Hp|]. split.
      + rewrite dict_get_del_other by discriminate. exact Hts1.
      + now apply dict_get_del_same.
    - destruct (get_ self "moddate_tz"); [|discriminate]. cbn [bind] in E2.
      match type of E2 with
      | bind ?c _ = _ => destruct c; [|discriminate]
      end.
      cbn [bind] in E2. injection E2 as _ <-. repeat split; assumption. }
  destruct P2 as (Hp2 & Hts2 & Htz2).
  assert (Hc2 : cursor_ok (st_patcher st2)) by now rewrite Hp2, Hp1.
  exists ts_str, tz_str.
  assert (Hins : insert st2 ("/ModDate(D:" ++ ts_str ++ tz_str ++ ")") = Ok st' ->
                 buffer st'
                 = firstn (Z.to_nat (cursor st)) (buffer st)
                   ++ encode ("/ModDate(D:" ++ ts_str ++ tz_str ++ ")")
                   ++ skipn (Z.to_nat (cursor st)) (buffer st)
                 /\ cursor st'
                    = cursor st
                      + len (encode ("/ModDate(D:" ++ ts_str ++ tz_str ++ ")"))
                 /\ dict_get (to_change st') "moddate_ts" = None
                 /\ dict_get (to_change st') "moddate_tz" = None).
  { intros Hi.
    destruct (insert_ok st2 ("/ModDate(D:" ++ ts_str ++ tz_str ++ ")") Hc2)
      as (s & Es & Hb & Hcur & _ & Ht & _).
    rewrite Es in Hi. injection Hi as <-.
    unfold buffer, cursor in *. rewrite Hp2, Hp1 in Hb, Hcur.
    rewrite Ht. repeat split; assumption. }
  unfold write_date in Hrun.
  destruct (moddate_anchor self) as [[mod_location old_date]|].
  - destruct (Z.of_nat (String.length ("D:" ++ ts_str ++ tz_str)) =? len old_date)
      eqn:El.
    + destruct (mm_seek _ mod_location) as [mm1|]; [|discriminate].
      cbn [bind mm_write] in Hrun. discriminate.
    + apply Z.eqb_neq in El. destruct (Hins Hrun) as (A & B & C & D).
      repeat split; assumption.
  - destruct (Hins Hrun) as (A & B & C & D). repeat split; assumption.
Qed.

Lemma moddate_step_adds_a_new_field_witness :
  exists st' ts_str tz_str,
    modify_moddate sample_runtime sample moddate_state = Ok st'
    /\ buffer st'
       = firstn (Z.to_nat (cursor moddate_state)) (buffer moddate_state)
         ++ encode ("/ModDate(D:" ++ ts_str ++ tz_str ++ ")")
         ++ skipn (Z.to_nat (cursor moddate_state)) (buffer moddate_state)
    /\ dict_get (to_change st') "moddate_tz" = None.
Proof.
  destruct (modify_moddate sample_runtime sample moddate_state) as [st'|] eqn:E;
    [|vm_compute in E; discriminate].
  destruct (moddate_step_adds_a_new_field sample_runtime sample
              moddate_state st')
    as (ts_str & tz_str & Hb & _ & _ & Htz & _).
  - split.
    + unfold cursor_ok. vm_compute. repeat split; discriminate.
    + repeat constructor. cbn. tauto.
  - reflexivity.
  - exact E.
  - exists st', ts_str, tz_str. split; [reflexivity|]. split; [exact Hb | exact Htz].
Defined.

(** ** The counts of boxes *)

(** No double is at least [z1] and at most [z2] unless [z1 <= z2]. *)
Lemma float_range (f : float) (z1 z2 : Z) :
  float_ge_Z f z1 = true -> float_le_Z f z2 = true -> z1 <= z2.
Proof.
  unfold float_ge_Z, float_le_Z, compare_Z_float.
  destruct (Prim2SF f) as [s|s| |s m e].
  - destruct (z1 ?= 0) eqn:E1; try discriminate; intros _;
      destruct (z2 ?= 0) eqn:E2; try discriminate; intros _;
      rewrite ?Z.compare_eq_iff, ?Z.compare_lt_iff, ?Z.compare_gt_iff in *; lia.
  - destruct s; discriminate.
  - discriminate.
  - set (mz := if s then Z.neg m else Z.pos m).
    destruct (0 <=? e) eqn:Ee.
    + destruct (z1 ?= mz * 2 ^ e) eqn:E1; try discriminate; intros _;
        destruct (z2 ?= mz * 2 ^ e) eqn:E2; try discriminate; intros _;
        rewrite ?Z.compare_eq_iff, ?Z.compare_lt_iff, ?Z.compare_gt_iff in *; lia.
    + apply Z.leb_gt in Ee.
      assert (HP : 0 < 2 ^ (- e)) by (apply Z.pow_pos_nonneg; lia).
      destruct (z1 * 2 ^ (- e) ?= mz) eqn:E1; try discriminate; intros _;
        destruct (z2 * 2 ^ (- e) ?= mz) eqn:E2; try discriminate; intros _;
        rewrite ?Z.compare_eq_iff, ?Z.compare_lt_iff, ?Z.compare_gt_iff in *; nia.
Qed.

Lemma float_range_disjoint (f : float) (z1 z2 : Z) :
  z2 < z1 -> float_ge_Z f z1 && float_le_Z f z2 = false.
Proof.
  intros H. destruct (float_ge_Z f z1) eqn:E1; [|reflexivity].
  destruct (float_le_Z f z2) eqn:E2; [|reflexivity].
  pose proof (float_range f z1 z2 E1 E2). lia.
Qed.

(** The test of a format on a box of four numbers or more. *)
Lemma is_box_four (w_lo w_hi h_lo h_hi : Z) (b0 b1 b2 b3 : float)
    (rest : list float) :
  is_box w_lo w_hi h_lo h_hi (b0 :: b1 :: b2 :: b3 :: rest)
  = Ok (float_eq_Z b0 0 && float_eq_Z b1 0
        && (float_ge_Z b2 w_lo && float_le_Z b2 w_hi)
        && (float_ge_Z b3 h_lo && float_le_Z b3 h_hi)).
Proof.
  unfold is_box.
  change (list_getitem (b0 :: b1 :: b2 :: b3 :: rest) 0) with (Ok b0).
  change (list_getitem (b0 :: b1 :: b2 :: b3 :: rest) 1) with (Ok b1).
  change (list_getitem (b0 :: b1 :: b2 :: b3 :: rest) 2) with (Ok b2).
  change (list_getitem (b0 :: b1 :: b2 :: b3 :: rest) 3) with (Ok b3).
  cbn [bind].
  destruct (float_eq_Z b0 0); [|reflexivity].
  destruct (float_eq_Z b1 0); [|reflexivity].
  destruct (float_ge_Z b2 w_lo); [|reflexivity].
  destruct (float_le_Z b2 w_hi); [|reflexivity].
  destruct (float_ge_Z b3 h_lo); reflexivity.
Qed.

(** On a box of four numbers or more the four tests return, at most one
    of them with [True], and [__is_box_other] says whether none did. *)
Lemma box_tests (box : list float) :
  4 <= len box ->
  exists a4 letter overlap legal,
    __is_box_a4 box = Ok a4 /\ __is_box_letter box = Ok letter
    /\ __is_box_overlap box = Ok overlap /\ __is_box_legal box = Ok legal
    /\ __is_box_other box = Ok (negb (a4 || letter || overlap || legal))
    /\ Z.b2z a4 + Z.b2z letter + Z.b2z overlap + Z.b2z legal
       = Z.b2z (a4 || letter || overlap || legal).
Proof.
  intros Hlen.
  destruct box as [|b0 [|b1 [|b2 [|b3 rest]]]];
    try (unfold len in Hlen; cbn in Hlen; lia).
  unfold __is_box_other, __is_box_a4, __is_box_letter, __is_box_overlap,
    __is_box_legal.
  rewrite !is_box_four.
  pose proof (float_range_disjoint b2 610 599 ltac:(lia)) as W.
  pose proof (float_range_disjoint b3 841 793 ltac:(lia)) as H1.
  pose proof (float_range_disjoint b3 1006 793 ltac:(lia)) as H2.
  set (E := float_eq_Z b0 0 && float_eq_Z b1 0).
  set (W1 := float_ge_Z b2 596 && float_le_Z b2 599).
  set (W2 := float_ge_Z b2 610 && float_le_Z b2 613).
  set (Ha := float_ge_Z b3 841 && float_le_Z b3 844).
  set (Hl := float_ge_Z b3 790 && float_le_Z b3 793).
  set (Hg := float_ge_Z b3 1006 && float_le_Z b3 1009).
  assert (XW : W1 && W2 = false).
  { unfold W1, W2. destruct (float_ge_Z b2 596), (float_le_Z b2 613);
      cbn; rewrite ?andb_false_r; try reflexivity.
    rewrite andb_true_r. rewrite andb_comm. exact W. }
  assert (XH1 : Ha && Hl = false).
  { unfold Ha, Hl. destruct (float_le_Z b3 844), (float_ge_Z b3 790);
      cbn; rewrite ?andb_false_r; try reflexivity.
    rewrite andb_true_r. exact H1. }
  assert (XH2 : Hl && Hg = false).
  { unfold Hl, Hg. destruct (float_ge_Z b3 790), (float_le_Z b3 1009);
      cbn; rewrite ?andb_false_r; try reflexivity.
    rewrite andb_true_r. rewrite andb_comm. exact H2. }
  exists (E && W1 && Ha), (E && W2 && Hl), (E && W1 && Hl), (E && W2 && Hg).
  repeat (split; [reflexivity|]).
  clearbody E W1 W2 Ha Hl Hg. clear W H1 H2.
  destruct E, W1, W2, Ha, Hl, Hg; try discriminate; cbn; split; reflexivity.
Qed.

Lemma count_boxes_step (test : list float -> res bool) (box : list float)
    (boxes : list (list float)) (count : Z) (t : bool) :
  test box = Ok t ->
  count_boxes test (box :: boxes) count
  = count_boxes test boxes (count + Z.b2z t).
Proof.
  intros H. cbn [count_boxes]. rewrite H. cbn [bind].
  destruct t; cbn [Z.b2z]; [reflexivity | now rewrite Z.add_0_r].
Qed.

Lemma boxes_counts (boxes : list (list float)) :
  (forall box, In box boxes -> 4 <= len box) ->
  forall ca cl co cg cother cn : Z,
  exists a4 letter overlap legal other nonother only,
    count_boxes __is_box_a4 boxes ca = Ok (ca + a4)
    /\ count_boxes __is_box_letter boxes cl = Ok (cl + letter)
    /\ count_boxes __is_box_overlap boxes co = Ok (co + overlap)
    /\ count_boxes __is_box_legal boxes cg = Ok (cg + legal)
    /\ count_boxes __is_box_other boxes cother = Ok (cother + other)
    /\ count_boxes (fun box => o <- __is_box_other box ;; Ok (negb o))
                   boxes cn = Ok (cn + nonother)
    /\ get_box_other_only boxes = Ok only
    /\ a4 + letter + overlap + legal = nonother
    /\ other + nonother = len boxes
    /\ 0 <= nonother
    /\ (only = true <-> nonother = 0).
Proof.
  induction boxes as [|box boxes IH]; intros Hall ca cl co cg cother cn.
  - exists 0, 0, 0, 0, 0, 0, true. cbn [count_boxes get_box_other_only].
    rewrite !Z.add_0_r. repeat split; reflexivity.
  - destruct (box_tests box (Hall box (or_introl eq_refl)))
      as (ba & bl & bo & bg & Ea & El & Eo & Eg & Eother & Hsum).
    set (any := ba || bl || bo || bg) in *.
    destruct (IH (fun b Hb => Hall b (or_intror Hb))
                 (ca + Z.b2z ba) (cl + Z.b2z bl) (co + Z.b2z bo) (cg + Z.b2z bg)
                 (cother + Z.b2z (negb any)) (cn + Z.b2z (negb (negb any))))
      as (a & l & o & g & other & n & only & Ha & Hl & Ho & Hg & Hother & Hn
          & Honly & S1 & S2 & Hpos & Hiff).
    exists (Z.b2z ba + a), (Z.b2z bl + l), (Z.b2z bo + o), (Z.b2z bg + g),
      (Z.b2z (negb any) + other), (Z.b2z any + n),
      (if negb (negb any) then false else only).
    rewrite (count_boxes_step _ _ _ _ _ Ea), (count_boxes_step _ _ _ _ _ El),
      (count_boxes_step _ _ _ _ _ Eo), (count_boxes_step _ _ _ _ _ Eg),
      (count_boxes_step _ _ _ _ _ Eother).
    rewrite (count_boxes_step (fun box => o <- __is_box_other box ;; Ok (negb o))
               box boxes cn (negb (negb any)))
      by (cbn beta; now rewrite Eother).
    rewrite Ha, Hl, Ho, Hg, Hother, Hn, !Z.add_assoc. rewrite negb_involutive.
    repeat (split; [reflexivity|]).
    split.
    { cbn [get_box_other_only]. rewrite Eother. cbn [bind].
      rewrite negb_involutive, Honly. now destruct any. }
    split; [lia|].
    split. { unfold len in *. cbn [List.length]. destruct any; cbn [negb Z.b2z]; lia. }
    split; [destruct any; cbn [Z.b2z]; lia|].
    destruct any; cbn [Z.b2z].
    + split; [discriminate | lia].
    + rewrite Hiff. lia.
Qed.

(** X26.  On boxes of four numbers or more, the four paper formats exclude
    one another: the counts of A4, letter, overlap and legal boxes add up
    to [box_nonother_types], which with [count_box_other] adds up to the
    number of boxes; and [box_other_only] is true exactly when
    [box_nonother_types] is zero. *)
Theorem box_formats_partition (boxes : list (list float)) :
  (forall box, In box boxes -> 4 <= len box) ->
  exists a4 letter overlap legal other nonother only,
    get_count_box_a4 boxes = Ok a4
    /\ get_count_box_letter boxes = Ok letter
    /\ get_count_box_overlap boxes = Ok overlap
    /\ get_count_box_legal boxes = Ok legal
    /\ get_count_box_other boxes = Ok other
    /\ get_box_nonother_types boxes = Ok nonother
    /\ get_box_other_only boxes = Ok only
    /\ a4 + letter + overlap + legal = nonother
    /\ other + nonother = len boxes
    /\ (only = true <-> nonother = 0).
Proof.
  intros Hall.
  destruct (boxes_counts boxes Hall 0 0 0 0 0 0)
    as (a & l & o & g & other & n & only & Ha & Hl & Ho & Hg & Hother & Hn
        & Honly & S1 & S2 & _ & Hiff).
  exists a, l, o, g, other, n, only.
  unfold get_count_box_a4, get_count_box_letter, get_count_box_overlap,
    get_count_box_legal, get_count_box_other, get_box_nonother_types.
  rewrite Ha, Hl, Ho, Hg, Hother, Hn. repeat split; try assumption;
    apply Hiff.
Qed.

Lemma box_formats_partition_witness :
  exists a4 letter overlap legal other nonother only,
    get_count_box_a4 [[0; 0; 597; 842]; [0; 0; 612; 792]; [10; 10; 100; 100]]%float
    = Ok a4
    /\ get_count_box_letter
         [[0; 0; 597; 842]; [0; 0; 612; 792]; [10; 10; 100; 100]]%float = Ok letter
    /\ get_count_box_overlap
         [[0; 0; 597; 842]; [0; 0; 612; 792]; [10; 10; 100; 100]]%float = Ok overlap
    /\ get_count_box_legal
         [[0; 0; 597; 842]; [0; 0; 612; 792]; [10; 10; 100; 100]]%float = Ok legal
    /\ get_count_box_other
         [[0; 0; 597; 842]; [0; 0; 612; 792]; [10; 10; 100; 100]]%float = Ok other
    /\ get_box_nonother_types
         [[0; 0; 597; 842]; [0; 0; 612; 792]; [10; 10; 100; 100]]%float = Ok nonother
    /\ get_box_other_only
         [[0; 0; 597; 842]; [0; 0; 612; 792]; [10; 10; 100; 100]]%float = Ok only
    /\ a4 + letter + overlap + legal = nonother
    /\ other + nonother
       = len [[0; 0; 597; 842]; [0; 0; 612; 792]; [10; 10; 100; 100]]%float
    /\ (only = true <-> nonother = 0).
Proof.
  apply box_formats_partition.
  intros box [<-|[<-|[<-|[]]]]; vm_compute; discriminate.
Defined.

(** * The loops of steps 3 and 4 within a run *)










(** ** The loop of step 4 *)




